(** * Session state scanner of [server.py] ([RealtimeScanner])

    A shallow embedding of [RealtimeScanner.scan_active_sessions] and
    [RealtimeScanner._parse_session], and the properties of the scan report.

    Conventions of the embedding.
    - A Python [str] is a [string]; each character stands for one code point
      below 256, so [String.length] is Python's [len] and [String.compare] is
      Python's ordering of [str].
    - A value produced by [json.loads] is a [json]; Python's [None] is
      [JNull].  A [dict] is an association list read by [dict_get], which
      takes the first binding of a key.
    - [time.time()] and [st_mtime] are rationals.
    - The file system is what one scan sees: the entries of the projects
      directory in the order of [iterdir()], and for each project directory
      its files with what [stat()] and reading them give, a failure of
      either included.  The projects directory is absent or is listed: a
      failure of the listing itself is not part of it, and neither is the
      diagnostic that [_parse_session] prints.
    - The handlers of [HistoryHandler] are taken from the decoded body of
      the request on, and give the response that [send_json_response] is
      called with, and the text of the file at [CLAUDE_MD_PATH] afterwards;
      a failure of reading the request or of the file system is not part
      of it.  The file is written as on POSIX, where an end of line is
      stored as it is, and read in text mode.
    - An exception raised inside a [try] block is [None] in the option monad;
      an exception that leaves [scan_active_sessions] is [Raise]: the
      [OSError] of [stat()] and the [TypeError] of the sort.
    - The library functions [json.loads], [str] and the ordering [<] of
      values that are not [str] are parameters of the development. *)

From Stdlib Require Import String Ascii List ZArith QArith Bool Lia.
From Stdlib Require Import Sorting.Sorted Sorting.Permutation.
Import ListNotations.
Open Scope string_scope.
Open Scope Z_scope.

(* ================================================================= *)
(** ** Python strings *)

Module PyStr.

(** [c.isspace()] for a code point below 256. *)
Definition is_space (c : ascii) : bool :=
  let n := nat_of_ascii c in
  ((9 <=? n) && (n <=? 13) || (28 <=? n) && (n <=? 32)
   || (n =? 133) || (n =? 160))%nat.

(** [s.lstrip()] *)
Fixpoint lstrip (s : string) : string :=
  match s with
  | EmptyString => EmptyString
  | String c s' => if is_space c then lstrip s' else s
  end.

(** [s.rstrip()] *)
Fixpoint rstrip (s : string) : string :=
  match s with
  | EmptyString => EmptyString
  | String c s' =>
      match rstrip s' with
      | EmptyString => if is_space c then EmptyString else String c EmptyString
      | r => String c r
      end
  end.

(** [s.strip()] *)
Definition strip (s : string) : string := rstrip (lstrip s).

(** [s.startswith(p)] *)
Definition startswith (s p : string) : bool := String.prefix p s.

(** [s.endswith(p)] *)
Fixpoint endswith (s p : string) : bool :=
  if String.eqb s p then true
  else match s with
       | EmptyString => false
       | String _ s' => endswith s' p
       end.

(** [s[:n]] for [n >= 0] *)
Definition slice_to (n : nat) (s : string) : string := substring 0 n s.

(** [s.split(sep)] for a separator of one character: never empty. *)
Fixpoint split (sep : ascii) (s : string) : list string :=
  match s with
  | EmptyString => [EmptyString]
  | String c s' =>
      if Ascii.eqb c sep then EmptyString :: split sep s'
      else match split sep s' with
           | h :: t => String c h :: t
           | [] => [String c EmptyString]
           end
  end.

(** [sep.join(parts)] *)
Definition join (sep : string) (parts : list string) : string :=
  String.concat sep parts.

(** [s.rfind(".")], as an offset from the left; [None] is Python's -1. *)
Fixpoint rfind_dot (s : string) : option nat :=
  match s with
  | EmptyString => None
  | String c s' =>
      match rfind_dot s' with
      | Some i => Some (S i)
      | None => if Ascii.eqb c "."%char then Some O else None
      end
  end.

(** [PurePath(name).stem]: the name without its last suffix; a leading or
    a trailing dot does not start a suffix.  (The versions of [pathlib]
    differ on the names that hold dots only before their last suffix.) *)
Definition stem (name : string) : string :=
  match rfind_dot name with
  | Some i =>
      if ((0 <? i) && (i <? String.length name - 1))%nat
      then substring 0 i name else name
  | None => name
  end.

(** [fnmatch(name, "*.jsonl")] *)
Definition glob_jsonl (name : string) : bool := endswith name ".jsonl".

End PyStr.

(* ================================================================= *)
(** ** Values read from a log line *)

(** A Python [float]: finite or not. *)
Inductive pyfloat : Type :=
| FNan
| FInf (negative : bool)
| FFin (q : Q).

#[warnings="-register-all"]
Inductive json : Type :=
| JNull
| JBool (b : bool)
| JInt (z : Z)
| JFloat (f : pyfloat)
| JStr (s : string)
| JArr (items : list json)
| JObj (fields : list (string * json)).

Module Py.

(** [bool(v)] *)
Definition truthy (v : json) : bool :=
  match v with
  | JNull => false
  | JBool b => b
  | JInt z => negb (z =? 0)
  | JFloat FNan => true
  | JFloat (FInf _) => true
  | JFloat (FFin q) => negb (Qnum q =? 0)
  | JStr s => negb (String.eqb s "")
  | JArr l => match l with [] => false | _ => true end
  | JObj kv => match kv with [] => false | _ => true end
  end.

(** [a or b] *)
Definition or_else (a b : json) : json := if truthy a then a else b.

(** [v == s] for a [str] literal [s] *)
Definition eq_str (v : json) (s : string) : bool :=
  match v with
  | JStr t => String.eqb t s
  | _ => false
  end.

(** Lookup in a [dict]. *)
Fixpoint dict_get (kv : list (string * json)) (k : string) : option json :=
  match kv with
  | [] => None
  | (k', v) :: kv' => if String.eqb k' k then Some v else dict_get kv' k
  end.

(** [d.get(k, default)] on a [dict] *)
Definition dget (kv : list (string * json)) (k : string) (default : json) : json :=
  match dict_get kv k with
  | Some v => v
  | None => default
  end.

(** [v.get(k, default)] on any value: only a [dict] has [get]
    ([AttributeError] otherwise). *)
Definition get (v : json) (k : string) (default : json) : option json :=
  match v with
  | JObj kv => Some (dget kv k default)
  | _ => None
  end.

(** [isinstance(v, dict)] *)
Definition is_dict (v : json) : bool :=
  match v with JObj _ => true | _ => false end.

(** The items of [for item in v]: a list gives its items, a [str] its
    characters, a [dict] its keys; anything else is not iterable
    ([TypeError]). *)
Definition chars (s : string) : list json :=
  map (fun c => JStr (String c EmptyString)) (list_ascii_of_string s).

Definition iter (v : json) : option (list json) :=
  match v with
  | JArr l => Some l
  | JStr s => Some (chars s)
  | JObj kv => Some (map (fun p => JStr (fst p)) kv)
  | _ => None
  end.

(** [len(v)] ([TypeError] on a value without a length) *)
Definition len (v : json) : option nat :=
  match v with
  | JStr s => Some (String.length s)
  | JArr l => Some (List.length l)
  | JObj kv => Some (List.length kv)
  | _ => None
  end.

(** [v[:n]]: a [str] and a [list] can be sliced. *)
Definition slice_to (n : nat) (v : json) : option json :=
  match v with
  | JStr s => Some (JStr (PyStr.slice_to n s))
  | JArr l => Some (JArr (firstn n l))
  | _ => None
  end.

(** [v + s] for a [str] literal [s] *)
Definition add_str (v : json) (s : string) : option json :=
  match v with
  | JStr t => Some (JStr (t ++ s))
  | _ => None
  end.

(** [v.strip()]: only a [str] has [strip]. *)
Definition strip (v : json) : option string :=
  match v with
  | JStr s => Some (PyStr.strip s)
  | _ => None
  end.

(** [int(x)] of a float: truncation towards zero. *)
Definition int_of (x : Q) : Z := Z.quot (Qnum x) (Zpos (Qden x)).

(** [x > n] for a float [x] and an integer constant [n] *)
Definition gt (x : Q) (n : Z) : bool := negb (Qle_bool x (inject_Z n)).

End Py.

(** The option monad of a [try] block: [None] is a raised exception. *)
Notation "x <- e ;; k" :=
  (match e with Some x => k | None => None end)
    (at level 61, e at next level, right associativity).

(* ================================================================= *)
(** ** The file system read by a scan *)

(** An entry of a project directory: its name; [stat().st_mtime], [None]
    when [stat()] raises (a link to nothing, a file removed since the
    listing); and what [open(...).readlines()] gives, [None] when opening
    or reading raises (a directory, a file that cannot be read or
    decoded). *)
Record file_node : Type := {
  f_name : string;
  f_mtime : option Q;
  f_lines : option (list string)
}.

(** An entry of the projects directory, in the order of [iterdir()]; the
    children of a directory are in the order of [glob()]. *)
Inductive dir_entry : Type :=
| Dir (name : string) (children : list file_node)
| NotDir (name : string).

(** [CLAUDE_PROJECTS_DIR]: [None] when it does not exist. *)
Definition projects_dir : Type := option (list dir_entry).

(* ================================================================= *)
(** ** The report *)

Record pending : Type := {
  pa_type : string;
  pa_tool_name : json;
  pa_description : json
}.

Record tool_ref : Type := {
  lt_name : json;
  lt_timestamp : json
}.

Record snapshot : Type := {
  session_id : json;
  project_path : string;
  project_name : string;
  state : string;
  last_activity : json;
  idle_seconds : Z;
  model : json;
  last_tool : option tool_ref;
  last_message_preview : json;
  pending_approval : option pending
}.

Record report : Type := {
  timestamp : string;
  active_sessions : list snapshot;
  waiting_count : Z;
  processing_count : Z;
  projects_with_waiting : list string
}.

(** The exceptions that leave a scan: the [TypeError] of a comparison in
    the sort, and the [OSError] that [stat()] raises on the file
    [session_file] of the project directory [proj_dir]. *)
Inductive exn : Type :=
| TypeError
| OSError (proj_dir session_file : string).

(** What a call gives: a value, or an exception that leaves it. *)
Inductive outcome (A : Type) : Type :=
| Ok (a : A)
| Raise (e : exn).

Arguments Ok {A} a.
Arguments Raise {A} e.

(** [for x in l: body], from the state [a]: an exception of the body leaves
    the loop. *)
Fixpoint for_each {A B : Type} (body : A -> B -> outcome A) (l : list B)
         (a : A) : outcome A :=
  match l with
  | [] => Ok a
  | x :: l' =>
      match body a x with
      | Ok a' => for_each body l' a'
      | Raise e => Raise e
      end
  end.

(* ================================================================= *)
(** ** [list.sort(key=..., reverse=True)] *)

Section Sort.

Variable A : Type.
(** The key of an item. *)
Variable key : A -> json.
(** [a < b] on keys; [None] when the comparison raises [TypeError]. *)
Variable lt : json -> json -> option bool.

(** [x] goes after the items that are greater and before the first item
    that is not: items of equal keys keep their order. *)
Fixpoint insert_desc (x : A) (l : list A) : option (list A) :=
  match l with
  | [] => Some [x]
  | y :: l' =>
      match lt (key x) (key y) with
      | None => None
      | Some true => l'' <- insert_desc x l' ;; Some (y :: l'')
      | Some false => Some (x :: l)
      end
  end.

(** A stable sort into descending order of the keys that uses only [<],
    and fails when a comparison fails.  Python leaves open which pairs
    [list.sort] compares; this one compares each item with the head of
    the items already sorted. *)
Fixpoint sort_desc (l : list A) : option (list A) :=
  match l with
  | [] => Some []
  | x :: l' => s <- sort_desc l' ;; insert_desc x s
  end.

(** The key is a [str]. *)
Definition str_key (x : A) : bool :=
  match key x with JStr _ => true | _ => false end.

(** The text of a [str] key. *)
Definition key_text (x : A) : string :=
  match key x with JStr s => s | _ => "" end.

(** [a] may stand before [b] in descending order. *)
Definition not_below (a b : A) : Prop :=
  String.leb (key_text b) (key_text a) = true.

End Sort.

Arguments insert_desc {A} key lt x l.
Arguments sort_desc {A} key lt l.
Arguments str_key {A} key x.
Arguments key_text {A} key x.
Arguments not_below {A} key a b.

(* ================================================================= *)
(** ** [class RealtimeScanner] *)

Module RealtimeScanner.

Definition ACTIVE_THRESHOLD_SECONDS : Z := 600.
Definition IDLE_THRESHOLD_SECONDS : Z := 300.

(** The local variables that the branches of [_parse_session] assign. *)
Record vars : Type := {
  v_state : string;
  v_pending_approval : option pending;
  v_last_tool : option tool_ref;
  v_last_message_preview : json;
  v_has_question : bool
}.

Definition init_vars : vars :=
  {| v_state := "unknown";
     v_pending_approval := None;
     v_last_tool := None;
     v_last_message_preview := JStr "";
     v_has_question := false |}.

Definition set_state (s : string) (v : vars) : vars :=
  {| v_state := s;
     v_pending_approval := v_pending_approval v;
     v_last_tool := v_last_tool v;
     v_last_message_preview := v_last_message_preview v;
     v_has_question := v_has_question v |}.

(** [project_name], [project_path] of a project directory. *)
Definition project_of (dir_name : string) : string * string :=
  if PyStr.startswith dir_name "-" then
    let parts := PyStr.split "-"%char dir_name in
    let project_name :=
      match parts with [] => dir_name | _ => last parts "" end in
    let project_path :=
      if (1 <? List.length parts)%nat
      then "/" ++ PyStr.join "/" (tl parts) else dir_name in
    (project_name, project_path)
  else (dir_name, dir_name).

(** [lines[-n:]] *)
Definition last_lines (n : nat) (lines : list string) : list string :=
  skipn (List.length lines - n) lines.

(** The first [tool_use] item of a content list, as a [last_tool]. *)
Fixpoint first_tool_use (entry_timestamp : json) (items : list json)
  : option tool_ref :=
  match items with
  | [] => None
  | JObj kv :: rest =>
      if Py.eq_str (Py.dget kv "type" JNull) "tool_use"
      then Some {| lt_name := Py.dget kv "name" (JStr "Unknown");
                   lt_timestamp := entry_timestamp |}
      else first_tool_use entry_timestamp rest
  | _ :: rest => first_tool_use entry_timestamp rest
  end.

Section WithLibrary.

(** [json.loads]: [None] when it raises. *)
Variable json_loads : string -> option json.
(** [str] of a value. *)
Variable py_str : json -> string.
(** [a < b] when neither is a [str]. *)
Variable py_lt_other : json -> json -> option bool.

(** [a < b]: two [str] compare by code points, a [str] and a value of
    another type do not compare. *)
Definition py_lt (a b : json) : option bool :=
  match a, b with
  | JStr s, JStr t => Some (String.ltb s t)
  | JStr _, _ => None
  | _, JStr _ => None
  | _, _ => py_lt_other a b
  end.

(** The branch of a [tool_use] item, up to its [break]. *)
Definition on_tool_use (entry_timestamp : json)
           (item : list (string * json)) (v : vars) : option vars :=
  let tool_name := Py.dget item "name" (JStr "Unknown") in
  let tool_input := Py.dget item "input" (JObj []) in
  let last_tool := Some {| lt_name := tool_name;
                           lt_timestamp := entry_timestamp |} in
  if Py.eq_str tool_name "AskUserQuestion" then
    questions <- Py.get tool_input "questions" (JArr []) ;;
    Some {| v_state := "waiting_for_question";
            v_pending_approval :=
              Some {| pa_type := "question";
                      pa_tool_name := tool_name;
                      pa_description :=
                        JStr (PyStr.slice_to 100 (py_str questions)) |};
            v_last_tool := last_tool;
            v_last_message_preview := v_last_message_preview v;
            v_has_question := true |}
  else
    command <- Py.get tool_input "command" (JStr "") ;;
    fallback <- Py.slice_to 100 command ;;
    description <- Py.get tool_input "description" fallback ;;
    Some {| v_state := "waiting_for_approval";
            v_pending_approval :=
              Some {| pa_type := "tool_use";
                      pa_tool_name := tool_name;
                      pa_description := description |};
            v_last_tool := last_tool;
            v_last_message_preview := v_last_message_preview v;
            v_has_question := v_has_question v |}.

(** The branch of a [text] item. *)
Definition on_text (item : list (string * json)) (v : vars) : option vars :=
  let text := Py.dget item "text" (JStr "") in
  n <- Py.len text ;;
  preview <- (if (150 <? n)%nat
              then (t <- Py.slice_to 150 text ;; Py.add_str t "...")
              else Some text) ;;
  stripped <- Py.strip text ;;
  Some {| v_state := v_state v;
          v_pending_approval := v_pending_approval v;
          v_last_tool := v_last_tool v;
          v_last_message_preview := preview;
          v_has_question :=
            if PyStr.endswith stripped "?" then true
            else v_has_question v |}.

(** [for item in content: ...] *)
Fixpoint for_items (entry_timestamp : json) (content : list json) (v : vars)
  : option vars :=
  match content with
  | [] => Some v
  | JObj item :: rest =>
      if Py.eq_str (Py.dget item "type" JNull) "tool_use" then
        on_tool_use entry_timestamp item v
      else if Py.eq_str (Py.dget item "type" JNull) "text" then
        v' <- on_text item v ;; for_items entry_timestamp rest v'
      else for_items entry_timestamp rest v
  | _ :: rest => for_items entry_timestamp rest v
  end.

(** The branch [elif entry_type == "assistant"]. *)
Definition on_assistant (last_entry : json) : option vars :=
  message <- Py.get last_entry "message" (JObj []) ;;
  content <- Py.get message "content" (JArr []) ;;
  items <- Py.iter content ;;
  entry_timestamp <- Py.get last_entry "timestamp" JNull ;;
  v <- for_items entry_timestamp items init_vars ;;
  Some (if String.eqb (v_state v) "unknown"
        then set_state (if v_has_question v then "waiting_for_question"
                        else "task_complete") v
        else v).

(** The chain [if age_seconds > ...: ... elif ... else] that sets [state]. *)
Definition decide (age_seconds : Q) (last_entry entry_type : json)
  : option vars :=
  if Py.gt age_seconds IDLE_THRESHOLD_SECONDS
  then Some (set_state "idle" init_vars)
  else if Py.eq_str entry_type "user"
  then Some (set_state "processing" init_vars)
  else if Py.eq_str entry_type "assistant"
  then on_assistant last_entry
  else Some init_vars.

(** One turn of the loop over the last lines: the [last_tool] of the
    line; [None] when there is none or the line raises. *)
Definition tool_of_line (line : string) : option tool_ref :=
  entry <- json_loads (PyStr.strip line) ;;
  entry_type <- Py.get entry "type" JNull ;;
  if Py.eq_str entry_type "assistant" then
    message <- Py.get entry "message" (JObj []) ;;
    content <- Py.get message "content" (JArr []) ;;
    items <- Py.iter content ;;
    entry_timestamp <- Py.get entry "timestamp" JNull ;;
    first_tool_use entry_timestamp items
  else None.

(** [for line in reversed(lines[-10:])]: stops at the first hit. *)
Fixpoint recent_tool (lines : list string) : option tool_ref :=
  match lines with
  | [] => None
  | line :: rest =>
      match tool_of_line line with
      | Some t => Some t
      | None => recent_tool rest
      end
  end.

(** [_parse_session]: [None] for no lines and for any exception. *)
Definition parse_session (session_file : file_node)
           (project_name project_path : string) (age_seconds : Q)
  : option snapshot :=
  lines <- f_lines session_file ;;
  match lines with
  | [] => None
  | _ =>
      last_entry <- json_loads (PyStr.strip (last lines "")) ;;
      entry_type <- Py.get last_entry "type" (JStr "unknown") ;;
      session_id <- Py.get last_entry "sessionId"
                      (JStr (PyStr.stem (f_name session_file))) ;;
      v <- (if Py.gt age_seconds IDLE_THRESHOLD_SECONDS
            then Some (set_state "idle" init_vars)
            else if Py.eq_str entry_type "user"
            then Some (set_state "processing" init_vars)
            else if Py.eq_str entry_type "assistant"
            then on_assistant last_entry
            else Some init_vars) ;;
      message <- Py.get last_entry "message" (JObj []) ;;
      model <- Py.get message "model" (JStr "unknown") ;;
      let last_tool :=
        match v_last_tool v with
        | Some t => Some t
        | None => recent_tool (rev (last_lines 10 lines))
        end in
      last_activity <- Py.get last_entry "timestamp" JNull ;;
      Some {| session_id := session_id;
              project_path := project_path;
              project_name := project_name;
              state := v_state v;
              last_activity := last_activity;
              idle_seconds := Py.int_of age_seconds;
              model := model;
              last_tool := last_tool;
              last_message_preview := v_last_message_preview v;
              pending_approval := v_pending_approval v |}
  end.

(** The report before the first file. *)
Definition empty_report (timestamp : string) : report :=
  {| timestamp := timestamp;
     active_sessions := [];
     waiting_count := 0;
     processing_count := 0;
     projects_with_waiting := [] |}.

(** The body of [if session_info:]. *)
Definition accumulate (result : report) (project_name : string)
           (session_info : snapshot) : report :=
  let sessions := (active_sessions result ++ [session_info])%list in
  if String.eqb (state session_info) "waiting_for_question"
     || String.eqb (state session_info) "waiting_for_approval"
  then {| timestamp := timestamp result;
          active_sessions := sessions;
          waiting_count := waiting_count result + 1;
          processing_count := processing_count result;
          projects_with_waiting :=
            if existsb (String.eqb project_name)
                       (projects_with_waiting result)
            then projects_with_waiting result
            else (projects_with_waiting result ++ [project_name])%list |}
  else if String.eqb (state session_info) "processing"
  then {| timestamp := timestamp result;
          active_sessions := sessions;
          waiting_count := waiting_count result;
          processing_count := processing_count result + 1;
          projects_with_waiting := projects_with_waiting result |}
  else {| timestamp := timestamp result;
          active_sessions := sessions;
          waiting_count := waiting_count result;
          processing_count := processing_count result;
          projects_with_waiting := projects_with_waiting result |}.

(** The body of [for session_file in proj_dir.glob("*.jsonl")], in the
    project directory [dir_name]. *)
Definition scan_file (now : Q) (dir_name project_name project_path : string)
           (result : report) (session_file : file_node) : outcome report :=
  if PyStr.startswith (f_name session_file) "agent-" then Ok result
  else
    match f_mtime session_file with
    | None => Raise (OSError dir_name (f_name session_file))
    | Some mtime =>
        let age_seconds := (now - mtime)%Q in
        if Py.gt age_seconds ACTIVE_THRESHOLD_SECONDS then Ok result
        else match parse_session session_file project_name project_path
                                 age_seconds with
             | Some session_info =>
                 Ok (accumulate result project_name session_info)
             | None => Ok result
             end
    end.

(** The body of [for proj_dir in CLAUDE_PROJECTS_DIR.iterdir()]. *)
Definition scan_dir (now : Q) (result : report) (proj_dir : dir_entry)
  : outcome report :=
  match proj_dir with
  | NotDir _ => Ok result
  | Dir dir_name children =>
      let (project_name, project_path) := project_of dir_name in
      for_each (scan_file now dir_name project_name project_path)
               (filter (fun f => PyStr.glob_jsonl (f_name f)) children)
               result
  end.

(** [key=lambda x: x.get("last_activity") or ""] *)
Definition sort_key (x : snapshot) : json :=
  Py.or_else (last_activity x) (JStr "").

Definition with_sessions (result : report) (l : list snapshot) : report :=
  {| timestamp := timestamp result;
     active_sessions := l;
     waiting_count := waiting_count result;
     processing_count := processing_count result;
     projects_with_waiting := projects_with_waiting result |}.

(** [scan_active_sessions]; [timestamp] is what
    [datetime.now(timezone.utc).isoformat()] gives and [now] what
    [time.time()] gives. *)
Definition scan_active_sessions (timestamp : string) (now : Q)
           (root : projects_dir) : outcome report :=
  let result := empty_report timestamp in
  match root with
  | None => Ok result
  | Some entries =>
      match for_each (scan_dir now) entries result with
      | Raise e => Raise e
      | Ok result =>
          match sort_desc sort_key py_lt (active_sessions result) with
          | Some sorted => Ok (with_sessions result sorted)
          | None => Raise TypeError
          end
      end
  end.

End WithLibrary.

End RealtimeScanner.

(* ================================================================= *)
(** ** Log lines of the examples *)

Module Demo.

(** The text with every apostrophe turned into a quotation mark. *)
Fixpoint quoted (s : string) : string :=
  match s with
  | EmptyString => EmptyString
  | String c s' =>
      String (if Ascii.eqb c "'"%char then "034"%char else c) (quoted s')
  end.

Definition obj_tool (name : string) (input : list (string * json)) : json :=
  JObj [("type", JStr "tool_use"); ("name", JStr name); ("input", JObj input)].

Definition obj_text (text : string) : json :=
  JObj [("type", JStr "text"); ("text", JStr text)].

Definition assistant (content : list json) : json :=
  JObj [("type", JStr "assistant"); ("message", JObj [("content", JArr content)])].

Definition bash_line : string :=
  quoted "{'type':'assistant','message':{'content':[{'type':'tool_use','name':'Bash','input':{'command':'ls -la'}}]}}".
Definition bash_entry : json :=
  assistant [obj_tool "Bash" [("command", JStr "ls -la")]].

Definition bash_then_ask_line : string :=
  quoted "{'type':'assistant','message':{'content':[{'type':'tool_use','name':'Bash','input':{'command':'ls'}},{'type':'tool_use','name':'AskUserQuestion','input':{'questions':[]}}]}}".
Definition bash_then_ask_entry : json :=
  assistant [obj_tool "Bash" [("command", JStr "ls")];
             obj_tool "AskUserQuestion" [("questions", JArr [])]].

Definition ask_line : string :=
  quoted "{'type':'assistant','message':{'content':[{'type':'text','text':'One moment.'},{'type':'tool_use','name':'AskUserQuestion','input':{'questions':[]}}]}}".
Definition ask_entry : json :=
  assistant [obj_text "One moment.";
             obj_tool "AskUserQuestion" [("questions", JArr [])]].

Definition done_line : string :=
  quoted "{'type':'assistant','message':{'content':[{'type':'text','text':'Done.'}]}}".
Definition done_entry : json := assistant [obj_text "Done."].

Definition anything_else_line : string :=
  quoted "{'type':'assistant','message':{'content':[{'type':'text','text':'Done. Anything else?'}]}}".
Definition anything_else_entry : json :=
  assistant [obj_text "Done. Anything else?"].

Definition bare_assistant_line : string := quoted "{'type':'assistant'}".
Definition bare_assistant_entry : json := JObj [("type", JStr "assistant")].

Definition user_line : string := quoted "{'type':'user'}".
Definition user_entry : json := JObj [("type", JStr "user")].

Definition user_at_line : string :=
  quoted "{'type':'user','timestamp':'2024-01-02T00:00:00Z'}".
Definition user_at_entry : json :=
  JObj [("type", JStr "user"); ("timestamp", JStr "2024-01-02T00:00:00Z")].

Definition number_stamp_line : string := quoted "{'timestamp':5}".
Definition number_stamp_entry : json := JObj [("timestamp", JInt 5)].

Definition string_stamp_line : string :=
  quoted "{'timestamp':'2024-01-01T00:00:00Z'}".
Definition string_stamp_entry : json :=
  JObj [("timestamp", JStr "2024-01-01T00:00:00Z")].

Definition number_message_line : string := quoted "{'message':5}".
Definition number_message_entry : json := JObj [("message", JInt 5)].

(** What [json.loads] gives on the lines above. *)
Definition table : list (string * json) :=
  [ (bash_line, bash_entry);
    (bash_then_ask_line, bash_then_ask_entry);
    (ask_line, ask_entry);
    (done_line, done_entry);
    (anything_else_line, anything_else_entry);
    (bare_assistant_line, bare_assistant_entry);
    (user_line, user_entry);
    (user_at_line, user_at_entry);
    (number_stamp_line, number_stamp_entry);
    (string_stamp_line, string_stamp_entry);
    (number_message_line, number_message_entry) ].

(** [json.loads] on the lines of [table]; every other text is taken as
    one that does not parse. *)
Definition loads (s : string) : option json := Py.dict_get table s.

(** [str] on the values that the examples pass to it. *)
Definition str (v : json) : string :=
  match v with
  | JNull => "None"
  | JBool true => "True"
  | JBool false => "False"
  | JArr [] => "[]"
  | JObj [] => "{}"
  | _ => ""
  end.

(** [<] on integers; the other values are taken as not ordered. *)
Definition lt_other (a b : json) : option bool :=
  match a, b with
  | JInt x, JInt y => Some (x <? y)
  | _, _ => None
  end.

Definition file (name : string) (mtime : Q) (lines : list string) : file_node :=
  {| f_name := name; f_mtime := Some mtime; f_lines := Some lines |}.

(** The fields of an object. *)
Definition fields (v : json) : list (string * json) :=
  match v with JObj kv => kv | _ => [] end.

(** A line as [readlines] gives it, with its end of line. *)
Definition ended (line : string) : string :=
  line ++ String "010"%char EmptyString.

(** One project directory with the given log files. *)
Definition alice (children : list file_node) : projects_dir :=
  Some [Dir "-Users-alice-proj" children].

Definition parse := RealtimeScanner.parse_session loads str.
Definition scan := RealtimeScanner.scan_active_sessions loads str lt_other.

End Demo.


(* ================================================================= *)
(** ** The words of the specification *)

Module Spec.

(** The last segment that is not empty, when there is one. *)
Definition last_nonempty (parts : list string) : option string :=
  last (map Some (filter (fun p => negb (String.eqb p "")) parts)) None.

(** "[project_name] is the last non-empty segment (or the whole name if
    no segments)". *)
Definition project_name (dir_name : string) : string :=
  match last_nonempty (PyStr.split "-"%char dir_name) with
  | Some p => p
  | None => dir_name
  end.

End Spec.

(* ================================================================= *)
(** ** Shapes of log entries and content items *)

Module Entry.

(** A [dict] item of type [tool_use]. *)
Definition is_tool_use (item : json) : bool :=
  match item with
  | JObj kv => Py.eq_str (Py.dget kv "type" JNull) "tool_use"
  | _ => false
  end.

(** A [dict] item of type [text]. *)
Definition is_text (item : json) : bool :=
  match item with
  | JObj kv => Py.eq_str (Py.dget kv "type" JNull) "text"
  | _ => false
  end.

(** The text of a [text] item, when it is a [str]; an absent [text] field
    is the empty text. *)
Definition text_of (item : json) : option string :=
  match item with
  | JObj kv =>
      match Py.dget kv "text" (JStr "") with
      | JStr s => Some s
      | _ => None
      end
  | _ => None
  end.

(** A [text] item carries literal text. *)
Definition literal (item : json) : bool :=
  if is_text item
  then match text_of item with Some _ => true | None => false end
  else true.

(** A [text] item whose trimmed text ends with a question mark. *)
Definition asks (item : json) : bool :=
  is_text item &&
  match text_of item with
  | Some s => PyStr.endswith (PyStr.strip s) "?"
  | None => false
  end.

(** The name of a [tool_use] item; an absent name is "Unknown". *)
Definition tool_name (item : json) : json :=
  match item with
  | JObj kv => Py.dget kv "name" (JStr "Unknown")
  | _ => JNull
  end.

(** A [tool_use] item of the given name. *)
Definition named (name : string) (item : json) : bool :=
  is_tool_use item && Py.eq_str (tool_name item) name.

(** The [input] of a [tool_use] item is absent or an object. *)
Definition input_is_object (item : json) : bool :=
  match item with
  | JObj kv => Py.is_dict (Py.dget kv "input" (JObj []))
  | _ => false
  end.

(** The [message] field of the entry is absent or an object. *)
Definition message_is_object (entry : list (string * json)) : bool :=
  Py.is_dict (Py.dget entry "message" (JObj [])).

(** The content list of the entry is [items]: a list in the [content]
    field of the [message] object, or nothing when [message] or
    [content] is absent. *)
Definition content_is (entry : list (string * json)) (items : list json)
  : Prop :=
  match Py.dict_get entry "message" with
  | None => items = []
  | Some (JObj message) =>
      match Py.dict_get message "content" with
      | None => items = []
      | Some (JArr l) => items = l
      | Some _ => False
      end
  | Some _ => False
  end.

(** An entry of type [assistant] with content list [items]. *)
Definition assistant (entry : list (string * json)) (items : list json)
  : Prop :=
  Py.dict_get entry "type" = Some (JStr "assistant") /\ content_is entry items.

(** The last line of the file, trimmed, is read as [entry] by [loads]. *)
Definition last_entry (loads : string -> option json) (f : file_node)
           (entry : json) : Prop :=
  exists lines line,
    f_lines f = Some (lines ++ [line])%list /\
    loads (PyStr.strip line) = Some entry.

End Entry.

(* ================================================================= *)
(** ** Reports compared *)

(** The report with another time stamp. *)
Definition with_timestamp (ts : string) (r : report) : report :=
  {| timestamp := ts;
     active_sessions := active_sessions r;
     waiting_count := waiting_count r;
     processing_count := processing_count r;
     projects_with_waiting := projects_with_waiting r |}.

(** The outcome with another time stamp. *)
Definition stamped (ts : string) (o : outcome report) : outcome report :=
  match o with
  | Ok r => Ok (with_timestamp ts r)
  | Raise e => Raise e
  end.

(** Two outcomes that differ at most in the time stamp of the report. *)
Definition same_but_timestamp (a b : outcome report) : Prop :=
  match a, b with
  | Ok r1, Ok r2 =>
      active_sessions r1 = active_sessions r2 /\
      waiting_count r1 = waiting_count r2 /\
      processing_count r1 = processing_count r2 /\
      projects_with_waiting r1 = projects_with_waiting r2
  | Raise e1, Raise e2 => e1 = e2
  | _, _ => False
  end.

(** The text by which a snapshot is ordered, when its [last_activity] is a
    [str] or absent: absent counts as the empty text. *)
Definition activity (s : snapshot) : option string :=
  match last_activity s with
  | JNull => Some ""
  | JStr t => Some t
  | _ => None
  end.

(* ================================================================= *)
(** ** Shapes of the state variables and of the snapshots *)

Module Shape.

(** The states that a snapshot can carry. *)
Definition states : list string :=
  ["idle"; "processing"; "waiting_for_question"; "waiting_for_approval";
   "task_complete"; "unknown"].

(** A waiting state. *)
Definition waiting (state : string) : bool :=
  String.eqb state "waiting_for_question"
  || String.eqb state "waiting_for_approval".

(** No [tool_use] item has been met: nothing but the preview and the
    question flag has been assigned. *)
Definition fresh (v : RealtimeScanner.vars) : Prop :=
  RealtimeScanner.v_state v = "unknown" /\
  RealtimeScanner.v_pending_approval v = None /\
  RealtimeScanner.v_last_tool v = None /\
  exists p, RealtimeScanner.v_last_message_preview v = JStr p.

(** A [tool_use] item has been met in an entry of time stamp [ts]. *)
Definition stopped (ts : json) (v : RealtimeScanner.vars) : Prop :=
  (exists p, RealtimeScanner.v_last_message_preview v = JStr p) /\
  exists name,
    RealtimeScanner.v_last_tool v
    = Some {| lt_name := name; lt_timestamp := ts |} /\
    ((name = JStr "AskUserQuestion" /\
      RealtimeScanner.v_state v = "waiting_for_question" /\
      exists d, RealtimeScanner.v_pending_approval v
                = Some {| pa_type := "question"; pa_tool_name := name;
                          pa_description := JStr d |}) \/
     (Py.eq_str name "AskUserQuestion" = false /\
      RealtimeScanner.v_state v = "waiting_for_approval" /\
      exists d, RealtimeScanner.v_pending_approval v
                = Some {| pa_type := "tool_use"; pa_tool_name := name;
                          pa_description := d |})).

(** The pending approval goes with the state: a question with
    "waiting_for_question", a tool use with "waiting_for_approval", and
    there is one whenever the state is "waiting_for_approval". *)
Definition pending_fits (s : snapshot) : Prop :=
  match pending_approval s with
  | Some p =>
      (pa_type p = "question" /\ state s = "waiting_for_question" /\
       pa_tool_name p = JStr "AskUserQuestion") \/
      (pa_type p = "tool_use" /\ state s = "waiting_for_approval" /\
       pa_tool_name p <> JStr "AskUserQuestion")
  | None => state s <> "waiting_for_approval"
  end.

End Shape.

(* ================================================================= *)
(** ** What a report holds *)

Module Holds.

(** The snapshot waits for the user. *)
Definition is_waiting (s : snapshot) : bool := Shape.waiting (state s).

(** The snapshot is being processed. *)
Definition is_processing (s : snapshot) : bool :=
  String.eqb (state s) "processing".

(** The counters count the snapshots of the report, and the waiting
    projects are, once each, the projects of the waiting snapshots. *)
Definition counted (r : report) : Prop :=
  waiting_count r
  = Z.of_nat (List.length (filter is_waiting (active_sessions r))) /\
  processing_count r
  = Z.of_nat (List.length (filter is_processing (active_sessions r))) /\
  NoDup (projects_with_waiting r) /\
  forall p, In p (projects_with_waiting r) <->
            exists s, In s (active_sessions r) /\ is_waiting s = true /\
                      project_name s = p.

(** The snapshot without its [last_tool]. *)
Definition without_tool (s : snapshot) : snapshot :=
  {| session_id := session_id s;
     project_path := project_path s;
     project_name := project_name s;
     state := state s;
     last_activity := last_activity s;
     idle_seconds := idle_seconds s;
     model := model s;
     last_tool := None;
     last_message_preview := last_message_preview s;
     pending_approval := pending_approval s |}.

(** The file is one that a scan calls [stat()] on: a session log, not of a
    sub-agent. *)
Definition statted (f : file_node) : bool :=
  PyStr.glob_jsonl (f_name f)
  && negb (PyStr.startswith (f_name f) "agent-").

(** The file is one that a scan at time [now] reads: a session log, not of
    a sub-agent, modified within the active threshold. *)
Definition read_at (now : Q) (f : file_node) : bool :=
  statted f
  && match f_mtime f with
     | Some mtime =>
         negb (Py.gt (now - mtime) RealtimeScanner.ACTIVE_THRESHOLD_SECONDS)
     | None => false
     end.

(** [stat()] raises on the file. *)
Definition lost (f : file_node) : bool :=
  match f_mtime f with Some _ => false | None => true end.

(** The files on which [stat()] raises when a scan calls it, each with its
    project directory, in the order of the scan. *)
Definition stat_fails_in (d : dir_entry) : list (string * string) :=
  match d with
  | Dir dir_name children =>
      map (fun f => (dir_name, f_name f))
          (filter (fun f => statted f && lost f) children)
  | NotDir _ => []
  end.

Definition stat_fails (root : projects_dir) : list (string * string) :=
  match root with
  | Some entries => flat_map stat_fails_in entries
  | None => []
  end.

(** The snapshot [s] is the one of a file that the scan reads in a project
    directory of the root. *)
Definition from_root (json_loads : string -> option json)
           (py_str : json -> string) (now : Q) (root : projects_dir)
           (s : snapshot) : Prop :=
  exists entries dir_name children f mtime,
    root = Some entries /\
    In (Dir dir_name children) entries /\
    In f children /\
    f_mtime f = Some mtime /\
    read_at now f = true /\
    RealtimeScanner.parse_session json_loads py_str f
      (fst (RealtimeScanner.project_of dir_name))
      (snd (RealtimeScanner.project_of dir_name))
      (now - mtime) = Some s.

(** The snapshots that a scan at time [now] gets from a file, from an entry
    of the root, and from the root, in the order in which it meets them. *)
Definition of_file (json_loads : string -> option json)
           (py_str : json -> string) (now : Q) (pn pp : string)
           (f : file_node) : list snapshot :=
  match f_mtime f with
  | Some mtime =>
      if read_at now f
      then match RealtimeScanner.parse_session json_loads py_str f pn pp
                                               (now - mtime) with
           | Some s => [s]
           | None => []
           end
      else []
  | None => []
  end.

Definition of_entry (json_loads : string -> option json)
           (py_str : json -> string) (now : Q) (d : dir_entry)
  : list snapshot :=
  match d with
  | Dir dir_name children =>
      flat_map (of_file json_loads py_str now
                        (fst (RealtimeScanner.project_of dir_name))
                        (snd (RealtimeScanner.project_of dir_name)))
               children
  | NotDir _ => []
  end.

Definition gathered (json_loads : string -> option json)
           (py_str : json -> string) (now : Q) (root : projects_dir)
  : list snapshot :=
  match root with
  | Some entries => flat_map (of_entry json_loads py_str now) entries
  | None => []
  end.

(** The snapshot is sorted under the text [t]. *)
Definition keyed (t : string) (s : snapshot) : bool :=
  Py.eq_str (RealtimeScanner.sort_key s) t.

(** The fields of the [input] of a [tool_use] item, when it is absent or
    an object. *)
Definition input_fields (item : json) : option (list (string * json)) :=
  match item with
  | JObj kv =>
      match Py.dget kv "input" (JObj []) with
      | JObj input => Some input
      | _ => None
      end
  | _ => None
  end.

(** The name with every "-" turned into "/". *)
Fixpoint slashed (s : string) : string :=
  match s with
  | EmptyString => EmptyString
  | String c s' =>
      String (if Ascii.eqb c "-"%char then "/"%char else c) (slashed s')
  end.

(** The character occurs in the text. *)
Fixpoint occurs (c : ascii) (s : string) : bool :=
  match s with
  | EmptyString => false
  | String c' s' => Ascii.eqb c' c || occurs c s'
  end.

(** The text holds no character other than [c]. *)
Fixpoint only (c : ascii) (s : string) : bool :=
  match s with
  | EmptyString => true
  | String c' s' => Ascii.eqb c' c && only c s'
  end.

(** The preview of a text: the text, or its first 150 characters and an
    ellipsis. *)
Definition preview_of (text : string) : string :=
  if (150 <? String.length text)%nat
  then (PyStr.slice_to 150 text ++ "...")%string
  else text.

End Holds.

(* ================================================================= *)
(** ** More of Python's [str] *)

Module PyText.

(** [s.replace(old, new)] for an [old] of one character. *)
Fixpoint replace (old : ascii) (new : string) (s : string) : string :=
  match s with
  | EmptyString => EmptyString
  | String c s' =>
      if Ascii.eqb c old then new ++ replace old new s'
      else String c (replace old new s')
  end.

(** [re.sub('[^...]', '', s)]: the characters of the class are kept. *)
Fixpoint keep (class : ascii -> bool) (s : string) : string :=
  match s with
  | EmptyString => EmptyString
  | String c s' => if class c then String c (keep class s') else keep class s'
  end.

(** Every character of the text is in the class. *)
Fixpoint all_in (class : ascii -> bool) (s : string) : bool :=
  match s with
  | EmptyString => true
  | String c s' => class c && all_in class s'
  end.

(** The class [\w] on the code points below 256: letters, digits and the
    other numeric characters, and the underscore. *)
Definition word (c : ascii) : bool :=
  let n := nat_of_ascii c in
  ((48 <=? n) && (n <=? 57) || (65 <=? n) && (n <=? 90) || (n =? 95)
   || (97 <=? n) && (n <=? 122) || (n =? 170) || (178 <=? n) && (n <=? 179)
   || (n =? 181) || (185 <=? n) && (n <=? 186) || (188 <=? n) && (n <=? 190)
   || (192 <=? n) && (n <=? 214) || (216 <=? n) && (n <=? 246)
   || (248 <=? n) && (n <=? 255))%nat.

(** [sub in s] *)
Fixpoint contains (s sub : string) : bool :=
  String.prefix sub s
  || match s with
     | EmptyString => false
     | String _ s' => contains s' sub
     end.

(** The end of line, and the carriage return. *)
Definition lf : ascii := "010"%char.
Definition cr : ascii := "013"%char.
Definition nl : string := String lf EmptyString.

(** What reading in text mode makes of the text of a file: a carriage
    return, with the end of line that follows it if there is one, is read
    as one end of line. *)
Fixpoint universal_newlines (s : string) : string :=
  match s with
  | EmptyString => EmptyString
  | String c s' =>
      if Ascii.eqb c cr
      then String lf
             match s' with
             | String c' s'' =>
                 if Ascii.eqb c' lf then universal_newlines s''
                 else universal_newlines s'
             | EmptyString => EmptyString
             end
      else String c (universal_newlines s')
  end.

End PyText.

(* ================================================================= *)
(** ** [class TerminalFocuser] *)

Module TerminalFocuser.

Definition quote : ascii := "034"%char.
Definition backslash : ascii := "092"%char.

(** The class [[\w\s\-._]]. *)
Definition allowed (c : ascii) : bool :=
  PyText.word c || PyStr.is_space c
  || Ascii.eqb c "-"%char || Ascii.eqb c "."%char || Ascii.eqb c "_"%char.

(** [_sanitize_applescript_string]; [None] when [text] is a value that
    is not empty and has no [replace] ([AttributeError]). *)
Definition sanitize_applescript_string (text : json) : option string :=
  if negb (Py.truthy text) then Some ""
  else match text with
       | JStr s =>
           let sanitized :=
             PyText.replace quote (String backslash (String quote ""))
               (PyText.replace backslash
                  (String backslash (String backslash "")) s) in
           Some (PyText.keep allowed sanitized)
       | _ => None
       end.

End TerminalFocuser.

(* ================================================================= *)
(** ** [class HistoryHandler] *)

Module HistoryHandler.

(** What [send_json_response] sends. *)
Record response : Type := {
  status_code : Z;
  data : json
}.

(** The file at [CLAUDE_MD_PATH]: its text as it is stored, [None] when it
    does not exist. *)
Definition claude_md : Type := option string.

(** [CLAUDE_MD_PATH.read_text()] *)
Definition read_text (text : string) : string := PyText.universal_newlines text.

(** The dict of a snapshot and of a report, as [json.dumps] gets them. *)
Definition tool_json (t : option tool_ref) : json :=
  match t with
  | Some t => JObj [("name", lt_name t); ("timestamp", lt_timestamp t)]
  | None => JNull
  end.

Definition pending_json (p : option pending) : json :=
  match p with
  | Some p => JObj [("type", JStr (pa_type p));
                    ("tool_name", pa_tool_name p);
                    ("description", pa_description p)]
  | None => JNull
  end.

Definition snapshot_json (s : snapshot) : json :=
  JObj [("session_id", session_id s);
        ("project_path", JStr (project_path s));
        ("project_name", JStr (project_name s));
        ("state", JStr (state s));
        ("last_activity", last_activity s);
        ("idle_seconds", JInt (idle_seconds s));
        ("model", model s);
        ("last_tool", tool_json (last_tool s));
        ("last_message_preview", last_message_preview s);
        ("pending_approval", pending_json (pending_approval s))].

Definition report_json (r : report) : json :=
  JObj [("timestamp", JStr (timestamp r));
        ("active_sessions", JArr (map snapshot_json (active_sessions r)));
        ("waiting_count", JInt (waiting_count r));
        ("processing_count", JInt (processing_count r));
        ("projects_with_waiting",
         JArr (map JStr (projects_with_waiting r)))].

Section WithLibrary.

(** [json.loads] on the body of a request: [None] when it raises
    [JSONDecodeError]. *)
Variable json_loads : string -> option json.
Variable py_str : json -> string.
Variable py_lt_other : json -> json -> option bool.
(** [str(e)] of the [AttributeError] for a value without the attribute, and
    of an exception of the scan. *)
Variable attribute_error : json -> string -> string.
Variable str_exn : exn -> string.
(** [str(CLAUDE_MD_PATH)] *)
Variable CLAUDE_MD_PATH : string.

Definition error (status : Z) (message : string) : response :=
  {| status_code := status; data := JObj [("error", JStr message)] |}.

(** [data.get(key, "").strip()]: the text, or the message of the
    exception. *)
Definition get_stripped (data : json) (key : string) : string + string :=
  match Py.get data key (JStr "") with
  | None => inr (attribute_error data "get")
  | Some v =>
      match Py.strip v with
      | Some s => inl s
      | None => inr (attribute_error v "strip")
      end
  end.

(** The entry that [handle_add_instruction] appends, written on the day
    [today] ([datetime.now().strftime("%Y-%m-%d")]). *)
Definition new_entry (today title instruction : string) : string :=
  PyText.nl ++ PyText.nl ++ "## " ++ title ++ PyText.nl
  ++ "*Added " ++ today ++ " via Claude History Analyzer*"
  ++ PyText.nl ++ PyText.nl ++ instruction ++ PyText.nl.

(** [handle_add_instruction], from the decoded body of the request on: the
    response and the file afterwards. *)
Definition handle_add_instruction (today : string) (body : string)
           (file : claude_md) : response * claude_md :=
  match json_loads body with
  | None => (error 400 "Invalid JSON", file)
  | Some data =>
      match get_stripped data "instruction" with
      | inr message => (error 500 message, file)
      | inl instruction =>
          match get_stripped data "title" with
          | inr message => (error 500 message, file)
          | inl title =>
              if String.eqb instruction ""
              then (error 400 "No instruction provided", file)
              else
                let existing_content :=
                  match file with Some text => read_text text | None => "" end in
                if PyText.contains existing_content instruction
                then ({| status_code := 200;
                         data := JObj [("success", JBool false);
                                       ("message",
                                        JStr "This instruction already exists in CLAUDE.md")] |},
                      file)
                else ({| status_code := 200;
                         data := JObj [("success", JBool true);
                                       ("message",
                                        JStr ("Instruction added to "
                                              ++ CLAUDE_MD_PATH));
                                       ("path", JStr CLAUDE_MD_PATH)] |},
                      Some (match file with Some text => text | None => "" end
                            ++ new_entry today title instruction))
          end
      end
  end.

(** [handle_get_claude_md] *)
Definition handle_get_claude_md (file : claude_md) : response :=
  {| status_code := 200;
     data := JObj [("exists",
                    JBool (match file with Some _ => true | None => false end));
                   ("path", JStr CLAUDE_MD_PATH);
                   ("content",
                    JStr (match file with
                          | Some text => read_text text
                          | None => ""
                          end))] |}.

(** [handle_get_realtime] *)
Definition handle_get_realtime (timestamp : string) (now : Q)
           (root : projects_dir) : response :=
  match RealtimeScanner.scan_active_sessions json_loads py_str py_lt_other
          timestamp now root with
  | Ok report => {| status_code := 200; data := report_json report |}
  | Raise e => error 500 (str_exn e)
  end.

(** [TerminalFocuser.focus_terminal]: the dict that it returns, or the
    text of the exception that leaves it. *)
Variable focus_terminal : json -> json + string.

(** [project_name or project_path.split("/")[-1]]; the message of the
    exception when [project_path] has no [split]. *)
Definition search_term (project_name project_path : json) : json + string :=
  if Py.truthy project_name then inl project_name
  else match project_path with
       | JStr path => inl (JStr (last (PyStr.split "/"%char path) ""))
       | _ => inr (attribute_error project_path "split")
       end.

(** [handle_focus_terminal], from the decoded body of the request on. *)
Definition handle_focus_terminal (body : string) : response :=
  match json_loads body with
  | None => error 400 "Invalid JSON"
  | Some data =>
      match Py.get data "project_name" (JStr ""),
            Py.get data "project_path" (JStr "") with
      | Some project_name, Some project_path =>
          if negb (Py.truthy project_name) && negb (Py.truthy project_path)
          then error 400 "No project specified"
          else match search_term project_name project_path with
               | inr message => error 500 message
               | inl term =>
                   match focus_terminal term with
                   | inr message => error 500 message
                   | inl result =>
                       match Py.get result "success" JNull with
                       | Some success =>
                           {| status_code :=
                                if Py.truthy success then 200 else 404;
                              data := result |}
                       | None => error 500 (attribute_error result "get")
                       end
                   end
               end
      | _, _ => error 500 (attribute_error data "get")
      end
  end.

End WithLibrary.

End HistoryHandler.

(* ================================================================= *)
(** ** What is stored in the file of instructions *)

Module Stored.

(** The text of the file as it is stored; none when it does not exist. *)
Definition text (file : HistoryHandler.claude_md) : string :=
  match file with Some t => t | None => "" end.

(** The text of the file as it is read. *)
Definition read (file : HistoryHandler.claude_md) : string :=
  match file with Some t => HistoryHandler.read_text t | None => "" end.

(** The response to an instruction that has been added. *)
Definition added (path : string) : HistoryHandler.response :=
  {| HistoryHandler.status_code := 200;
     HistoryHandler.data :=
       JObj [("success", JBool true);
             ("message", JStr ("Instruction added to " ++ path));
             ("path", JStr path)] |}.

(** The response to an instruction that the file holds already. *)
Definition refused : HistoryHandler.response :=
  {| HistoryHandler.status_code := 200;
     HistoryHandler.data :=
       JObj [("success", JBool false);
             ("message", JStr "This instruction already exists in CLAUDE.md")] |}.

End Stored.

(* ================================================================= *)
(** ** More lines and requests of the examples *)

Module Sample.

Definition numeric_command_line : string :=
  Demo.quoted "{'type':'assistant','message':{'content':[{'type':'tool_use','name':'Bash','input':{'description':'List the files','command':5}}]}}".
Definition numeric_command_entry : json :=
  Demo.assistant
    [Demo.obj_tool "Bash" [("description", JStr "List the files");
                           ("command", JInt 5)]].

Definition add_body : string :=
  Demo.quoted "{'instruction':' Run the tests before a commit. ','title':'Testing'}".
Definition add_data : json :=
  JObj [("instruction", JStr " Run the tests before a commit. ");
        ("title", JStr "Testing")].

Definition path_body : string :=
  Demo.quoted "{'project_path':'/Users/alice/proj'}".
Definition path_data : json :=
  JObj [("project_path", JStr "/Users/alice/proj")].

Definition both_body : string :=
  Demo.quoted "{'project_name':'proj','project_path':'/Users/alice/proj'}".
Definition both_data : json :=
  JObj [("project_name", JStr "proj");
        ("project_path", JStr "/Users/alice/proj")].

Definition two_lines_body : string :=
  Demo.quoted "{'instruction':'Line one\r\nLine two','title':'Lines'}".
Definition two_lines : string :=
  "Line one" ++ String PyText.cr (String PyText.lf "Line two").
Definition two_lines_data : json :=
  JObj [("instruction", JStr two_lines); ("title", JStr "Lines")].

Definition table : list (string * json) :=
  [ (numeric_command_line, numeric_command_entry);
    (two_lines_body, two_lines_data);
    (add_body, add_data);
    (path_body, path_data);
    (both_body, both_data) ].

(** [json.loads] on the texts of [table] and of [Demo.table]. *)
Definition loads (s : string) : option json :=
  match Py.dict_get table s with
  | Some v => Some v
  | None => Demo.loads s
  end.

(** The message of an [AttributeError]. *)
Definition attribute_error (v : json) (attribute : string) : string :=
  "object has no attribute '" ++ attribute ++ "'".

(** A terminal that is never found. *)
Definition focus_terminal (term : json) : json + string :=
  inl (JObj [("success", JBool false);
             ("error", JStr "Could not find terminal window")]).

Definition claude_md_path : string := "/Users/alice/.claude/CLAUDE.md".

Definition parse := RealtimeScanner.parse_session loads Demo.str.
Definition scan :=
  RealtimeScanner.scan_active_sessions loads Demo.str Demo.lt_other.

(** A text for each exception of a scan. *)
Definition str_exn (e : exn) : string :=
  match e with
  | TypeError => "'<' not supported"
  | OSError proj_dir session_file =>
      "No such file or directory: " ++ proj_dir ++ "/" ++ session_file
  end.

Definition get_realtime :=
  HistoryHandler.handle_get_realtime Demo.loads Demo.str Demo.lt_other str_exn.
Definition add_instruction :=
  HistoryHandler.handle_add_instruction loads attribute_error claude_md_path.

(** A link to nothing: [stat()] and [open()] raise on it. *)
Definition gone (name : string) : file_node :=
  {| f_name := name; f_mtime := None; f_lines := None |}.

(** Twelve lines that do not parse, before the lines given. *)
Definition padded (lines : list string) : list string :=
  (repeat "-" 12 ++ lines)%list.

End Sample.

(** The report of a scan that returns, by evaluation. *)
Ltac scanned r E :=
  match goal with
  | |- exists r', ?o = Ok r' /\ _ =>
      let H := fresh in
      assert (H : exists r', o = Ok r') by (eexists; reflexivity);
      destruct H as [r E]; exists r; split; [exact E|]
  end.

Open Scope list_scope.

(* ================================================================= *)
(** ** Project name and path *)

Lemma split_nonempty (sep : ascii) (s : string) : PyStr.split sep s <> [].
Proof.
  destruct s as [|c s]; simpl; [discriminate|].
  destruct (Ascii.eqb c sep); [discriminate|].
  destruct (PyStr.split sep s); discriminate.
Qed.

Lemma startswith_dash (s : string) :
  PyStr.startswith s "-" = true -> exists s', s = String "-"%char s'.
Proof.
  unfold PyStr.startswith. destruct s as [|c s]; cbn [String.prefix];
    [discriminate|].
  destruct (ascii_dec "-"%char c) as [<-|]; [|discriminate].
  intros _. now exists s.
Qed.

Lemma last_cons_nonempty {A : Type} (x d : A) (l : list A) :
  l <> [] -> last (x :: l) d = last l d.
Proof. destruct l; [congruence|reflexivity]. Qed.

Lemma last_nonempty_last (parts : list string) :
  last parts "" <> "" -> Spec.last_nonempty parts = Some (last parts "").
Proof.
  unfold Spec.last_nonempty.
  induction parts as [|p parts IH]; [easy|].
  destruct (list_eq_dec string_dec parts []) as [->|Hne].
  - simpl. intros H. destruct (String.eqb_spec p ""); [contradiction|reflexivity].
  - rewrite (last_cons_nonempty p "" parts Hne). intros H. specialize (IH H).
    rewrite <- IH. simpl.
    destruct (negb (String.eqb p "")); [|reflexivity].
    apply last_cons_nonempty.
    intros E. simpl in IH. rewrite E in IH. discriminate.
Qed.

(** C7, as the code has it: for a directory name that starts with "-",
    [project_name] is the last "-"-separated segment of the name, empty or
    not, and [project_path] is "/" followed by the segments after the first
    joined with "/"; [project_name] is the last non-empty segment whenever
    the last segment is not empty. *)
Theorem project_of_leading_dash (dir_name : string) :
  PyStr.startswith dir_name "-" = true ->
  let parts := PyStr.split "-"%char dir_name in
  RealtimeScanner.project_of dir_name
  = (last parts "", ("/" ++ PyStr.join "/" (tl parts))%string)
  /\ (last parts "" <> "" ->
      fst (RealtimeScanner.project_of dir_name) = Spec.project_name dir_name).
Proof.
  intros H parts. unfold RealtimeScanner.project_of. rewrite H. fold parts.
  destruct (startswith_dash _ H) as [s' ->].
  assert (Hp : parts = "" :: PyStr.split "-"%char s') by reflexivity.
  pose proof (split_nonempty "-"%char s') as Hne.
  destruct (PyStr.split "-"%char s') as [|h t] eqn:E; [congruence|].
  rewrite Hp. cbn [List.length Nat.ltb Nat.leb tl]. split; [reflexivity|].
  intros Hl. cbn [fst]. unfold Spec.project_name. fold parts. rewrite Hp.
  now rewrite (last_nonempty_last _ Hl).
Qed.

Lemma project_of_leading_dash_witness :
  RealtimeScanner.project_of "-Users-alice-proj" = ("proj", "/Users/alice/proj")
  /\ fst (RealtimeScanner.project_of "-Users-alice-proj")
     = Spec.project_name "-Users-alice-proj".
Proof.
  destruct (project_of_leading_dash "-Users-alice-proj" eq_refl) as [H1 H2].
  split; [exact H1|apply H2; discriminate].
Defined.

(** C7, as it is worded, fails on a name that ends with "-": the code gives
    the empty last segment, not the last non-empty one. *)
Lemma project_name_trailing_dash :
  PyStr.startswith "-Users-alice-" "-" = true /\
  fst (RealtimeScanner.project_of "-Users-alice-") = "" /\
  Spec.project_name "-Users-alice-" = "alice" /\
  fst (RealtimeScanner.project_of "-Users-alice-")
  <> Spec.project_name "-Users-alice-".
Proof. repeat split; discriminate. Qed.

(* ================================================================= *)
(** ** Thresholds *)

Lemma gt_true_iff (x : Q) (n : Z) : Py.gt x n = true <-> (inject_Z n < x)%Q.
Proof.
  unfold Py.gt. destruct (Qle_bool x (inject_Z n)) eqn:E; simpl.
  - apply Qle_bool_iff in E. split; [discriminate|].
    intros H. exfalso. exact (Qlt_not_le _ _ H E).
  - split; [intros _|reflexivity]. apply Qnot_le_lt. intros H.
    apply Qle_bool_iff in H. congruence.
Qed.

Lemma gt_false_iff (x : Q) (n : Z) : Py.gt x n = false <-> (x <= inject_Z n)%Q.
Proof.
  unfold Py.gt. rewrite negb_false_iff. apply Qle_bool_iff.
Qed.

(* ================================================================= *)
(** ** Classification of one log file *)

Section Classification.

Variable json_loads : string -> option json.
Variable py_str : json -> string.

Local Abbreviation parse_session := (RealtimeScanner.parse_session json_loads py_str).
Local Abbreviation on_assistant := (RealtimeScanner.on_assistant py_str).
Local Abbreviation for_items := (RealtimeScanner.for_items py_str).
Local Abbreviation on_tool_use := (RealtimeScanner.on_tool_use py_str).
Local Abbreviation decide age entry :=
  (RealtimeScanner.decide py_str age (JObj entry)
                          (Py.dget entry "type" (JStr "unknown"))).

(** [_parse_session] on a file whose last line is read as an object. *)
Lemma parse_session_last f pn pp age lines line entry :
  f_lines f = Some (lines ++ [line])%list ->
  json_loads (PyStr.strip line) = Some (JObj entry) ->
  parse_session f pn pp age =
    (v <- decide age entry ;;
     model <- Py.get (Py.dget entry "message" (JObj [])) "model" (JStr "unknown") ;;
     Some {| session_id := Py.dget entry "sessionId" (JStr (PyStr.stem (f_name f)));
             project_path := pp;
             project_name := pn;
             state := RealtimeScanner.v_state v;
             last_activity := Py.dget entry "timestamp" JNull;
             idle_seconds := Py.int_of age;
             model := model;
             last_tool :=
               match RealtimeScanner.v_last_tool v with
               | Some t => Some t
               | None =>
                   RealtimeScanner.recent_tool json_loads
                     (rev (RealtimeScanner.last_lines 10 (lines ++ [line])%list))
               end;
             last_message_preview := RealtimeScanner.v_last_message_preview v;
             pending_approval := RealtimeScanner.v_pending_approval v |}).
Proof.
  intros Hl He. unfold RealtimeScanner.parse_session. rewrite Hl.
  pose proof (last_last lines line "") as Hlast.
  destruct (lines ++ [line])%list as [|l0 ls] eqn:E.
  - now destruct lines.
  - rewrite Hlast, He. reflexivity.
Qed.

(** A snapshot is produced exactly when the decision and the lookup of
    the model succeed. *)
Lemma parse_session_some f pn pp age entry v :
  Entry.last_entry json_loads f (JObj entry) ->
  decide age entry = Some v ->
  Entry.message_is_object entry = true ->
  exists s, parse_session f pn pp age = Some s /\
            state s = RealtimeScanner.v_state v /\
            project_name s = pn /\ project_path s = pp /\
            last_message_preview s = RealtimeScanner.v_last_message_preview v /\
            pending_approval s = RealtimeScanner.v_pending_approval v.
Proof.
  intros (lines & line & Hl & He) Hd Hm.
  rewrite (parse_session_last f pn pp age _ _ _ Hl He), Hd.
  unfold Entry.message_is_object in Hm.
  destruct (Py.dget entry "message" (JObj [])); try discriminate.
  simpl. eexists; split; [reflexivity|]. simpl. repeat split.
Qed.

(** The branch of a [text] item that carries literal text. *)
Lemma on_text_literal item v s :
  Py.dget item "text" (JStr "") = JStr s ->
  exists preview,
    RealtimeScanner.on_text item v
    = Some {| RealtimeScanner.v_state := RealtimeScanner.v_state v;
              RealtimeScanner.v_pending_approval :=
                RealtimeScanner.v_pending_approval v;
              RealtimeScanner.v_last_tool := RealtimeScanner.v_last_tool v;
              RealtimeScanner.v_last_message_preview := JStr preview;
              RealtimeScanner.v_has_question :=
                PyStr.endswith (PyStr.strip s) "?"
                || RealtimeScanner.v_has_question v |}.
Proof.
  intros H. unfold RealtimeScanner.on_text. rewrite H. simpl.
  destruct (150 <? String.length s)%nat; simpl; eexists;
    destruct (PyStr.endswith (PyStr.strip s) "?"); reflexivity.
Qed.

Lemma asks_obj kv :
  Entry.asks (JObj kv)
  = Py.eq_str (Py.dget kv "type" JNull) "text"
    && match Py.dget kv "text" (JStr "") with
       | JStr s => PyStr.endswith (PyStr.strip s) "?"
       | _ => false
       end.
Proof.
  unfold Entry.asks, Entry.text_of, Entry.is_text.
  now destruct (Py.dget kv "text" (JStr "")).
Qed.

Lemma literal_obj kv :
  Entry.literal (JObj kv)
  = if Py.eq_str (Py.dget kv "type" JNull) "text"
    then match Py.dget kv "text" (JStr "") with
         | JStr s => true
         | _ => false
         end
    else true.
Proof.
  unfold Entry.literal, Entry.text_of, Entry.is_text.
  now destruct (Py.dget kv "text" (JStr "")).
Qed.

(** The loop over items that hold no [tool_use]: it runs to the end, keeps
    the state, and raises the question flag when an item asks. *)
Lemma for_items_no_tool ts items : forall v,
  forallb (fun i => negb (Entry.is_tool_use i) && Entry.literal i) items = true ->
  exists preview,
    for_items ts items v
    = Some {| RealtimeScanner.v_state := RealtimeScanner.v_state v;
              RealtimeScanner.v_pending_approval :=
                RealtimeScanner.v_pending_approval v;
              RealtimeScanner.v_last_tool := RealtimeScanner.v_last_tool v;
              RealtimeScanner.v_last_message_preview := preview;
              RealtimeScanner.v_has_question :=
                RealtimeScanner.v_has_question v || existsb Entry.asks items |}
    /\ (existsb Entry.is_text items = false ->
        preview = RealtimeScanner.v_last_message_preview v).
Proof.
  induction items as [|item items IH]; intros v H.
  - exists (RealtimeScanner.v_last_message_preview v). simpl.
    rewrite orb_false_r. now destruct v.
  - cbn [forallb] in H. apply andb_prop in H as [Hi H].
    apply andb_prop in Hi as [Ht Hlit]. apply negb_true_iff in Ht.
    destruct item as [| | | | |l|kv];
      try (destruct (IH v H) as (p & E & Hp); exists p; split; [exact E|exact Hp]).
    cbn [RealtimeScanner.for_items]. cbn [Entry.is_tool_use] in Ht. rewrite Ht.
    cbn [existsb]. rewrite asks_obj. rewrite literal_obj in Hlit.
    cbn [Entry.is_text].
    destruct (Py.eq_str (Py.dget kv "type" JNull) "text") eqn:Etext.
    + destruct (Py.dget kv "text" (JStr "")) as [| | | |s| |] eqn:Es;
        try discriminate.
      destruct (on_text_literal kv v s Es) as (p0 & ->).
      match goal with
      | |- context [for_items ts items ?w] =>
          destruct (IH w H) as (p & E & _); exists p; rewrite E
      end.
      cbn. split; [|discriminate].
      do 2 f_equal.
      destruct (PyStr.endswith (PyStr.strip s) "?"),
        (RealtimeScanner.v_has_question v); reflexivity.
    + destruct (IH v H) as (p & E & Hp). exists p. rewrite E.
      cbn. split; [reflexivity|exact Hp].
Qed.

(** The assistant branch reads the content list of the entry. *)
Lemma on_assistant_content entry items :
  Entry.content_is entry items ->
  on_assistant (JObj entry)
  = (v <- for_items (Py.dget entry "timestamp" JNull) items
                    RealtimeScanner.init_vars ;;
     Some (if String.eqb (RealtimeScanner.v_state v) "unknown"
           then RealtimeScanner.set_state
                  (if RealtimeScanner.v_has_question v
                   then "waiting_for_question" else "task_complete") v
           else v))
  /\ Entry.message_is_object entry = true.
Proof.
  unfold Entry.content_is, Entry.message_is_object,
    RealtimeScanner.on_assistant, Py.get, Py.dget.
  destruct (Py.dict_get entry "message") as [m|].
  - destruct m as [| | | | | |message]; try contradiction.
    destruct (Py.dict_get message "content") as [c|].
    + destruct c as [| | | | |l|]; try contradiction. intros ->. now split.
    + intros ->. now split.
  - intros ->. now split.
Qed.

Lemma decide_assistant age entry items :
  Entry.assistant entry items ->
  (age <= 300)%Q ->
  decide age entry = on_assistant (JObj entry).
Proof.
  intros [Hty _] Hage. unfold RealtimeScanner.decide.
  replace (Py.gt age RealtimeScanner.IDLE_THRESHOLD_SECONDS) with false
    by (symmetry; now apply gt_false_iff).
  unfold Py.dget. rewrite Hty. reflexivity.
Qed.

(** The decision on an assistant entry whose content holds no [tool_use]. *)
Lemma decide_no_tool age entry items :
  Entry.assistant entry items ->
  (age <= 300)%Q ->
  forallb (fun i => negb (Entry.is_tool_use i) && Entry.literal i) items = true ->
  exists v,
    decide age entry = Some v /\
    RealtimeScanner.v_state v
    = (if existsb Entry.asks items then "waiting_for_question"
       else "task_complete") /\
    RealtimeScanner.v_pending_approval v = None /\
    (existsb Entry.is_text items = false ->
     RealtimeScanner.v_last_message_preview v = JStr "") /\
    Entry.message_is_object entry = true.
Proof.
  intros Ha Hage Hitems.
  rewrite (decide_assistant _ _ _ Ha Hage).
  destruct Ha as [_ Hc].
  destruct (on_assistant_content _ _ Hc) as [-> Hm].
  destruct (for_items_no_tool (Py.dget entry "timestamp" JNull) items
              RealtimeScanner.init_vars Hitems) as (p & -> & Hp).
  cbn. eexists; split; [reflexivity|].
  destruct (existsb Entry.asks items); cbn; auto.
Qed.

(** C3: past the idle threshold every snapshot that is derived has state
    "idle", whatever the type and the content of the last entry; with a last
    line that is read as an object, no snapshot is derived exactly when its
    [message] field is present and not an object. *)
Theorem idle_past_threshold f pn pp age entry :
  Entry.last_entry json_loads f (JObj entry) ->
  (300 < age)%Q -> (age <= 600)%Q ->
  (forall s, parse_session f pn pp age = Some s -> state s = "idle") /\
  (parse_session f pn pp age = None <-> Entry.message_is_object entry = false).
Proof.
  intros (lines & line & Hl & He) Hlo _.
  rewrite (parse_session_last f pn pp age _ _ _ Hl He).
  unfold RealtimeScanner.decide, Entry.message_is_object.
  replace (Py.gt age RealtimeScanner.IDLE_THRESHOLD_SECONDS) with true
    by (symmetry; now apply gt_true_iff).
  destruct (Py.dget entry "message" (JObj [])); cbn;
    (split; [intros snap Hs; try discriminate; now injection Hs as <-
            | split; intros H; try discriminate; reflexivity]).
Qed.

(** C10: an assistant entry, not idle, whose content list holds no
    [tool_use] and no [text] item is classified without error as
    "task_complete", with an empty preview and no pending approval. *)
Theorem assistant_without_tool_or_text f pn pp age entry items :
  Entry.last_entry json_loads f (JObj entry) ->
  Entry.assistant entry items ->
  (age <= 300)%Q ->
  forallb (fun i => negb (Entry.is_tool_use i) && negb (Entry.is_text i)) items
  = true ->
  exists s, parse_session f pn pp age = Some s /\
            state s = "task_complete" /\
            last_message_preview s = JStr "" /\
            pending_approval s = None.
Proof.
  intros Hf Ha Hage Hitems.
  assert (H1 : forallb (fun i => negb (Entry.is_tool_use i) && Entry.literal i)
                 items = true /\
               existsb Entry.asks items = false /\
               existsb Entry.is_text items = false).
  { clear Ha. induction items as [|i items IH]; [now repeat split|].
    cbn [forallb existsb] in *. apply andb_prop in Hitems as [Hi Hitems].
    apply andb_prop in Hi as [Ht Hx]. apply negb_true_iff in Hx.
    destruct (IH Hitems) as (-> & -> & ->).
    unfold Entry.literal, Entry.asks. rewrite Ht, Hx. now repeat split. }
  destruct H1 as (Hl & Hq & Hx).
  destruct (decide_no_tool age entry items Ha Hage Hl) as (v & Hd & Hs & Hp & Hpre & Hm).
  destruct (parse_session_some f pn pp age entry v Hf Hd Hm)
    as (s & E & Es & _ & _ & Epre & Epend).
  exists s. rewrite Es, Epre, Epend, Hs, Hq. auto.
Qed.

(** C5: an assistant entry, not idle, whose content list holds no
    [tool_use] item is "waiting_for_question" exactly when some text item,
    trimmed, ends with a question mark, and "task_complete" otherwise; so a
    single text item "Done. Anything else?" gives "waiting_for_question"
    and a single text item "Done." gives "task_complete". *)
Theorem text_only_state f pn pp age entry items :
  Entry.last_entry json_loads f (JObj entry) ->
  Entry.assistant entry items ->
  (age <= 300)%Q ->
  forallb (fun i => negb (Entry.is_tool_use i) && Entry.literal i) items = true ->
  exists s,
    parse_session f pn pp age = Some s /\
    state s = (if existsb Entry.asks items then "waiting_for_question"
               else "task_complete") /\
    (forall item, items = [item] -> Entry.is_text item = true ->
       (Entry.text_of item = Some "Done. Anything else?" ->
        state s = "waiting_for_question") /\
       (Entry.text_of item = Some "Done." -> state s = "task_complete")).
Proof.
  intros Hf Ha Hage Hl.
  destruct (decide_no_tool age entry items Ha Hage Hl) as (v & Hd & Hs & _ & _ & Hm).
  destruct (parse_session_some f pn pp age entry v Hf Hd Hm) as (s & E & Es & _).
  exists s. rewrite Es, Hs. split; [exact E|]. split; [reflexivity|].
  intros item -> Ht. cbn [existsb]. unfold Entry.asks. rewrite Ht.
  split; intros ->; reflexivity.
Qed.

(** The loop stops at the first [tool_use] item. *)
Lemma for_items_first_tool ts pre kv post : forall v,
  forallb (fun i => negb (Entry.is_tool_use i) && Entry.literal i) pre = true ->
  Entry.is_tool_use (JObj kv) = true ->
  exists v',
    for_items ts (pre ++ JObj kv :: post) v = on_tool_use ts kv v'.
Proof.
  induction pre as [|item pre IH]; intros v H Hk.
  - exists v. cbn [app RealtimeScanner.for_items].
    cbn [Entry.is_tool_use] in Hk. now rewrite Hk.
  - cbn [forallb] in H. apply andb_prop in H as [Hi H].
    apply andb_prop in Hi as [Ht Hlit]. apply negb_true_iff in Ht.
    destruct item as [| | | | |l|item]; try exact (IH v H Hk).
    cbn [app RealtimeScanner.for_items]. cbn [Entry.is_tool_use] in Ht.
    rewrite Ht. rewrite literal_obj in Hlit.
    destruct (Py.eq_str (Py.dget item "type" JNull) "text"); [|exact (IH v H Hk)].
    destruct (Py.dget item "text" (JStr "")) as [| | | |s| |] eqn:Es;
      try discriminate.
    destruct (on_text_literal item v s Es) as (p0 & ->).
    apply IH; assumption.
Qed.

(** C4, as the code has it: when the first [tool_use] item of the content
    list of an assistant entry, not idle, is named "AskUserQuestion" (its
    [input] absent or an object, the text items before it carrying literal
    text), the snapshot is "waiting_for_question" with a pending approval of
    type "question", and it adds to [waiting_count] and not to
    [processing_count]. *)
Theorem first_tool_use_ask f pn pp age entry pre item post :
  Entry.last_entry json_loads f (JObj entry) ->
  Entry.assistant entry (pre ++ item :: post) ->
  (age <= 300)%Q ->
  forallb (fun i => negb (Entry.is_tool_use i) && Entry.literal i) pre = true ->
  Entry.named "AskUserQuestion" item = true ->
  Entry.input_is_object item = true ->
  exists s p,
    parse_session f pn pp age = Some s /\
    state s = "waiting_for_question" /\
    pending_approval s = Some p /\
    pa_type p = "question" /\
    pa_tool_name p = JStr "AskUserQuestion" /\
    forall r,
      processing_count (RealtimeScanner.accumulate r pn s) = processing_count r /\
      waiting_count (RealtimeScanner.accumulate r pn s) = waiting_count r + 1.
Proof.
  intros Hf Ha Hage Hpre Hn Hin.
  apply andb_prop in Hn as [Ht Hn].
  destruct item as [| | | | | |kv]; try discriminate.
  cbn [Entry.tool_name] in Hn. cbn [Entry.input_is_object] in Hin.
  destruct (Py.dget kv "name" (JStr "Unknown")) as [| | | |name| |] eqn:En;
    try discriminate.
  cbn [Py.eq_str] in Hn. apply String.eqb_eq in Hn. subst name.
  destruct (Py.dget kv "input" (JObj [])) as [| | | | | |input] eqn:Ei;
    try discriminate.
  assert (Hd : exists v,
             decide age entry = Some v /\
             RealtimeScanner.v_state v = "waiting_for_question" /\
             RealtimeScanner.v_pending_approval v
             = Some {| pa_type := "question";
                       pa_tool_name := JStr "AskUserQuestion";
                       pa_description :=
                         JStr (PyStr.slice_to 100
                                 (py_str (Py.dget input "questions" (JArr [])))) |}).
  { rewrite (decide_assistant _ _ _ Ha Hage).
    destruct Ha as [_ Hc].
    destruct (on_assistant_content _ _ Hc) as [-> _].
    destruct (for_items_first_tool (Py.dget entry "timestamp" JNull) pre kv post
                RealtimeScanner.init_vars Hpre Ht) as (v' & ->).
    unfold RealtimeScanner.on_tool_use. rewrite En, Ei. cbn.
    eexists; split; [reflexivity|]. cbn. split; reflexivity. }
  destruct Hd as (v & Hd & Hs & Hp).
  destruct Ha as [_ Hc]. destruct (on_assistant_content _ _ Hc) as [_ Hm].
  destruct (parse_session_some f pn pp age entry v Hf Hd Hm)
    as (s & E & Es & _ & _ & _ & Epend).
  exists s. eexists. split; [exact E|]. rewrite Es, Epend, Hs, Hp.
  repeat split; unfold RealtimeScanner.accumulate; rewrite Es, Hs; reflexivity.
Qed.

End Classification.

(* ================================================================= *)
(** ** The scan *)

Lemma for_each_app {A B : Type} (body : A -> B -> outcome A)
      (l1 l2 : list B) : forall a,
  for_each body (l1 ++ l2) a
  = match for_each body l1 a with
    | Ok a' => for_each body l2 a'
    | Raise e => Raise e
    end.
Proof.
  induction l1 as [|x l1 IH]; intros a; cbn [app for_each]; [reflexivity|].
  destruct (body a x); [apply IH|reflexivity].
Qed.

(** An item in the place of another that the body treats alike. *)
Lemma for_each_replace {A B : Type} (body : A -> B -> outcome A)
      (pre : list B) (x y : B) (post : list B) (a : A) :
  (forall a', body a' x = body a' y) ->
  for_each body (pre ++ x :: post) a = for_each body (pre ++ y :: post) a.
Proof.
  intros H. rewrite !for_each_app.
  destruct (for_each body pre a); [|reflexivity].
  cbn [for_each]. now rewrite H.
Qed.

(** An item that the body passes over. *)
Lemma for_each_skip {A B : Type} (body : A -> B -> outcome A)
      (pre : list B) (x : B) (post : list B) (a : A) :
  (forall a', body a' x = Ok a') ->
  for_each body (pre ++ x :: post) a = for_each body (pre ++ post) a.
Proof.
  intros H. rewrite !for_each_app.
  destruct (for_each body pre a); [|reflexivity].
  cbn [for_each]. now rewrite H.
Qed.

(** What every turn of the loop keeps holds after the loop. *)
Lemma for_each_keeps {A B : Type} (P : A -> Prop)
      (body : A -> B -> outcome A) (l : list B) :
  (forall a x a', P a -> body a x = Ok a' -> P a') ->
  forall a a', P a -> for_each body l a = Ok a' -> P a'.
Proof.
  intros Hb. induction l as [|x l IH]; intros a a' Ha; cbn [for_each].
  - intros H. now injection H as <-.
  - destruct (body a x) as [a1|e] eqn:E; [|discriminate].
    apply IH. exact (Hb a x a1 Ha E).
Qed.

Lemma for_each_stamped {B : Type} (body : report -> B -> outcome report)
      (ts : string) (l : list B) :
  (forall r x, body (with_timestamp ts r) x = stamped ts (body r x)) ->
  forall r, for_each body l (with_timestamp ts r)
            = stamped ts (for_each body l r).
Proof.
  intros Hb. induction l as [|x l IH]; intros r; cbn [for_each]; [reflexivity|].
  rewrite Hb. destruct (body r x); cbn [stamped]; [apply IH|reflexivity].
Qed.

Section Scan.

Variable json_loads : string -> option json.
Variable py_str : json -> string.
Variable py_lt_other : json -> json -> option bool.

Local Abbreviation parse_session := (RealtimeScanner.parse_session json_loads py_str).
Local Abbreviation scan_file := (RealtimeScanner.scan_file json_loads py_str).
Local Abbreviation scan_dir := (RealtimeScanner.scan_dir json_loads py_str).
Local Abbreviation scan :=
  (RealtimeScanner.scan_active_sessions json_loads py_str py_lt_other).

Lemma scan_file_stale now d pn pp r f mtime :
  f_mtime f = Some mtime ->
  (600 < now - mtime)%Q -> scan_file now d pn pp r f = Ok r.
Proof.
  intros Hm H. unfold RealtimeScanner.scan_file.
  destruct (PyStr.startswith (f_name f) "agent-"); [reflexivity|].
  rewrite Hm.
  replace (Py.gt (now - mtime) RealtimeScanner.ACTIVE_THRESHOLD_SECONDS)
    with true by (symmetry; now apply gt_true_iff).
  reflexivity.
Qed.

(** A file that the loop over the files passes over, when it is listed. *)
Lemma scan_dir_skip now dir_name pre f post :
  (PyStr.glob_jsonl (f_name f) = true ->
   forall pn pp r, scan_file now dir_name pn pp r f = Ok r) ->
  forall r,
    scan_dir now r (Dir dir_name (pre ++ f :: post))
    = scan_dir now r (Dir dir_name (pre ++ post)).
Proof.
  intros H r. unfold RealtimeScanner.scan_dir.
  destruct (RealtimeScanner.project_of dir_name) as [pn pp].
  rewrite !filter_app. cbn [filter].
  destruct (PyStr.glob_jsonl (f_name f)); [|reflexivity].
  apply for_each_skip. intros r'. now apply H.
Qed.

(** A project directory in the place of another that is scanned alike. *)
Lemma scan_replace ts now before d d' after :
  (forall r, scan_dir now r d = scan_dir now r d') ->
  scan ts now (Some (before ++ d :: after))
  = scan ts now (Some (before ++ d' :: after)).
Proof.
  intros H. unfold RealtimeScanner.scan_active_sessions.
  now rewrite (for_each_replace _ before d d' after _ H).
Qed.

(** C2: a log file older than the active threshold leaves no trace in the
    outcome of the scan: the scan gives what it gives without the file,
    whatever the file holds. *)
Theorem stale_file_ignored ts now before dir_name pre f mtime post after :
  f_mtime f = Some mtime ->
  (600 < now - mtime)%Q ->
  scan ts now (Some (before ++ Dir dir_name (pre ++ f :: post) :: after))
  = scan ts now (Some (before ++ Dir dir_name (pre ++ post) :: after)).
Proof.
  intros Hm H. apply scan_replace. apply scan_dir_skip.
  intros _ pn pp r. exact (scan_file_stale now dir_name pn pp r f mtime Hm H).
Qed.

Lemma accumulate_timestamp ts r pn s :
  RealtimeScanner.accumulate (with_timestamp ts r) pn s
  = with_timestamp ts (RealtimeScanner.accumulate r pn s).
Proof.
  unfold RealtimeScanner.accumulate, with_timestamp. cbn.
  destruct (String.eqb (state s) "waiting_for_question"
            || String.eqb (state s) "waiting_for_approval");
    [reflexivity|].
  destruct (String.eqb (state s) "processing"); reflexivity.
Qed.

Lemma scan_file_timestamp ts now d pn pp r f :
  scan_file now d pn pp (with_timestamp ts r) f
  = stamped ts (scan_file now d pn pp r f).
Proof.
  unfold RealtimeScanner.scan_file.
  destruct (PyStr.startswith (f_name f) "agent-"); [reflexivity|].
  destruct (f_mtime f) as [mtime|]; [|reflexivity].
  destruct (Py.gt _ _); [reflexivity|].
  destruct (parse_session _ _ _ _); cbn [stamped];
    [now rewrite accumulate_timestamp|reflexivity].
Qed.

Lemma scan_dir_timestamp ts now r d :
  scan_dir now (with_timestamp ts r) d = stamped ts (scan_dir now r d).
Proof.
  destruct d as [dir_name children|]; [|reflexivity].
  unfold RealtimeScanner.scan_dir.
  destruct (RealtimeScanner.project_of dir_name) as [pn pp].
  apply for_each_stamped. intros r' f. apply scan_file_timestamp.
Qed.

(** C9: on the same file system and with the same clock value, two scans
    give the same outcome, field for field, but for the time stamp of the
    report. *)
Theorem scan_deterministic ts1 ts2 now root :
  same_but_timestamp (scan ts1 now root) (scan ts2 now root).
Proof.
  unfold RealtimeScanner.scan_active_sessions.
  destruct root as [entries|]; [|cbn; auto].
  change (RealtimeScanner.empty_report ts2)
    with (with_timestamp ts2 (RealtimeScanner.empty_report ts1)).
  rewrite (for_each_stamped _ ts2 entries
             (fun r d => scan_dir_timestamp ts2 now r d)).
  destruct (for_each _ entries _) as [acc|e]; cbn [stamped]; [|reflexivity].
  cbn [with_timestamp active_sessions].
  destruct (sort_desc _ _ _); cbn; auto.
Qed.

End Scan.

(* ================================================================= *)
(** ** The order of [str] *)

Lemma leb_cons a s b t :
  String.leb (String a s) (String b t)
  = match Ascii.compare a b with
    | Lt => true
    | Eq => String.leb s t
    | Gt => false
    end.
Proof.
  unfold String.leb. cbn [String.compare]. now destruct (Ascii.compare a b).
Qed.

Lemma leb_trans s : forall t u,
  String.leb s t = true -> String.leb t u = true -> String.leb s u = true.
Proof.
  induction s as [|a s IH]; intros t u Hst Htu.
  - now destruct u.
  - destruct t as [|b t]; [discriminate|].
    destruct u as [|c u]; [discriminate|].
    rewrite leb_cons in *. unfold Ascii.compare in *.
    destruct (N.compare_spec (N_of_ascii a) (N_of_ascii b)) as [Eab|Lab|Gab];
      try discriminate;
      destruct (N.compare_spec (N_of_ascii b) (N_of_ascii c)) as [Ebc|Lbc|Gbc];
      try discriminate.
    + rewrite Eab, Ebc, N.compare_refl. eauto.
    + rewrite Eab. now apply N.compare_lt_iff in Lbc as ->.
    + rewrite <- Ebc. now apply N.compare_lt_iff in Lab as ->.
    + assert (H : (N_of_ascii a < N_of_ascii c)%N) by (eapply N.lt_trans; eauto).
      now apply N.compare_lt_iff in H as ->.
Qed.

Lemma ltb_true_leb s t : String.ltb s t = true -> String.leb s t = true.
Proof. unfold String.ltb, String.leb. now destruct (String.compare s t). Qed.

Lemma ltb_false_leb s t : String.ltb s t = false -> String.leb t s = true.
Proof.
  unfold String.ltb, String.leb. rewrite (String.compare_antisym s t).
  now destruct (String.compare t s).
Qed.

Lemma leb_empty t : String.leb t "" = true -> t = "".
Proof. now destruct t. Qed.

(* ================================================================= *)
(** ** The sort *)

Lemma strongly_sorted_nth {A : Type} (R : A -> A -> Prop) (l : list A) :
  StronglySorted R l ->
  forall i j a b, (i < j)%nat ->
    nth_error l i = Some a -> nth_error l j = Some b -> R a b.
Proof.
  induction 1 as [|x l Hs IH Hx]; intros i j a b Hij Hi Hj.
  - now destruct i.
  - destruct j as [|j]; [lia|]. cbn in Hj.
    destruct i as [|i].
    + cbn in Hi. injection Hi as <-.
      rewrite Forall_forall in Hx. apply Hx. eapply nth_error_In; eauto.
    + cbn in Hi. apply (IH i j); auto. lia.
Qed.

Section Sorting.

Variable A : Type.
Variable key : A -> json.
Variable py_lt_other : json -> json -> option bool.

Local Abbreviation py_lt := (RealtimeScanner.py_lt py_lt_other).
Local Abbreviation insert_desc := (insert_desc key py_lt).
Local Abbreviation sort_desc := (sort_desc key py_lt).
Local Abbreviation str_key := (str_key key).
Local Abbreviation key_text := (key_text key).
Local Abbreviation not_below := (not_below key).

Lemma insert_desc_perm x l : forall l',
  insert_desc x l = Some l' -> Permutation (x :: l) l'.
Proof.
  induction l as [|y l IH]; intros l' H; cbn in H.
  - now injection H as <-.
  - destruct (py_lt (key x) (key y)) as [[|]|]; try discriminate.
    + destruct (insert_desc x l) as [l''|]; [|discriminate].
      injection H as <-. rewrite perm_swap. now constructor; apply IH.
    + now injection H as <-.
Qed.

Lemma sort_desc_perm l : forall l', sort_desc l = Some l' -> Permutation l l'.
Proof.
  induction l as [|x l IH]; intros l' H; cbn in H.
  - now injection H as <-.
  - destruct (sort_desc l) as [s|]; [|discriminate].
    rewrite <- (insert_desc_perm _ _ _ H). now constructor; apply IH.
Qed.

Lemma py_lt_same_kind x y c :
  py_lt (key x) (key y) = Some c -> str_key x = str_key y.
Proof.
  unfold RealtimeScanner.py_lt, str_key.
  destruct (key x), (key y); try discriminate; reflexivity.
Qed.

Lemma py_lt_str x y :
  str_key x = true -> str_key y = true ->
  py_lt (key x) (key y) = Some (String.ltb (key_text x) (key_text y)).
Proof.
  unfold RealtimeScanner.py_lt, str_key, key_text.
  destruct (key x), (key y); try discriminate; reflexivity.
Qed.

(** A sort that succeeds on two items or more has compared each key with
    another one: the keys are all [str] or none is. *)
Lemma sort_desc_one_kind l : forall l',
  sort_desc l = Some l' -> exists b, Forall (fun x => str_key x = b) l'.
Proof.
  induction l as [|x l IH]; intros l' H; cbn in H.
  - injection H as <-. now exists true.
  - destruct (sort_desc l) as [s|]; [|discriminate].
    destruct (IH s eq_refl) as [b Hb].
    destruct s as [|y s].
    + cbn in H. injection H as <-. exists (str_key x). now repeat constructor.
    + exists b. eapply Permutation_Forall; [exact (insert_desc_perm _ _ _ H)|].
      constructor; [|exact Hb]. cbn in H.
      destruct (py_lt (key x) (key y)) as [c|] eqn:E; [|discriminate].
      rewrite (py_lt_same_kind _ _ _ E). now inversion Hb.
Qed.

Lemma insert_desc_sorted x l : forall l',
  str_key x = true -> Forall (fun y => str_key y = true) l ->
  StronglySorted not_below l ->
  insert_desc x l = Some l' -> StronglySorted not_below l'.
Proof.
  induction l as [|y l IH]; intros l' Hx Hl Hs H; cbn in H.
  - injection H as <-. repeat constructor.
  - inversion Hl as [|? ? Hy Hl']; subst. inversion Hs as [|? ? Hs' Hy']; subst.
    rewrite (py_lt_str _ _ Hx Hy) in H.
    destruct (String.ltb (key_text x) (key_text y)) eqn:E.
    + destruct (insert_desc x l) as [l''|] eqn:El; [|discriminate].
      injection H as <-. constructor; [now apply IH|].
      eapply Permutation_Forall; [exact (insert_desc_perm _ _ _ El)|].
      constructor; [|exact Hy']. now apply ltb_true_leb.
    + injection H as <-. constructor; [exact Hs|].
      apply ltb_false_leb in E. constructor; [exact E|].
      eapply Forall_impl; [|exact Hy']. intros z Hz. unfold not_below in *.
      eapply leb_trans; eauto.
Qed.

Lemma sort_desc_sorted l : forall l',
  sort_desc l = Some l' -> Forall (fun y => str_key y = true) l' ->
  StronglySorted not_below l'.
Proof.
  induction l as [|x l IH]; intros l' H Hl'; cbn in H.
  - injection H as <-. constructor.
  - destruct (sort_desc l) as [s|]; [|discriminate].
    pose proof (insert_desc_perm _ _ _ H) as Hp.
    apply Permutation_sym in Hp.
    pose proof (Permutation_Forall Hp Hl') as Hxs.
    inversion Hxs; subst. eapply insert_desc_sorted; eauto.
Qed.

(** Two items with [str] keys of a sorted list are in descending order. *)
Lemma sort_desc_ordered l l' i j a b :
  sort_desc l = Some l' -> (i < j)%nat ->
  nth_error l' i = Some a -> nth_error l' j = Some b ->
  str_key a = true -> not_below a b.
Proof.
  intros H Hij Hi Hj Ha.
  destruct (sort_desc_one_kind _ _ H) as [k Hk].
  assert (k = true) as ->.
  { rewrite Forall_forall in Hk. rewrite <- Ha. symmetry. apply Hk.
    eapply nth_error_In; eauto. }
  eapply strongly_sorted_nth; [eapply sort_desc_sorted; eauto| |eauto|eauto].
  exact Hij.
Qed.

End Sorting.

(* ================================================================= *)
(** ** The report of a scan *)

Lemma activity_key a s :
  activity a = Some s -> RealtimeScanner.sort_key a = JStr s.
Proof.
  unfold activity, RealtimeScanner.sort_key, Py.or_else.
  destruct (last_activity a) as [| | | |t| |]; try discriminate;
    intros H; injection H as <-; [reflexivity|].
  cbn. now destruct (String.eqb_spec t "") as [->|].
Qed.

Lemma int_of_integer (x : Q) (n : Z) : (x == inject_Z n)%Q -> Py.int_of x = n.
Proof.
  unfold Qeq, Py.int_of. cbn. rewrite Z.mul_1_r. intros ->.
  now apply Z.quot_mul.
Qed.

Section Gathering.

Variable json_loads : string -> option json.
Variable py_str : json -> string.
Variable py_lt_other : json -> json -> option bool.

Local Abbreviation parse_session := (RealtimeScanner.parse_session json_loads py_str).
Local Abbreviation scan_file := (RealtimeScanner.scan_file json_loads py_str).
Local Abbreviation scan_dir := (RealtimeScanner.scan_dir json_loads py_str).
Local Abbreviation scan :=
  (RealtimeScanner.scan_active_sessions json_loads py_str py_lt_other).
Local Abbreviation of_file := (Holds.of_file json_loads py_str).
Local Abbreviation of_entry := (Holds.of_entry json_loads py_str).
Local Abbreviation gathered := (Holds.gathered json_loads py_str).
Local Abbreviation from_root := (Holds.from_root json_loads py_str).

Lemma accumulate_sessions r pn s :
  active_sessions (RealtimeScanner.accumulate r pn s) = active_sessions r ++ [s].
Proof.
  unfold RealtimeScanner.accumulate.
  destruct (String.eqb (state s) "waiting_for_question"
            || String.eqb (state s) "waiting_for_approval"); [reflexivity|].
  now destruct (String.eqb (state s) "processing").
Qed.

Lemma of_file_unlisted now pn pp f :
  PyStr.glob_jsonl (f_name f) = false -> of_file now pn pp f = [].
Proof.
  intros H. unfold Holds.of_file, Holds.read_at, Holds.statted. rewrite H.
  now destruct (f_mtime f).
Qed.

(** What a listed file adds to the snapshots, when the scan goes on. *)
Lemma scan_file_sessions now d pn pp r f r' :
  PyStr.glob_jsonl (f_name f) = true ->
  scan_file now d pn pp r f = Ok r' ->
  active_sessions r' = active_sessions r ++ of_file now pn pp f.
Proof.
  intros Hg. unfold RealtimeScanner.scan_file, Holds.of_file, Holds.read_at,
    Holds.statted. rewrite Hg.
  destruct (PyStr.startswith (f_name f) "agent-"); cbn [negb andb].
  - intros H. injection H as <-. destruct (f_mtime f); now rewrite app_nil_r.
  - destruct (f_mtime f) as [mtime|]; [|discriminate].
    destruct (Py.gt _ _); cbn [negb].
    + intros H. injection H as <-. now rewrite app_nil_r.
    + destruct (parse_session _ _ _ _); intros H; injection H as <-;
        [apply accumulate_sessions|now rewrite app_nil_r].
Qed.

Lemma scan_files_gathered now d pn pp children : forall r r',
  for_each (scan_file now d pn pp)
           (filter (fun f => PyStr.glob_jsonl (f_name f)) children) r = Ok r' ->
  active_sessions r' = active_sessions r ++ flat_map (of_file now pn pp) children.
Proof.
  induction children as [|f children IH]; intros r r'; cbn [filter flat_map].
  - cbn [for_each]. intros H. injection H as <-. now rewrite app_nil_r.
  - destruct (PyStr.glob_jsonl (f_name f)) eqn:Eg.
    + cbn [for_each].
      destruct (scan_file now d pn pp r f) as [r1|e] eqn:E1; [|discriminate].
      intros H.
      now rewrite (IH _ _ H), (scan_file_sessions _ _ _ _ _ _ _ Eg E1), <- app_assoc.
    + intros H. rewrite (of_file_unlisted _ _ _ _ Eg). cbn [app]. now apply IH.
Qed.

Lemma scan_dir_gathered now d r r' :
  scan_dir now r d = Ok r' ->
  active_sessions r' = active_sessions r ++ of_entry now d.
Proof.
  destruct d as [dir_name children|];
    cbn [RealtimeScanner.scan_dir Holds.of_entry].
  - destruct (RealtimeScanner.project_of dir_name) as [pn pp]. cbn [fst snd].
    apply scan_files_gathered.
  - intros H. injection H as <-. now rewrite app_nil_r.
Qed.

Lemma scan_dirs_gathered now entries : forall r r',
  for_each (scan_dir now) entries r = Ok r' ->
  active_sessions r' = active_sessions r ++ gathered now (Some entries).
Proof.
  unfold Holds.gathered.
  induction entries as [|d entries IH]; intros r r'; cbn [for_each flat_map].
  - intros H. injection H as <-. now rewrite app_nil_r.
  - destruct (scan_dir now r d) as [r1|e] eqn:E1; [|discriminate].
    intros H.
    now rewrite (IH _ _ H), (scan_dir_gathered _ _ _ _ E1), <- app_assoc.
Qed.

(** A scan that returns: the two loops have ended without an exception, and
    the report is theirs with the snapshots sorted. *)
Lemma scan_returns ts now root r :
  scan ts now root = Ok r ->
  exists acc,
    match root with
    | Some entries =>
        for_each (scan_dir now) entries (RealtimeScanner.empty_report ts)
        = Ok acc
    | None => acc = RealtimeScanner.empty_report ts
    end /\
    active_sessions acc = gathered now root /\
    sort_desc RealtimeScanner.sort_key (RealtimeScanner.py_lt py_lt_other)
              (gathered now root) = Some (active_sessions r) /\
    r = RealtimeScanner.with_sessions acc (active_sessions r).
Proof.
  unfold RealtimeScanner.scan_active_sessions.
  destruct root as [entries|].
  2:{ intros H. injection H as <-. eexists. split; [reflexivity|].
      repeat split. }
  destruct (for_each _ entries _) as [acc|e] eqn:Eacc; [|discriminate].
  pose proof (scan_dirs_gathered _ _ _ _ Eacc) as Hg.
  cbn [RealtimeScanner.empty_report active_sessions app] in Hg.
  destruct (sort_desc _ _ (active_sessions acc)) as [sorted|] eqn:E;
    [|discriminate].
  intros H. injection H as <-. exists acc.
  split; [reflexivity|]. split; [exact Hg|].
  split; [now rewrite <- Hg|reflexivity].
Qed.

(** The snapshots that a scan gathers are those of the files that it
    reads. *)
Lemma gathered_from_root now root s :
  In s (gathered now root) <-> from_root now root s.
Proof.
  unfold Holds.gathered, Holds.from_root. destruct root as [entries|].
  2:{ split; [intros []|]. intros (? & ? & ? & ? & ? & E & _). discriminate. }
  rewrite in_flat_map. split.
  - intros (d & Hd & Hs). destruct d as [dn ch|]; [|destruct Hs].
    cbn [Holds.of_entry] in Hs. apply in_flat_map in Hs as (f & Hf & Hs).
    unfold Holds.of_file in Hs.
    destruct (f_mtime f) as [m|] eqn:Em; [|destruct Hs].
    destruct (Holds.read_at now f) eqn:Er; [|destruct Hs].
    destruct (parse_session _ _ _ _) as [s'|] eqn:Ep; [|destruct Hs].
    destruct Hs as [<-|[]].
    exists entries, dn, ch, f, m. auto 10.
  - intros (e & dn & ch & f & m & E & Hd & Hf & Em & Hr & Hp).
    injection E as <-. exists (Dir dn ch). split; [exact Hd|].
    cbn [Holds.of_entry]. apply in_flat_map. exists f. split; [exact Hf|].
    unfold Holds.of_file. rewrite Em, Hr, Hp. now left.
Qed.

End Gathering.

Section Report.

Variable json_loads : string -> option json.
Variable py_str : json -> string.
Variable py_lt_other : json -> json -> option bool.

Local Abbreviation parse_session := (RealtimeScanner.parse_session json_loads py_str).
Local Abbreviation scan :=
  (RealtimeScanner.scan_active_sessions json_loads py_str py_lt_other).

(** C6: the report of a scan holds the snapshots that the scan has
    gathered, each as often as it was gathered, in descending order of
    [last_activity] as text, an absent one counting as the empty text; and
    a snapshot without [last_activity] stands after every snapshot with a
    non-empty one. *)
Theorem sessions_sorted ts now root r :
  scan ts now root = Ok r ->
  Permutation (Holds.gathered json_loads py_str now root) (active_sessions r) /\
  (forall i j a b s t,
      (i < j)%nat ->
      nth_error (active_sessions r) i = Some a ->
      nth_error (active_sessions r) j = Some b ->
      activity a = Some s -> activity b = Some t ->
      String.leb t s = true) /\
  (forall i j a b,
      nth_error (active_sessions r) i = Some a ->
      nth_error (active_sessions r) j = Some b ->
      last_activity a = JNull -> Py.truthy (last_activity b) = true ->
      (j < i)%nat).
Proof.
  intros H.
  destruct (scan_returns json_loads py_str py_lt_other _ _ _ _ H)
    as (acc & _ & _ & E & _).
  split; [exact (sort_desc_perm _ _ _ _ _ E)|].
  assert (Hsort : active_sessions r = [] \/
                  exists l, sort_desc RealtimeScanner.sort_key
                              (RealtimeScanner.py_lt py_lt_other) l
                            = Some (active_sessions r))
    by (right; eexists; exact E).
  clear E.
  assert (Hord : forall i j a b s t,
      (i < j)%nat ->
      nth_error (active_sessions r) i = Some a ->
      nth_error (active_sessions r) j = Some b ->
      activity a = Some s -> activity b = Some t ->
      String.leb t s = true).
  { intros i j a b s t Hij Hi Hj Ha Hb.
    destruct Hsort as [E|[l E]]; [rewrite E in Hi; now destruct i|].
    apply activity_key in Ha, Hb.
    assert (Hk : str_key RealtimeScanner.sort_key a = true)
      by (unfold str_key; now rewrite Ha).
    pose proof (sort_desc_ordered _ _ _ _ _ _ _ _ _ E Hij Hi Hj Hk) as Hn.
    unfold not_below, key_text in Hn. now rewrite Ha, Hb in Hn. }
  split; [exact Hord|].
  intros i j a b Hi Hj Ha Hb.
  destruct (Nat.lt_trichotomy i j) as [Hlt|[->|Hgt]]; [exfalso| exfalso |exact Hgt].
  - destruct Hsort as [E|[l E]]; [rewrite E in Hi; now destruct i|].
    destruct (sort_desc_one_kind _ _ _ _ _ E) as [k Hk].
    rewrite Forall_forall in Hk.
    pose proof (Hk a (nth_error_In _ _ Hi)) as Hka.
    pose proof (Hk b (nth_error_In _ _ Hj)) as Hkb.
    unfold str_key, RealtimeScanner.sort_key, Py.or_else in Hka, Hkb.
    rewrite Ha in Hka. cbn in Hka. subst k. rewrite Hb in Hkb.
    destruct (last_activity b) as [| | | |t| |] eqn:Et; try discriminate.
    assert (t = "") as ->; [|discriminate].
    apply leb_empty.
    apply (Hord i j a b "" t Hlt Hi Hj); unfold activity; [now rewrite Ha|now rewrite Et].
  - rewrite Hi in Hj. injection Hj as ->. rewrite Ha in Hb. discriminate.
Qed.

(** C1: one project directory "-Users-alice-proj" with one log file, one
    minute old, whose last line is the [tool_use] of "Bash": the report has
    the one snapshot of project "proj" at "/Users/alice/proj", waiting for
    the approval of "Bash", counted once as waiting. *)
Theorem one_bash_session ts now name mtime lines line :
  PyStr.glob_jsonl name = true ->
  PyStr.startswith name "agent-" = false ->
  (now - mtime == 60)%Q ->
  PyStr.strip line = Demo.bash_line ->
  json_loads Demo.bash_line = Some Demo.bash_entry ->
  exists s p,
    scan ts now
         (Some [Dir "-Users-alice-proj"
                    [{| f_name := name; f_mtime := Some mtime;
                        f_lines := Some (lines ++ [line]) |}]])
    = Ok {| timestamp := ts;
            active_sessions := [s];
            waiting_count := 1;
            processing_count := 0;
            projects_with_waiting := ["proj"] |} /\
    project_name s = "proj" /\
    project_path s = "/Users/alice/proj" /\
    state s = "waiting_for_approval" /\
    idle_seconds s = 60 /\
    pending_approval s = Some p /\
    pa_tool_name p = JStr "Bash".
Proof.
  intros Hglob Hagent Hage Hline Hloads.
  assert (H600 : Py.gt (now - mtime) RealtimeScanner.ACTIVE_THRESHOLD_SECONDS = false).
  { apply gt_false_iff. rewrite Hage. discriminate. }
  assert (H300 : Py.gt (now - mtime) RealtimeScanner.IDLE_THRESHOLD_SECONDS = false).
  { apply gt_false_iff. rewrite Hage. discriminate. }
  set (f := {| f_name := name; f_mtime := Some mtime;
               f_lines := Some (lines ++ [line]) |}).
  assert (Hp : exists s p,
             parse_session f "proj" "/Users/alice/proj" (now - mtime) = Some s /\
             project_name s = "proj" /\
             project_path s = "/Users/alice/proj" /\
             state s = "waiting_for_approval" /\
             idle_seconds s = 60 /\
             pending_approval s = Some p /\
             pa_tool_name p = JStr "Bash").
  { rewrite <- Hline in Hloads.
    rewrite (parse_session_last json_loads py_str f _ _ _ lines line _ eq_refl Hloads).
    unfold RealtimeScanner.decide. rewrite H300. cbn.
    do 2 eexists. split; [reflexivity|]. cbn.
    rewrite (int_of_integer _ 60 Hage). repeat split. }
  destruct Hp as (s & p & Hs & Hn & Hpath & Hst & Hidle & Hpend & Htool).
  exists s, p. repeat split; trivial.
  unfold RealtimeScanner.scan_active_sessions.
  cbn [for_each RealtimeScanner.scan_dir].
  change (RealtimeScanner.project_of "-Users-alice-proj")
    with ("proj", "/Users/alice/proj").
  cbn [filter f f_name]. rewrite Hglob. cbn [for_each].
  unfold RealtimeScanner.scan_file.
  change (f_name f) with name. change (f_mtime f) with (Some mtime).
  rewrite Hagent, H600, Hs. unfold RealtimeScanner.accumulate. rewrite Hst. cbn.
  reflexivity.
Qed.

(** C8, where the code fails: two fresh log files whose last entries carry
    a number and a text as [timestamp]; the sort compares the two keys and
    the [TypeError] leaves the scan. *)
Theorem scan_raises_on_mixed_timestamps ts :
  RealtimeScanner.scan_active_sessions Demo.loads py_str py_lt_other ts 1000
    (Some [Dir "-Users-alice-proj"
               [Demo.file "a.jsonl" 940 [Demo.number_stamp_line];
                Demo.file "b.jsonl" 940 [Demo.string_stamp_line]]])
  = Raise TypeError.
Proof. reflexivity. Qed.

(** What holds of C8: a missing projects directory gives the empty report. *)
Lemma scan_missing_root ts now :
  scan ts now None = Ok (RealtimeScanner.empty_report ts).
Proof. reflexivity. Qed.

(** What holds of C8: a file that cannot be read, has no line, or whose last
    line does not parse gives no snapshot. *)
Lemma parse_session_bad_file f pn pp age :
  f_lines f = None \/ f_lines f = Some [] \/
  (exists lines line, f_lines f = Some (lines ++ [line]) /\
                      json_loads (PyStr.strip line) = None) ->
  parse_session f pn pp age = None.
Proof.
  unfold RealtimeScanner.parse_session.
  intros [->|[->|(lines & line & -> & H)]]; try reflexivity.
  pose proof (last_last lines line "") as Hlast.
  destruct (lines ++ [line]) as [|l0 ls]; [reflexivity|].
  now rewrite Hlast, H.
Qed.

(** What holds of C8: a file that [stat()] does not fail on and that gives
    no snapshot changes nothing in the outcome of the scan. *)
Lemma bad_file_ignored ts now before dir_name pre f post after :
  Holds.lost f = false ->
  (forall pn pp age, parse_session f pn pp age = None) ->
  scan ts now (Some (before ++ Dir dir_name (pre ++ f :: post) :: after))
  = scan ts now (Some (before ++ Dir dir_name (pre ++ post) :: after)).
Proof.
  intros Hl H. apply scan_replace. apply scan_dir_skip.
  intros _ pn pp r. unfold RealtimeScanner.scan_file, Holds.lost in *.
  destruct (PyStr.startswith (f_name f) "agent-"); [reflexivity|].
  destruct (f_mtime f) as [mtime|]; [|discriminate].
  rewrite H. now destruct (Py.gt _ _).
Qed.

End Report.

(* ================================================================= *)
(** ** The theorems at the lines of the examples *)

Lemma last_entry_of_line name mtime line entry :
  Demo.loads (PyStr.strip line) = Some entry ->
  Entry.last_entry Demo.loads (Demo.file name mtime [line]) entry.
Proof. intros H. exists [], line. split; [reflexivity|exact H]. Defined.

Lemma one_bash_session_witness :
  exists s p,
    Demo.scan "2024-01-01T00:10:00+00:00" 1000
      (Demo.alice [Demo.file "abc.jsonl" 940
                     [Demo.user_line; Demo.ended Demo.bash_line]])
    = Ok {| timestamp := "2024-01-01T00:10:00+00:00";
            active_sessions := [s];
            waiting_count := 1;
            processing_count := 0;
            projects_with_waiting := ["proj"] |} /\
    project_name s = "proj" /\
    project_path s = "/Users/alice/proj" /\
    state s = "waiting_for_approval" /\
    idle_seconds s = 60 /\
    pending_approval s = Some p /\
    pa_tool_name p = JStr "Bash".
Proof.
  apply (one_bash_session Demo.loads Demo.str Demo.lt_other
           "2024-01-01T00:10:00+00:00" 1000 "abc.jsonl" 940
           [Demo.user_line] (Demo.ended Demo.bash_line));
    reflexivity.
Defined.

Lemma stale_file_ignored_witness :
  Demo.scan "2024-01-01T00:10:00+00:00" 1000
    (Demo.alice [Demo.file "abc.jsonl" 300 [Demo.bash_line]])
  = Demo.scan "2024-01-01T00:10:00+00:00" 1000 (Demo.alice []).
Proof.
  apply (stale_file_ignored Demo.loads Demo.str Demo.lt_other
           "2024-01-01T00:10:00+00:00" 1000 [] "-Users-alice-proj" []
           (Demo.file "abc.jsonl" 300 [Demo.bash_line]) 300 [] []);
    reflexivity.
Defined.

Lemma idle_past_threshold_witness :
  (forall s,
      Demo.parse (Demo.file "abc.jsonl" 600 [Demo.bash_line])
                 "proj" "/Users/alice/proj" 400 = Some s ->
      state s = "idle") /\
  (Demo.parse (Demo.file "abc.jsonl" 600 [Demo.bash_line])
              "proj" "/Users/alice/proj" 400 = None
   <-> Entry.message_is_object (Demo.fields Demo.bash_entry) = false).
Proof.
  apply (idle_past_threshold Demo.loads Demo.str
           (Demo.file "abc.jsonl" 600 [Demo.bash_line])
           "proj" "/Users/alice/proj" 400 (Demo.fields Demo.bash_entry)).
  - apply last_entry_of_line. reflexivity.
  - reflexivity.
  - unfold Qle; simpl; lia.
Defined.

Lemma first_tool_use_ask_witness :
  exists s p,
    Demo.parse (Demo.file "abc.jsonl" 940 [Demo.ask_line])
               "proj" "/Users/alice/proj" 60 = Some s /\
    state s = "waiting_for_question" /\
    pending_approval s = Some p /\
    pa_type p = "question" /\
    pa_tool_name p = JStr "AskUserQuestion" /\
    forall r,
      processing_count (RealtimeScanner.accumulate r "proj" s)
      = processing_count r /\
      waiting_count (RealtimeScanner.accumulate r "proj" s)
      = waiting_count r + 1.
Proof.
  apply (first_tool_use_ask Demo.loads Demo.str
           (Demo.file "abc.jsonl" 940 [Demo.ask_line])
           "proj" "/Users/alice/proj" 60 (Demo.fields Demo.ask_entry)
           [Demo.obj_text "One moment."]
           (Demo.obj_tool "AskUserQuestion" [("questions", JArr [])]) []).
  - apply last_entry_of_line. reflexivity.
  - split; reflexivity.
  - unfold Qle; simpl; lia.
  - reflexivity.
  - reflexivity.
  - reflexivity.
Defined.

Lemma text_only_state_witness :
  exists s,
    Demo.parse (Demo.file "abc.jsonl" 940 [Demo.anything_else_line])
               "proj" "/Users/alice/proj" 60 = Some s /\
    state s = "waiting_for_question" /\
    (forall item,
        [Demo.obj_text "Done. Anything else?"] = [item] ->
        Entry.is_text item = true ->
        (Entry.text_of item = Some "Done. Anything else?" ->
         state s = "waiting_for_question") /\
        (Entry.text_of item = Some "Done." -> state s = "task_complete")).
Proof.
  apply (text_only_state Demo.loads Demo.str
           (Demo.file "abc.jsonl" 940 [Demo.anything_else_line])
           "proj" "/Users/alice/proj" 60 (Demo.fields Demo.anything_else_entry)
           [Demo.obj_text "Done. Anything else?"]).
  - apply last_entry_of_line. reflexivity.
  - split; reflexivity.
  - unfold Qle; simpl; lia.
  - reflexivity.
Defined.

Lemma sessions_sorted_witness :
  exists r,
    Demo.scan "2024-01-01T00:10:00+00:00" 1000
      (Demo.alice [Demo.file "a.jsonl" 940 [Demo.user_line];
                   Demo.file "b.jsonl" 950 [Demo.user_at_line]]) = Ok r /\
    Permutation
      (Holds.gathered Demo.loads Demo.str 1000
         (Demo.alice [Demo.file "a.jsonl" 940 [Demo.user_line];
                      Demo.file "b.jsonl" 950 [Demo.user_at_line]]))
      (active_sessions r) /\
    (forall i j a b s t,
        (i < j)%nat ->
        nth_error (active_sessions r) i = Some a ->
        nth_error (active_sessions r) j = Some b ->
        activity a = Some s -> activity b = Some t ->
        String.leb t s = true) /\
    (forall i j a b,
        nth_error (active_sessions r) i = Some a ->
        nth_error (active_sessions r) j = Some b ->
        last_activity a = JNull -> Py.truthy (last_activity b) = true ->
        (j < i)%nat).
Proof.
  eexists. split; [reflexivity|].
  apply (sessions_sorted Demo.loads Demo.str Demo.lt_other
           "2024-01-01T00:10:00+00:00" 1000
           (Demo.alice [Demo.file "a.jsonl" 940 [Demo.user_line];
                        Demo.file "b.jsonl" 950 [Demo.user_at_line]])).
  reflexivity.
Defined.

Lemma assistant_without_tool_or_text_witness :
  exists s,
    Demo.parse (Demo.file "abc.jsonl" 940 [Demo.bare_assistant_line])
               "proj" "/Users/alice/proj" 60 = Some s /\
    state s = "task_complete" /\
    last_message_preview s = JStr "" /\
    pending_approval s = None.
Proof.
  apply (assistant_without_tool_or_text Demo.loads Demo.str
           (Demo.file "abc.jsonl" 940 [Demo.bare_assistant_line])
           "proj" "/Users/alice/proj" 60
           (Demo.fields Demo.bare_assistant_entry) []).
  - apply last_entry_of_line. reflexivity.
  - split; reflexivity.
  - unfold Qle; simpl; lia.
  - reflexivity.
Defined.

(** C4, as it is worded, fails when another [tool_use] item stands before
    the one named "AskUserQuestion": the first one decides, and the session
    waits for an approval. *)
Lemma ask_after_bash_waits_for_approval :
  let f := Demo.file "abc.jsonl" 940 [Demo.bash_then_ask_line] in
  let items := [Demo.obj_tool "Bash" [("command", JStr "ls")];
                Demo.obj_tool "AskUserQuestion" [("questions", JArr [])]] in
  Entry.last_entry Demo.loads f Demo.bash_then_ask_entry /\
  Entry.assistant (Demo.fields Demo.bash_then_ask_entry) items /\
  existsb (Entry.named "AskUserQuestion") items = true /\
  exists s p,
    Demo.parse f "proj" "/Users/alice/proj" 60 = Some s /\
    state s = "waiting_for_approval" /\
    state s <> "waiting_for_question" /\
    pending_approval s = Some p /\
    pa_type p = "tool_use" /\
    pa_type p <> "question".
Proof.
  cbv zeta. split; [apply last_entry_of_line; reflexivity|].
  split; [split; reflexivity|]. split; [reflexivity|].
  do 2 eexists. split; [reflexivity|]. cbn.
  repeat split; discriminate.
Qed.

(** A single text item "Done." leaves the session "task_complete". *)
Lemma done_is_task_complete :
  exists s,
    Demo.parse (Demo.file "abc.jsonl" 940 [Demo.done_line])
               "proj" "/Users/alice/proj" 60 = Some s /\
    state s = "task_complete" /\
    last_message_preview s = JStr "Done.".
Proof. eexists. split; [reflexivity|]. split; reflexivity. Qed.

(** Past the idle threshold, a last entry whose [message] is a number gives
    no snapshot at all: the lookup of the model raises. *)
Lemma number_message_gives_no_snapshot :
  Entry.last_entry Demo.loads
    (Demo.file "abc.jsonl" 600 [Demo.number_message_line])
    Demo.number_message_entry /\
  Demo.parse (Demo.file "abc.jsonl" 600 [Demo.number_message_line])
             "proj" "/Users/alice/proj" 400 = None.
Proof. split; [apply last_entry_of_line|]; reflexivity. Qed.

(* ================================================================= *)
(** ** Every snapshot of [_parse_session] *)

Section Snapshots.

Variable json_loads : string -> option json.
Variable py_str : json -> string.

Local Abbreviation parse_session := (RealtimeScanner.parse_session json_loads py_str).
Local Abbreviation for_items := (RealtimeScanner.for_items py_str).
Local Abbreviation on_tool_use := (RealtimeScanner.on_tool_use py_str).
Local Abbreviation on_assistant := (RealtimeScanner.on_assistant py_str).
Local Abbreviation decide age entry :=
  (RealtimeScanner.decide py_str age (JObj entry)
                          (Py.dget entry "type" (JStr "unknown"))).

(** A snapshot comes from a last line that is read as an object. *)
Lemma parse_session_inv f pn pp age s :
  parse_session f pn pp age = Some s ->
  exists lines line entry,
    f_lines f = Some (lines ++ [line]) /\
    json_loads (PyStr.strip line) = Some (JObj entry).
Proof.
  unfold RealtimeScanner.parse_session.
  destruct (f_lines f) as [lines|]; [|discriminate].
  destruct (list_eq_dec string_dec lines []) as [->|Hne]; [discriminate|].
  destruct (exists_last Hne) as (lines' & line & ->).
  pose proof (last_last lines' line "") as Hlast.
  intros H. exists lines', line.
  destruct (lines' ++ [line]) as [|l0 ls]; [discriminate|].
  rewrite Hlast in H.
  destruct (json_loads (PyStr.strip line)) as [entry|]; [|discriminate].
  destruct entry as [| | | | | |entry]; try discriminate.
  exists entry. now split.
Qed.

Lemma on_text_shape item v v' :
  Shape.fresh v -> RealtimeScanner.on_text item v = Some v' -> Shape.fresh v'.
Proof.
  intros (Hs & Hp & Ht & _) H.
  destruct (Py.dget item "text" (JStr "")) as [| | | |t|l|kv] eqn:Es.
  5:{ destruct (on_text_literal item v t Es) as (p0 & E).
      rewrite E in H. injection H as <-. unfold Shape.fresh. cbn.
      rewrite Hs, Hp, Ht. repeat split; eauto. }
  all: unfold RealtimeScanner.on_text in H; rewrite Es in H; cbn in H;
    try discriminate.
  all: match type of H with
       | context [if ?c then _ else _] => destruct c
       end; discriminate.
Qed.

Lemma on_tool_use_shape ts item v v' :
  Shape.fresh v -> on_tool_use ts item v = Some v' -> Shape.stopped ts v'.
Proof.
  intros (Hs & Hp & Ht & Hpre) H. unfold RealtimeScanner.on_tool_use in H.
  destruct (Py.eq_str (Py.dget item "name" (JStr "Unknown")) "AskUserQuestion")
    eqn:En.
  - destruct (Py.get _ "questions" _); [|discriminate]. injection H as <-.
    split; [exact Hpre|]. eexists. split; [reflexivity|]. left.
    destruct (Py.dget item "name" (JStr "Unknown")) as [| | | |n| |];
      try discriminate.
    cbn in En. apply String.eqb_eq in En. subst n. cbn. eauto.
  - destruct (Py.get _ "command" _) as [c|]; [|discriminate].
    destruct (Py.slice_to 100 c) as [d0|]; [|discriminate].
    destruct (Py.get _ "description" d0) as [d|]; [|discriminate].
    injection H as <-. split; [exact Hpre|]. eexists. split; [reflexivity|].
    right. cbn. eauto.
Qed.

(** The loop ends with nothing but text met, or at a [tool_use] item. *)
Lemma for_items_shape ts items : forall v v',
  Shape.fresh v -> for_items ts items v = Some v' ->
  Shape.fresh v' \/ Shape.stopped ts v'.
Proof.
  induction items as [|item items IH]; intros v v' Hv H.
  - injection H as <-. now left.
  - destruct item as [| | | | |l|item]; try exact (IH v v' Hv H).
    cbn [RealtimeScanner.for_items] in H.
    destruct (Py.eq_str (Py.dget item "type" JNull) "tool_use").
    + right. eapply on_tool_use_shape; eauto.
    + destruct (Py.eq_str (Py.dget item "type" JNull) "text");
        [|exact (IH v v' Hv H)].
      destruct (RealtimeScanner.on_text item v) as [v1|] eqn:E1; [|discriminate].
      eapply IH; [eapply on_text_shape; eauto|exact H].
Qed.

Lemma fresh_init : Shape.fresh RealtimeScanner.init_vars.
Proof. unfold Shape.fresh. cbn. repeat split; eauto. Qed.

(** The assistant branch ends a question, a completed task, or at a tool. *)
Lemma on_assistant_shape entry v :
  on_assistant (JObj entry) = Some v ->
  ((RealtimeScanner.v_state v = "waiting_for_question" \/
    RealtimeScanner.v_state v = "task_complete") /\
   RealtimeScanner.v_pending_approval v = None /\
   RealtimeScanner.v_last_tool v = None /\
   exists p, RealtimeScanner.v_last_message_preview v = JStr p) \/
  Shape.stopped (Py.dget entry "timestamp" JNull) v.
Proof.
  unfold RealtimeScanner.on_assistant. cbn [Py.get].
  destruct (Py.get (Py.dget entry "message" (JObj [])) "content" (JArr []))
    as [content|]; [|discriminate].
  destruct (Py.iter content) as [items|]; [|discriminate].
  destruct (for_items (Py.dget entry "timestamp" JNull) items
              RealtimeScanner.init_vars) as [v0|] eqn:E; [|discriminate].
  intros H. injection H as <-.
  destruct (for_items_shape _ _ _ _ fresh_init E) as [(Hs & Hp & Ht & Hpre)|Hst].
  - left. rewrite Hs. cbn. rewrite Hp, Ht.
    destruct (RealtimeScanner.v_has_question v0); auto.
  - right. destruct Hst as (Hpre & name & Ht & [(Hn & Hs & Hp)|(Hn & Hs & Hp)]);
      rewrite Hs; cbn; (split; [exact Hpre|]); exists name; (split; [exact Ht|]);
      [left|right]; auto.
Qed.

(** The shape of every snapshot of [_parse_session]. *)
Lemma parse_session_shape f pn pp age s :
  parse_session f pn pp age = Some s ->
  In (state s) Shape.states /\
  (state s = "idle" <-> (300 < age)%Q) /\
  Shape.pending_fits s /\
  (exists p, last_message_preview s = JStr p) /\
  project_name s = pn /\ project_path s = pp /\
  idle_seconds s = Py.int_of age.
Proof.
  intros H.
  destruct (parse_session_inv _ _ _ _ _ H) as (lines & line & entry & Hl & He).
  rewrite (parse_session_last json_loads py_str f pn pp age _ _ _ Hl He) in H.
  destruct (decide age entry) as [v|] eqn:Hd; [|discriminate].
  destruct (Py.get (Py.dget entry "message" (JObj [])) "model" (JStr "unknown"));
    [|discriminate].
  injection H as <-. unfold Shape.pending_fits, Shape.states. cbn.
  unfold RealtimeScanner.decide in Hd.
  destruct (Py.gt age RealtimeScanner.IDLE_THRESHOLD_SECONDS) eqn:Hage.
  { injection Hd as <-. apply gt_true_iff in Hage. cbn.
    repeat split; eauto; discriminate. }
  apply gt_false_iff in Hage.
  assert (Hn : ~ (300 < age)%Q) by (intros Hlt; exact (Qlt_not_le _ _ Hlt Hage)).
  destruct (Py.eq_str (Py.dget entry "type" (JStr "unknown")) "user").
  { injection Hd as <-. cbn. repeat split; eauto; try discriminate.
    intros Hlt. contradiction. }
  destruct (Py.eq_str (Py.dget entry "type" (JStr "unknown")) "assistant").
  2:{ injection Hd as <-. cbn. repeat split; eauto 10; try discriminate.
      intros Hlt. contradiction. }
  destruct (on_assistant_shape _ _ Hd)
    as [(Hs & Hp & _ & Hpre)|(Hpre & name & _ & Hst)].
  - rewrite Hp. destruct Hs as [-> | ->];
      repeat split; eauto 10; try discriminate; intros Hlt; contradiction.
  - destruct Hst as [(-> & -> & d & ->)|(Hname & -> & d & ->)]; cbn;
      repeat split; eauto 10; try discriminate; try (intros Hlt; contradiction).
    right. repeat split. intros ->. discriminate.
Qed.

(** X1: every snapshot of [_parse_session] carries one of the six states;
    it is "idle" exactly when the file is older than the idle threshold; its
    pending approval goes with its state; its preview is a text; and it
    carries the project name and path that it was given. *)
Theorem snapshot_shape f pn pp age s :
  parse_session f pn pp age = Some s ->
  In (state s) Shape.states /\
  (state s = "idle" <-> (300 < age)%Q) /\
  Shape.pending_fits s /\
  (exists p, last_message_preview s = JStr p) /\
  project_name s = pn /\ project_path s = pp /\
  idle_seconds s = Py.int_of age.
Proof. apply parse_session_shape. Qed.

End Snapshots.

(* ================================================================= *)
(** ** What the report of a scan holds *)

Lemma permutation_filter_length {A : Type} (p : A -> bool) (l l' : list A) :
  Permutation l l' ->
  List.length (filter p l) = List.length (filter p l').
Proof.
  induction 1 as [|x l l' _ IH|x y l|l l' l'' _ IH1 _ IH2]; cbn.
  - reflexivity.
  - destruct (p x); cbn; congruence.
  - destruct (p x), (p y); reflexivity.
  - congruence.
Qed.

Lemma counted_permutation r l :
  Permutation (active_sessions r) l ->
  Holds.counted r -> Holds.counted (RealtimeScanner.with_sessions r l).
Proof.
  intros Hp (Hw & Hpr & Hnd & Hin). unfold Holds.counted. cbn.
  rewrite <- (permutation_filter_length _ _ _ Hp).
  rewrite <- (permutation_filter_length _ _ _ Hp).
  repeat split; trivial.
  - intros H. apply Hin in H as (s & Hs & H). exists s. split; [|exact H].
    eapply Permutation_in; eauto.
  - intros (s & Hs & H). apply Hin. exists s. split; [|exact H].
    eapply Permutation_in; [apply Permutation_sym|]; eauto.
Qed.

Lemma existsb_eqb_in (p : string) (l : list string) :
  existsb (String.eqb p) l = true <-> In p l.
Proof.
  rewrite existsb_exists. split.
  - intros (x & Hx & E). apply String.eqb_eq in E. now subst.
  - intros H. exists p. split; [exact H|apply String.eqb_refl].
Qed.

(** One more snapshot keeps the counters right. *)
Lemma accumulate_counted r pn s :
  project_name s = pn -> Holds.counted r ->
  Holds.counted (RealtimeScanner.accumulate r pn s).
Proof.
  intros Hpn (Hw & Hpr & Hnd & Hin).
  unfold Holds.counted, RealtimeScanner.accumulate.
  assert (Hfw : forall q, List.length (filter q (active_sessions r ++ [s]))
                = (List.length (filter q (active_sessions r))
                   + (if q s then 1 else 0))%nat).
  { intros q. rewrite filter_app, length_app. cbn. now destruct (q s). }
  assert (Hmem : forall p,
             (exists x, In x (active_sessions r ++ [s]) /\
                        Holds.is_waiting x = true /\ project_name x = p)
             <-> In p (projects_with_waiting r) \/
                 (Holds.is_waiting s = true /\ pn = p)).
  { intros p. rewrite Hin. split.
    - intros (x & Hx & W & E). apply in_app_or in Hx as [Hx|[<-|[]]].
      + left. eauto.
      + right. split; congruence.
    - intros [(x & Hx & H)|(W & E)].
      + exists x. split; [apply in_or_app; now left|exact H].
      + exists s. split; [apply in_or_app; right; now left|]. split; congruence. }
  unfold Holds.is_waiting, Holds.is_processing, Shape.waiting in *.
  destruct (String.eqb (state s) "waiting_for_question"
            || String.eqb (state s) "waiting_for_approval") eqn:W; cbn.
  - assert (P : String.eqb (state s) "processing" = false).
    { apply orb_prop in W as [W|W]; apply String.eqb_eq in W; now rewrite W. }
    rewrite !Hfw, W, P, Hw, Hpr.
    split; [lia|]. split; [f_equal; lia|].
    destruct (existsb (String.eqb pn) (projects_with_waiting r)) eqn:Ex.
    + split; [exact Hnd|]. intros p. rewrite Hmem.
      apply existsb_eqb_in in Ex. split; [now left|].
      intros [H|[_ <-]]; assumption.
    + assert (Hni : ~ In pn (projects_with_waiting r)).
      { intros H. apply existsb_eqb_in in H. congruence. }
      split.
      * apply NoDup_app; [exact Hnd|repeat constructor; intros []|].
        intros x Hx [<-|[]]. contradiction.
      * intros p. rewrite Hmem, in_app_iff. cbn. intuition.
  - destruct (String.eqb (state s) "processing") eqn:P; cbn;
      rewrite !Hfw, W, P, Hw, Hpr;
      (split; [f_equal; lia|]); (split; [lia|]); (split; [exact Hnd|]);
      intros p; rewrite Hmem; intuition discriminate.
Qed.

Section Contents.

Variable json_loads : string -> option json.
Variable py_str : json -> string.
Variable py_lt_other : json -> json -> option bool.

Local Abbreviation parse_session := (RealtimeScanner.parse_session json_loads py_str).
Local Abbreviation scan_file := (RealtimeScanner.scan_file json_loads py_str).
Local Abbreviation scan_dir := (RealtimeScanner.scan_dir json_loads py_str).
Local Abbreviation scan :=
  (RealtimeScanner.scan_active_sessions json_loads py_str py_lt_other).
Local Abbreviation from_root := (Holds.from_root json_loads py_str).

(** The snapshots of a report are those of the files that are read. *)
Lemma scan_members ts now root r s :
  scan ts now root = Ok r ->
  (In s (active_sessions r) <-> from_root now root s).
Proof.
  intros H.
  destruct (scan_returns json_loads py_str py_lt_other _ _ _ _ H)
    as (acc & _ & _ & E & _).
  apply sort_desc_perm in E. rewrite <- gathered_from_root. split.
  - apply Permutation_in. now apply Permutation_sym.
  - now apply Permutation_in.
Qed.

(** X2: the report of a scan holds the snapshots of the files that the scan
    reads, and no other: for each project directory of the root, its
    session logs, not of a sub-agent, modified within the active threshold,
    that [_parse_session] turns into a snapshot. *)
Theorem report_members ts now root r s :
  scan ts now root = Ok r ->
  (In s (active_sessions r) <-> from_root now root s).
Proof. apply scan_members. Qed.

Lemma scan_file_counted now d pn pp r f r' :
  Holds.counted r -> scan_file now d pn pp r f = Ok r' -> Holds.counted r'.
Proof.
  intros H. unfold RealtimeScanner.scan_file.
  destruct (PyStr.startswith (f_name f) "agent-");
    [intros E; now injection E as <-|].
  destruct (f_mtime f) as [mtime|]; [|discriminate].
  destruct (Py.gt _ _); [intros E; now injection E as <-|].
  destruct (parse_session f pn pp (now - mtime)) as [s|] eqn:E;
    intros E'; injection E' as <-; [|exact H].
  apply accumulate_counted; [|exact H].
  now destruct (parse_session_shape json_loads py_str _ _ _ _ _ E)
    as (_ & _ & _ & _ & -> & _).
Qed.

Lemma scan_dir_counted now r d r' :
  Holds.counted r -> scan_dir now r d = Ok r' -> Holds.counted r'.
Proof.
  destruct d as [dir_name children|]; cbn [RealtimeScanner.scan_dir].
  - destruct (RealtimeScanner.project_of dir_name) as [pn pp].
    apply for_each_keeps. intros a f a'. apply scan_file_counted.
  - intros H E. now injection E as <-.
Qed.

Lemma scan_counted ts now root r :
  scan ts now root = Ok r -> Holds.counted r.
Proof.
  assert (H0 : Holds.counted (RealtimeScanner.empty_report ts)).
  { unfold Holds.counted. cbn. repeat split; try constructor.
    - intros []. - intros (s & [] & _). }
  intros H.
  destruct (scan_returns json_loads py_str py_lt_other _ _ _ _ H)
    as (acc & Hacc & Hg & E & ->).
  cbn [RealtimeScanner.with_sessions active_sessions] in E |- *.
  apply counted_permutation.
  - rewrite Hg. now apply sort_desc_perm in E.
  - destruct root as [entries|]; [|now subst acc].
    exact (for_each_keeps Holds.counted _ entries
             (fun a d a' => scan_dir_counted now a d a') _ _ H0 Hacc).
Qed.

(** X3: in the report of a scan [waiting_count] is the number of snapshots
    in a waiting state and [processing_count] the number of snapshots in
    state "processing"; together they never exceed the number of
    snapshots. *)
Theorem report_counts ts now root r :
  scan ts now root = Ok r ->
  waiting_count r
  = Z.of_nat (List.length (filter Holds.is_waiting (active_sessions r))) /\
  processing_count r
  = Z.of_nat (List.length (filter Holds.is_processing (active_sessions r))) /\
  waiting_count r + processing_count r
  <= Z.of_nat (List.length (active_sessions r)).
Proof.
  intros H. destruct (scan_counted _ _ _ _ H) as (Hw & Hp & _).
  split; [exact Hw|]. split; [exact Hp|]. rewrite Hw, Hp.
  generalize (active_sessions r). intros l.
  induction l as [|s l IH]; cbn [filter List.length]; [lia|].
  unfold Holds.is_waiting, Holds.is_processing, Shape.waiting in *.
  destruct (String.eqb_spec (state s) "processing") as [->|]; cbn; [lia|].
  destruct (_ || _); cbn [List.length]; lia.
Qed.

(** X4: in the report of a scan [projects_with_waiting] names, once each,
    the projects that have a snapshot in a waiting state, and no other. *)
Theorem report_waiting_projects ts now root r :
  scan ts now root = Ok r ->
  NoDup (projects_with_waiting r) /\
  forall p, In p (projects_with_waiting r) <->
            exists s, In s (active_sessions r) /\
                      Holds.is_waiting s = true /\ project_name s = p.
Proof.
  intros H. destruct (scan_counted _ _ _ _ H) as (_ & _ & Hnd & Hin). now split.
Qed.

Lemma int_of_le (x : Q) (n : Z) :
  0 <= n -> (x <= inject_Z n)%Q -> Py.int_of x <= n.
Proof.
  unfold Qle, Py.int_of. cbn. rewrite Z.mul_1_r. intros Hn H.
  destruct (Z.lt_ge_cases (Qnum x) 0) as [Hneg|Hpos].
  - assert (Z.quot (Qnum x) (Z.pos (Qden x)) <= 0); [|lia].
    apply Z.quot_le_upper_bound; lia.
  - rewrite Z.quot_div_nonneg by lia. apply Z.div_le_upper_bound; lia.
Qed.

Lemma int_of_ge (x : Q) (n : Z) :
  0 <= n -> (inject_Z n < x)%Q -> n <= Py.int_of x.
Proof.
  unfold Qlt, Py.int_of. cbn. rewrite Z.mul_1_r. intros Hn H.
  rewrite Z.quot_div_nonneg by nia. apply Z.div_le_lower_bound; lia.
Qed.

(** X5: every snapshot of a report is at most 600 seconds idle; it is in
    state "idle" when it is more than 300 seconds idle, and only when it is
    at least 300 seconds idle; its state is one of the six, its pending
    approval goes with its state, and its project name and path are those
    of a project directory of the root. *)
Theorem report_snapshots ts now root r s :
  scan ts now root = Ok r ->
  In s (active_sessions r) ->
  idle_seconds s <= 600 /\
  (300 < idle_seconds s -> state s = "idle") /\
  (state s = "idle" -> 300 <= idle_seconds s) /\
  In (state s) Shape.states /\
  Shape.pending_fits s /\
  exists entries dir_name children,
    root = Some entries /\ In (Dir dir_name children) entries /\
    RealtimeScanner.project_of dir_name = (project_name s, project_path s).
Proof.
  intros H Hs. apply (scan_members _ _ _ _ s H) in Hs.
  destruct Hs as (entries & dn & ch & f & mtime & -> & Hd & Hf & Em & Hr & Hp).
  destruct (parse_session_shape json_loads py_str _ _ _ _ _ Hp)
    as (Hst & Hidle & Hpend & _ & Hpn & Hpp & Hsec).
  apply andb_prop in Hr as [_ Hg]. rewrite Em in Hg.
  apply negb_true_iff in Hg.
  apply gt_false_iff in Hg. rewrite Hsec.
  split; [apply int_of_le; [lia|exact Hg]|].
  split.
  { intros Hlt. apply Hidle.
    destruct (Qlt_le_dec 300 (now - mtime)) as [Hq|Hq]; [exact Hq|].
    apply (int_of_le _ 300) in Hq; lia. }
  split; [intros Hi; apply Hidle in Hi; apply int_of_ge; [lia|exact Hi]|].
  split; [exact Hst|]. split; [exact Hpend|].
  exists entries, dn, ch. split; [reflexivity|]. split; [exact Hd|].
  rewrite Hpn, Hpp. now destruct (RealtimeScanner.project_of dn).
Qed.

End Contents.

(* ================================================================= *)
(** ** When a scan raises *)

Section Raising.

Variable A : Type.
Variable key : A -> json.
Variable py_lt_other : json -> json -> option bool.

Local Abbreviation py_lt := (RealtimeScanner.py_lt py_lt_other).

Lemma insert_desc_text x l :
  str_key key x = true -> Forall (fun y => str_key key y = true) l ->
  exists l', insert_desc key py_lt x l = Some l'.
Proof.
  intros Hx. induction 1 as [|y l Hy Hl IH]; cbn; [eauto|].
  rewrite (py_lt_str _ _ _ _ _ Hx Hy).
  destruct (String.ltb _ _); [|eauto].
  destruct IH as [l' ->]. eauto.
Qed.

(** Keys that are all [str] are sorted without an exception. *)
Lemma sort_desc_text l :
  Forall (fun y => str_key key y = true) l ->
  exists l', sort_desc key py_lt l = Some l'.
Proof.
  induction 1 as [|x l Hx Hl IH]; cbn; [eauto|].
  destruct IH as [s E]. rewrite E.
  apply insert_desc_text; [exact Hx|].
  eapply Permutation_Forall; [exact (sort_desc_perm _ _ _ _ _ E)|exact Hl].
Qed.

End Raising.

Section ScanRaises.

Variable json_loads : string -> option json.
Variable py_str : json -> string.
Variable py_lt_other : json -> json -> option bool.

Local Abbreviation scan_file := (RealtimeScanner.scan_file json_loads py_str).
Local Abbreviation scan_dir := (RealtimeScanner.scan_dir json_loads py_str).
Local Abbreviation scan :=
  (RealtimeScanner.scan_active_sessions json_loads py_str py_lt_other).
Local Abbreviation from_root := (Holds.from_root json_loads py_str).

(** The loop over the files of a project directory ends at the first file
    on which [stat()] raises, and goes through when there is none. *)
Lemma scan_files_stat now d pn pp children : forall r,
  match filter (fun f => Holds.statted f && Holds.lost f) children with
  | [] =>
      exists r',
        for_each (scan_file now d pn pp)
                 (filter (fun f => PyStr.glob_jsonl (f_name f)) children) r
        = Ok r'
  | f :: _ =>
      for_each (scan_file now d pn pp)
               (filter (fun f => PyStr.glob_jsonl (f_name f)) children) r
      = Raise (OSError d (f_name f))
  end.
Proof.
  induction children as [|f children IH]; intros r; cbn [filter];
    [cbn [for_each]; eauto|].
  unfold Holds.statted at 1, Holds.lost at 1.
  destruct (PyStr.glob_jsonl (f_name f)) eqn:Eg; cbn [andb]; [|apply IH].
  cbn [for_each]. unfold RealtimeScanner.scan_file at 1 3.
  destruct (PyStr.startswith (f_name f) "agent-"); cbn [negb andb];
    [apply IH|].
  destruct (f_mtime f) as [mtime|]; [|reflexivity].
  destruct (Py.gt _ _); [apply IH|].
  destruct (RealtimeScanner.parse_session _ _ _ _ _ _); apply IH.
Qed.

Lemma scan_dir_stat now d r :
  match Holds.stat_fails_in d with
  | [] => exists r', scan_dir now r d = Ok r'
  | (dir_name, name) :: _ => scan_dir now r d = Raise (OSError dir_name name)
  end.
Proof.
  destruct d as [dir_name children|];
    cbn [Holds.stat_fails_in RealtimeScanner.scan_dir]; [|eauto].
  destruct (RealtimeScanner.project_of dir_name) as [pn pp].
  pose proof (scan_files_stat now dir_name pn pp children r) as H.
  destruct (filter _ children) as [|f rest]; exact H.
Qed.

Lemma scan_dirs_stat now entries : forall r,
  match flat_map Holds.stat_fails_in entries with
  | [] => exists r', for_each (scan_dir now) entries r = Ok r'
  | (dir_name, name) :: _ =>
      for_each (scan_dir now) entries r = Raise (OSError dir_name name)
  end.
Proof.
  induction entries as [|d entries IH]; intros r; cbn [flat_map for_each];
    [eauto|].
  pose proof (scan_dir_stat now d r) as Hd.
  destruct (Holds.stat_fails_in d) as [|[dir_name name] rest]; cbn [app].
  - destruct Hd as [r' ->]. apply IH.
  - now rewrite Hd.
Qed.

(** How a scan ends: with the [OSError] of the first file on which [stat()]
    raises; when there is none, with a report, or with the [TypeError] of
    the sort on a snapshot that is not sorted as text. *)
Lemma scan_outcomes ts now root :
  match Holds.stat_fails root with
  | (dir_name, name) :: _ => scan ts now root = Raise (OSError dir_name name)
  | [] =>
      (exists r, scan ts now root = Ok r) \/
      (scan ts now root = Raise TypeError /\
       exists s, from_root now root s /\ activity s = None)
  end.
Proof.
  unfold RealtimeScanner.scan_active_sessions, Holds.stat_fails.
  destruct root as [entries|]; [|left; eauto].
  pose proof (scan_dirs_stat now entries (RealtimeScanner.empty_report ts))
    as Hst.
  destruct (flat_map Holds.stat_fails_in entries) as [|[dir_name name] rest];
    [|now rewrite Hst].
  destruct Hst as [acc Hacc]. rewrite Hacc.
  pose proof (scan_dirs_gathered json_loads py_str _ _ _ _ Hacc) as Hg.
  cbn [RealtimeScanner.empty_report active_sessions app] in Hg.
  destruct (sort_desc RealtimeScanner.sort_key _ (active_sessions acc))
    as [sorted|] eqn:E; [left; eauto|]. right.
  split; [reflexivity|].
  set (l := active_sessions acc) in *.
  destruct (Forall_Exists_dec (fun s => activity s <> None)
              (fun s => match activity s as o
                              return {o <> None} + {~ o <> None} with
                        | Some t => left (fun H => eq_ind (Some t)
                                       (fun o => match o with
                                                 | Some _ => True
                                                 | None => False
                                                 end) I None H)
                        | None => right (fun H => H eq_refl)
                        end) l) as [Hall|Hex].
  - exfalso.
    destruct (sort_desc_text _ RealtimeScanner.sort_key py_lt_other l) as [l' E'];
      [|congruence].
    eapply Forall_impl; [|exact Hall]. intros s Hs. cbv beta in Hs.
    destruct (activity s) as [t|] eqn:Et; [|congruence].
    unfold str_key. now rewrite (activity_key _ _ Et).
  - apply Exists_exists in Hex as (s & Hs & Hn). exists s. split.
    + apply gathered_from_root. now rewrite <- Hg.
    + destruct (activity s); [exfalso; apply Hn; discriminate|reflexivity].
Qed.


End ScanRaises.

(* ================================================================= *)
(** ** The lines that [_parse_session] reads *)

Lemma last_lines_app n (old recent : list string) :
  (n <= List.length recent)%nat ->
  RealtimeScanner.last_lines n (old ++ recent)
  = RealtimeScanner.last_lines n recent.
Proof.
  intros H. unfold RealtimeScanner.last_lines.
  rewrite length_app, skipn_app.
  rewrite skipn_all2 by lia. cbn [app]. f_equal. lia.
Qed.

Lemma last_app_nonempty (old recent : list string) :
  recent <> [] -> last (old ++ recent) "" = last recent "".
Proof.
  intros H. destruct (exists_last H) as (r & x & ->).
  now rewrite app_assoc, !last_last.
Qed.

Section Lines.

Variable json_loads : string -> option json.
Variable py_str : json -> string.

Local Abbreviation parse_session := (RealtimeScanner.parse_session json_loads py_str).

(** X7: [_parse_session] looks at the last ten lines of the file only:
    the lines before them change nothing in the snapshot. *)
Theorem only_last_ten_lines name mtime old recent pn pp age :
  (10 <= List.length recent)%nat ->
  parse_session {| f_name := name; f_mtime := mtime;
                   f_lines := Some (old ++ recent) |} pn pp age
  = parse_session {| f_name := name; f_mtime := mtime;
                     f_lines := Some recent |} pn pp age.
Proof.
  intros H. unfold RealtimeScanner.parse_session. cbn [f_lines f_name].
  assert (Hne : recent <> []) by (intros ->; cbn in H; lia).
  pose proof (last_app_nonempty old recent Hne) as Hlast.
  pose proof (last_lines_app 10 old recent H) as Hten.
  remember (old ++ recent) as all eqn:Eall.
  destruct all as [|a l]; [now destruct old, recent|].
  destruct recent as [|b m]; [contradiction|].
  now rewrite Hlast, Hten.
Qed.

(** X8: the state comes from the last line alone: two files of the same
    name that end with the same line give, whatever the lines before and
    the modification times, snapshots that differ at most in [last_tool],
    or no snapshot at all. *)
Theorem state_from_last_line name mtime1 mtime2 lines1 lines2 line pn pp age :
  option_map Holds.without_tool
    (parse_session {| f_name := name; f_mtime := mtime1;
                      f_lines := Some (lines1 ++ [line]) |} pn pp age)
  = option_map Holds.without_tool
      (parse_session {| f_name := name; f_mtime := mtime2;
                        f_lines := Some (lines2 ++ [line]) |} pn pp age).
Proof.
  unfold RealtimeScanner.parse_session. cbn [f_lines f_name].
  pose proof (last_last lines1 line "") as H1.
  pose proof (last_last lines2 line "") as H2.
  remember (lines1 ++ [line]) as all1 eqn:E1.
  remember (lines2 ++ [line]) as all2 eqn:E2.
  destruct all1 as [|a1 l1]; [now destruct lines1|].
  destruct all2 as [|a2 l2]; [now destruct lines2|].
  rewrite H1, H2.
  repeat match goal with
         | |- option_map _ (match ?e with Some _ => _ | None => _ end) = _ =>
             destruct e; [|reflexivity]
         end.
  reflexivity.
Qed.

End Lines.

(* ================================================================= *)
(** ** Entries that are not of the assistant, and tools *)

Section Others.

Variable json_loads : string -> option json.
Variable py_str : json -> string.

Local Abbreviation parse_session := (RealtimeScanner.parse_session json_loads py_str).
Local Abbreviation for_items := (RealtimeScanner.for_items py_str).
Local Abbreviation on_tool_use := (RealtimeScanner.on_tool_use py_str).
Local Abbreviation on_assistant := (RealtimeScanner.on_assistant py_str).
Local Abbreviation decide age entry :=
  (RealtimeScanner.decide py_str age (JObj entry)
                          (Py.dget entry "type" (JStr "unknown"))).

(** X9: a last entry, not idle, that is not of the assistant gives a
    snapshot in state "processing" when its type is "user" and "unknown"
    otherwise, without pending approval and with an empty preview; a
    "processing" snapshot adds to [processing_count] alone, an "unknown"
    one to no counter. *)
Theorem non_assistant_state f pn pp age entry :
  Entry.last_entry json_loads f (JObj entry) ->
  Entry.message_is_object entry = true ->
  Py.eq_str (Py.dget entry "type" (JStr "unknown")) "assistant" = false ->
  (age <= 300)%Q ->
  let user := Py.eq_str (Py.dget entry "type" (JStr "unknown")) "user" in
  exists s,
    parse_session f pn pp age = Some s /\
    state s = (if user then "processing" else "unknown") /\
    pending_approval s = None /\
    last_message_preview s = JStr "" /\
    forall r,
      processing_count (RealtimeScanner.accumulate r pn s)
      = processing_count r + (if user then 1 else 0) /\
      waiting_count (RealtimeScanner.accumulate r pn s) = waiting_count r /\
      projects_with_waiting (RealtimeScanner.accumulate r pn s)
      = projects_with_waiting r.
Proof.
  intros Hf Hm Hty Hage user.
  assert (Hd : decide age entry
               = Some (if user then RealtimeScanner.set_state "processing"
                                      RealtimeScanner.init_vars
                       else RealtimeScanner.init_vars)).
  { unfold RealtimeScanner.decide.
    replace (Py.gt age RealtimeScanner.IDLE_THRESHOLD_SECONDS) with false
      by (symmetry; now apply gt_false_iff).
    fold user. rewrite Hty. now destruct user. }
  destruct (parse_session_some json_loads py_str f pn pp age entry _ Hf Hd Hm)
    as (s & E & Es & _ & _ & Epre & Epend).
  exists s. split; [exact E|].
  assert (Hst : state s = if user then "processing" else "unknown")
    by (rewrite Es; now destruct user).
  split; [exact Hst|]. split; [rewrite Epend; now destruct user|].
  split; [rewrite Epre; now destruct user|].
  intros r. unfold RealtimeScanner.accumulate. rewrite Hst.
  destruct user; cbn; repeat split; lia.
Qed.

(** The decision on an assistant entry is the one of its first [tool_use]
    item. *)
Lemma decide_first_tool age entry pre kv post :
  Entry.assistant entry (pre ++ JObj kv :: post) ->
  (age <= 300)%Q ->
  forallb (fun i => negb (Entry.is_tool_use i) && Entry.literal i) pre = true ->
  Entry.is_tool_use (JObj kv) = true ->
  exists v0,
    decide age entry
    = (v <- on_tool_use (Py.dget entry "timestamp" JNull) kv v0 ;;
       Some (if String.eqb (RealtimeScanner.v_state v) "unknown"
             then RealtimeScanner.set_state
                    (if RealtimeScanner.v_has_question v
                     then "waiting_for_question" else "task_complete") v
             else v)).
Proof.
  intros Ha Hage Hpre Ht.
  rewrite (decide_assistant py_str _ _ _ Ha Hage).
  destruct Ha as [_ Hc].
  destruct (on_assistant_content py_str _ _ Hc) as [-> _].
  destruct (for_items_first_tool py_str (Py.dget entry "timestamp" JNull)
              pre kv post RealtimeScanner.init_vars Hpre Ht) as (v' & ->).
  now exists v'.
Qed.

(** X10: when the first [tool_use] item of an assistant entry, not idle, is
    not named "AskUserQuestion", the snapshot waits for an approval: the
    pending approval carries the name of the tool and as description the
    [description] of the input, or else the first 100 characters of its
    [command]; [last_tool] is the tool with the time stamp of the entry;
    and the snapshot adds to [waiting_count]. *)
Theorem first_tool_use_other f pn pp age entry pre item post input fallback :
  Entry.last_entry json_loads f (JObj entry) ->
  Entry.assistant entry (pre ++ item :: post) ->
  (age <= 300)%Q ->
  forallb (fun i => negb (Entry.is_tool_use i) && Entry.literal i) pre = true ->
  Entry.is_tool_use item = true ->
  Entry.named "AskUserQuestion" item = false ->
  Holds.input_fields item = Some input ->
  Py.slice_to 100 (Py.dget input "command" (JStr "")) = Some fallback ->
  exists s,
    parse_session f pn pp age = Some s /\
    state s = "waiting_for_approval" /\
    pending_approval s
    = Some {| pa_type := "tool_use";
              pa_tool_name := Entry.tool_name item;
              pa_description := Py.dget input "description" fallback |} /\
    last_tool s
    = Some {| lt_name := Entry.tool_name item;
              lt_timestamp := Py.dget entry "timestamp" JNull |} /\
    forall r,
      waiting_count (RealtimeScanner.accumulate r pn s) = waiting_count r + 1 /\
      processing_count (RealtimeScanner.accumulate r pn s) = processing_count r /\
      In pn (projects_with_waiting (RealtimeScanner.accumulate r pn s)).
Proof.
  intros Hf Ha Hage Hpre Ht Hn Hin Hsl.
  destruct item as [| | | | | |kv]; try discriminate.
  unfold Entry.named in Hn. rewrite Ht in Hn. cbn in Hn.
  cbn [Holds.input_fields] in Hin.
  destruct (Py.dget kv "input" (JObj [])) as [| | | | | |i] eqn:Ei;
    try discriminate.
  injection Hin as ->.
  destruct (decide_first_tool age entry pre kv post Ha Hage Hpre Ht) as (v0 & Hd).
  unfold RealtimeScanner.on_tool_use in Hd. rewrite Hn, Ei in Hd.
  cbn [Py.get] in Hd. rewrite Hsl in Hd. cbn in Hd.
  destruct Ha as [_ Hc].
  destruct (on_assistant_content py_str _ _ Hc) as [_ Hm].
  pose proof Hf as (lines & line & Hl & He).
  rewrite (parse_session_last json_loads py_str f pn pp age _ _ _ Hl He), Hd.
  unfold Entry.message_is_object in Hm.
  destruct (Py.dget entry "message" (JObj [])); try discriminate.
  cbn. eexists. split; [reflexivity|]. cbn. repeat split.
  unfold RealtimeScanner.accumulate. cbn.
  destruct (existsb (String.eqb pn) (projects_with_waiting r)) eqn:Ex.
  - now apply existsb_eqb_in.
  - apply in_or_app. right. now left.
Qed.

(** X11: a first [tool_use] item whose [input] is present and not an
    object, or, when it is not named "AskUserQuestion", whose [command] is
    present and neither a text nor a list, leaves the file without a
    snapshot, even when the input carries a [description]. *)
Theorem first_tool_use_malformed f pn pp age entry pre item post :
  Entry.last_entry json_loads f (JObj entry) ->
  Entry.assistant entry (pre ++ item :: post) ->
  (age <= 300)%Q ->
  forallb (fun i => negb (Entry.is_tool_use i) && Entry.literal i) pre = true ->
  Entry.is_tool_use item = true ->
  (Holds.input_fields item = None \/
   (Entry.named "AskUserQuestion" item = false /\
    exists input, Holds.input_fields item = Some input /\
                  Py.slice_to 100 (Py.dget input "command" (JStr "")) = None)) ->
  parse_session f pn pp age = None.
Proof.
  intros Hf Ha Hage Hpre Ht Hbad.
  destruct item as [| | | | | |kv]; try discriminate.
  destruct (decide_first_tool age entry pre kv post Ha Hage Hpre Ht) as (v0 & Hd).
  pose proof Hf as (lines & line & Hl & He).
  rewrite (parse_session_last json_loads py_str f pn pp age _ _ _ Hl He), Hd.
  cbn [Holds.input_fields] in Hbad. unfold RealtimeScanner.on_tool_use.
  destruct Hbad as [Hin|(Hn & input & Hin & Hsl)].
  - destruct (Py.dget kv "input" (JObj [])) as [| | | | | |i]; try discriminate;
      destruct (Py.eq_str _ "AskUserQuestion"); reflexivity.
  - unfold Entry.named in Hn. rewrite Ht in Hn. cbn in Hn. rewrite Hn.
    destruct (Py.dget kv "input" (JObj [])) as [| | | | | |i]; try discriminate.
    injection Hin as ->. cbn [Py.get]. now rewrite Hsl.
Qed.

End Others.

(* ================================================================= *)
(** ** The tool found in older lines *)

Lemma last_lines_two n (old : list string) (a b : string) :
  (2 <= n)%nat ->
  rev (RealtimeScanner.last_lines n (old ++ [a; b]))
  = b :: a :: rev (RealtimeScanner.last_lines (n - 2) old).
Proof.
  intros H. unfold RealtimeScanner.last_lines.
  rewrite length_app, skipn_app. cbn [List.length].
  replace (List.length old + 2 - n - List.length old)%nat with 0%nat by lia.
  replace (List.length old + 2 - n)%nat with (List.length old - (n - 2))%nat
    by lia.
  cbn [skipn]. rewrite rev_app_distr. reflexivity.
Qed.

Lemma first_tool_use_found ts pre item post :
  forallb (fun i => negb (Entry.is_tool_use i)) pre = true ->
  Entry.is_tool_use item = true ->
  RealtimeScanner.first_tool_use ts (pre ++ item :: post)
  = Some {| lt_name := Entry.tool_name item; lt_timestamp := ts |}.
Proof.
  intros Hpre Ht. induction pre as [|i pre IH]; cbn [app].
  - destruct item as [| | | | | |kv]; try discriminate.
    cbn in *. now rewrite Ht.
  - cbn [forallb] in Hpre. apply andb_prop in Hpre as [Hi Hpre].
    apply negb_true_iff in Hi. specialize (IH Hpre).
    destruct i as [| | | | | |kv]; cbn [RealtimeScanner.first_tool_use];
      try exact IH.
    cbn in Hi. now rewrite Hi.
Qed.

Section Recovery.

Variable json_loads : string -> option json.
Variable py_str : json -> string.

Local Abbreviation parse_session := (RealtimeScanner.parse_session json_loads py_str).
Local Abbreviation tool_of_line := (RealtimeScanner.tool_of_line json_loads).

Lemma tool_of_line_other line entry :
  json_loads (PyStr.strip line) = Some (JObj entry) ->
  Py.eq_str (Py.dget entry "type" (JStr "unknown")) "assistant" = false ->
  tool_of_line line = None.
Proof.
  intros He Hty. unfold RealtimeScanner.tool_of_line. rewrite He. cbn [Py.get].
  unfold Py.dget in *. destruct (Py.dict_get entry "type"); [now rewrite Hty|].
  reflexivity.
Qed.

Lemma tool_of_line_assistant line entry pre item post :
  json_loads (PyStr.strip line) = Some (JObj entry) ->
  Entry.assistant entry (pre ++ item :: post) ->
  forallb (fun i => negb (Entry.is_tool_use i)) pre = true ->
  Entry.is_tool_use item = true ->
  tool_of_line line
  = Some {| lt_name := Entry.tool_name item;
            lt_timestamp := Py.dget entry "timestamp" JNull |}.
Proof.
  intros He [Hty Hc] Hpre Ht. unfold RealtimeScanner.tool_of_line.
  rewrite He. cbn [Py.get]. unfold Py.dget at 1. rewrite Hty. cbn [Py.eq_str].
  rewrite String.eqb_refl.
  unfold Entry.content_is in Hc. unfold Py.dget at 1.
  destruct (Py.dict_get entry "message") as [m|].
  - destruct m as [| | | | | |message]; try contradiction.
    cbn [Py.get]. unfold Py.dget at 1.
    destruct (Py.dict_get message "content") as [c|].
    + destruct c as [| | | | |l|]; try contradiction. rewrite <- Hc.
      cbn [Py.iter]. now apply first_tool_use_found.
    + now destruct pre.
  - now destruct pre.
Qed.

(** X12: when the last entry is not of the assistant and the line before
    it is an assistant entry with a [tool_use] item, the snapshot names the
    first such item as [last_tool], with the time stamp of that older
    entry, while its state stays the one of the last entry and no approval
    is pending. *)
Theorem tool_recovered f pn pp age old prev line entry before pre item post :
  f_lines f = Some (old ++ [prev; line]) ->
  json_loads (PyStr.strip line) = Some (JObj entry) ->
  Entry.message_is_object entry = true ->
  Py.eq_str (Py.dget entry "type" (JStr "unknown")) "assistant" = false ->
  json_loads (PyStr.strip prev) = Some (JObj before) ->
  Entry.assistant before (pre ++ item :: post) ->
  forallb (fun i => negb (Entry.is_tool_use i)) pre = true ->
  Entry.is_tool_use item = true ->
  exists s,
    parse_session f pn pp age = Some s /\
    last_tool s
    = Some {| lt_name := Entry.tool_name item;
              lt_timestamp := Py.dget before "timestamp" JNull |} /\
    pending_approval s = None /\
    In (state s) ["idle"; "processing"; "unknown"].
Proof.
  intros Hl He Hm Hty Hb Ha Hpre Ht.
  assert (Hl' : f_lines f = Some ((old ++ [prev]) ++ [line]))
    by (now rewrite <- app_assoc).
  rewrite (parse_session_last json_loads py_str f pn pp age _ _ _ Hl' He).
  rewrite <- app_assoc. cbn [app].
  rewrite (last_lines_two 10 old prev line) by lia.
  cbn [RealtimeScanner.recent_tool].
  rewrite (tool_of_line_other line entry He Hty).
  rewrite (tool_of_line_assistant prev before pre item post Hb Ha Hpre Ht).
  unfold Entry.message_is_object in Hm.
  destruct (Py.dget entry "message" (JObj [])); try discriminate.
  unfold RealtimeScanner.decide. rewrite Hty.
  destruct (Py.gt age RealtimeScanner.IDLE_THRESHOLD_SECONDS);
    [|destruct (Py.eq_str (Py.dget entry "type" (JStr "unknown")) "user")];
    cbn; eexists; (split; [reflexivity|]); cbn; auto 6.
Qed.

End Recovery.

(* ================================================================= *)
(** ** The preview of the last text *)

Lemma substring_length_le (n : nat) : forall s,
  (String.length (substring 0 n s) <= n)%nat.
Proof.
  induction n as [|n IH]; intros [|c s]; cbn; try lia.
  specialize (IH s). lia.
Qed.

Lemma string_length_app (s t : string) :
  String.length (s ++ t)%string = (String.length s + String.length t)%nat.
Proof. induction s as [|c s IH]; cbn; [reflexivity|now rewrite IH]. Qed.

Lemma preview_of_length (text : string) :
  (String.length (Holds.preview_of text) <= 153)%nat.
Proof.
  unfold Holds.preview_of, PyStr.slice_to.
  destruct (150 <? String.length text)%nat eqn:E.
  - rewrite string_length_app. pose proof (substring_length_le 150 text).
    cbn [String.length]. lia.
  - apply Nat.ltb_ge in E. lia.
Qed.

Section Preview.

Variable json_loads : string -> option json.
Variable py_str : json -> string.

Local Abbreviation parse_session := (RealtimeScanner.parse_session json_loads py_str).
Local Abbreviation for_items := (RealtimeScanner.for_items py_str).
Local Abbreviation decide age entry :=
  (RealtimeScanner.decide py_str age (JObj entry)
                          (Py.dget entry "type" (JStr "unknown"))).

Lemma on_text_preview item v t :
  Py.dget item "text" (JStr "") = JStr t ->
  exists v',
    RealtimeScanner.on_text item v = Some v' /\
    RealtimeScanner.v_last_message_preview v' = JStr (Holds.preview_of t) /\
    RealtimeScanner.v_state v' = RealtimeScanner.v_state v /\
    RealtimeScanner.v_pending_approval v' = RealtimeScanner.v_pending_approval v.
Proof.
  intros H. unfold RealtimeScanner.on_text, Holds.preview_of. rewrite H.
  cbn [Py.len Py.slice_to Py.add_str Py.strip].
  destruct (150 <? String.length t)%nat; eexists; (split; [reflexivity|]);
    cbn; auto.
Qed.

Lemma for_items_app_no_tool ts pre rest : forall v,
  forallb (fun i => negb (Entry.is_tool_use i)) pre = true ->
  for_items ts (pre ++ rest) v
  = (v1 <- for_items ts pre v ;; for_items ts rest v1).
Proof.
  induction pre as [|i pre IH]; intros v H; [reflexivity|].
  cbn [forallb] in H. apply andb_prop in H as [Hi H].
  apply negb_true_iff in Hi.
  destruct i as [| | | | | |kv]; cbn [app RealtimeScanner.for_items];
    try exact (IH v H).
  cbn in Hi. rewrite Hi.
  destruct (Py.eq_str (Py.dget kv "type" JNull) "text"); [|exact (IH v H)].
  destruct (RealtimeScanner.on_text kv v); [apply IH, H|reflexivity].
Qed.

(** X13: when the content list of an assistant entry, not idle, holds no
    [tool_use] item, the preview of the snapshot is the one of its last
    text item: the text itself up to 150 characters, else its first 150
    characters and an ellipsis, so never more than 153 characters. *)
Theorem preview_of_last_text f pn pp age entry pre item post t :
  Entry.last_entry json_loads f (JObj entry) ->
  Entry.assistant entry (pre ++ item :: post) ->
  (age <= 300)%Q ->
  forallb (fun i => negb (Entry.is_tool_use i) && Entry.literal i)
          (pre ++ item :: post) = true ->
  Entry.is_text item = true ->
  Entry.text_of item = Some t ->
  existsb Entry.is_text post = false ->
  exists s,
    parse_session f pn pp age = Some s /\
    last_message_preview s = JStr (Holds.preview_of t) /\
    (String.length (Holds.preview_of t) <= 153)%nat.
Proof.
  intros Hf Ha Hage Hall Htext Ht Hpost.
  assert (Hd : exists v,
             decide age entry = Some v /\
             RealtimeScanner.v_last_message_preview v
             = JStr (Holds.preview_of t)).
  { rewrite (decide_assistant py_str _ _ _ Ha Hage).
    destruct Ha as [_ Hc].
    destruct (on_assistant_content py_str _ _ Hc) as [-> _].
    rewrite forallb_app in Hall. apply andb_prop in Hall as [Hpre Hrest].
    cbn [forallb] in Hrest. apply andb_prop in Hrest as [Hi Hrest].
    apply andb_prop in Hi as [Hi _]. apply negb_true_iff in Hi.
    rewrite for_items_app_no_tool.
    2:{ rewrite forallb_forall in *. intros x Hx. specialize (Hpre x Hx).
        now apply andb_prop in Hpre as [-> _]. }
    destruct (for_items_no_tool py_str (Py.dget entry "timestamp" JNull) pre
                RealtimeScanner.init_vars Hpre) as (p0 & -> & _).
    destruct item as [| | | | | |kv]; try discriminate.
    cbn [RealtimeScanner.for_items]. cbn in Hi, Htext, Ht. rewrite Hi, Htext.
    destruct (Py.dget kv "text" (JStr "")) as [| | | |t'| |] eqn:Et;
      try discriminate.
    injection Ht as ->.
    match goal with
    | |- context [RealtimeScanner.on_text kv ?w] =>
        destruct (on_text_preview kv w t Et) as (v1 & -> & Hp1 & _)
    end.
    destruct (for_items_no_tool py_str (Py.dget entry "timestamp" JNull) post
                v1 Hrest) as (p2 & -> & Hp2).
    rewrite (Hp2 Hpost), Hp1. eexists. split; [reflexivity|].
    now destruct (String.eqb _ _). }
  destruct Hd as (v & Hd & Hp).
  destruct Ha as [_ Hc]. destruct (on_assistant_content py_str _ _ Hc) as [_ Hm].
  destruct (parse_session_some json_loads py_str f pn pp age entry v Hf Hd Hm)
    as (s & E & _ & _ & _ & Epre & _).
  exists s. split; [exact E|]. split; [now rewrite Epre|].
  apply preview_of_length.
Qed.

End Preview.

(* ================================================================= *)
(** ** The path that a directory name stands for *)

Lemma join_split_slashed (s : string) :
  PyStr.join "/" (PyStr.split "-"%char s) = Holds.slashed s.
Proof.
  unfold PyStr.join. induction s as [|c s IH]; [reflexivity|].
  cbn [PyStr.split Holds.slashed].
  pose proof (split_nonempty "-"%char s) as Hne.
  destruct (PyStr.split "-"%char s) as [|h t]; [congruence|].
  destruct (Ascii.eqb c "-"%char).
  - change (String.concat "/" ("" :: h :: t)%string)
      with ("" ++ "/" ++ String.concat "/" (h :: t))%string.
    now rewrite IH.
  - rewrite <- IH. now destruct t.
Qed.

Lemma last_in_nonempty {A : Type} (l : list A) (d : A) :
  l <> [] -> In (last l d) l.
Proof.
  intros H. destruct (exists_last H) as (l' & x & ->).
  rewrite last_last. apply in_or_app. right. now left.
Qed.

Lemma slashed_no_dash (s : string) :
  Holds.occurs "-"%char (Holds.slashed s) = false.
Proof.
  induction s as [|c s IH]; [reflexivity|]. cbn.
  rewrite IH, orb_false_r. destruct (Ascii.eqb c "-"%char) eqn:E; [reflexivity|].
  exact E.
Qed.

Lemma split_no_dash (s : string) :
  Forall (fun p => Holds.occurs "-"%char p = false) (PyStr.split "-"%char s).
Proof.
  induction s as [|c s IH]; [now repeat constructor|].
  cbn [PyStr.split]. destruct (Ascii.eqb c "-"%char) eqn:E.
  - now constructor.
  - destruct (PyStr.split "-"%char s) as [|h t].
    + constructor; [cbn; now rewrite E|constructor].
    + inversion IH as [|? ? Hh Ht]; subst. constructor; [|assumption].
      cbn. now rewrite E.
Qed.

Lemma project_of_dash_path (dir_name : string) :
  PyStr.startswith dir_name "-" = true ->
  snd (RealtimeScanner.project_of dir_name) = Holds.slashed dir_name.
Proof.
  intros H. unfold RealtimeScanner.project_of. rewrite H.
  destruct (startswith_dash _ H) as [s' ->].
  change (PyStr.split "-"%char (String "-"%char s'))
    with ("" :: PyStr.split "-"%char s')%string.
  pose proof (split_nonempty "-"%char s') as Hne.
  destruct (PyStr.split "-"%char s') as [|h t] eqn:E; [congruence|].
  cbn [List.length Nat.ltb Nat.leb tl snd]. rewrite <- E.
  now rewrite join_split_slashed.
Qed.

Lemma project_of_dash_name (dir_name : string) :
  PyStr.startswith dir_name "-" = true ->
  fst (RealtimeScanner.project_of dir_name)
  = last (PyStr.split "-"%char dir_name) "".
Proof.
  intros H. unfold RealtimeScanner.project_of. rewrite H. cbn [fst].
  pose proof (split_nonempty "-"%char dir_name) as Hne.
  now destruct (PyStr.split "-"%char dir_name).
Qed.

(** X14: for a directory name that starts with "-", [project_path] is the
    name with every "-" turned into "/", so that neither [project_path] nor
    [project_name] holds a "-": a "-" of the project's own name is read as
    a separator. *)
Theorem project_path_slashed (dir_name : string) :
  PyStr.startswith dir_name "-" = true ->
  snd (RealtimeScanner.project_of dir_name) = Holds.slashed dir_name /\
  Holds.occurs "-"%char (snd (RealtimeScanner.project_of dir_name)) = false /\
  Holds.occurs "-"%char (fst (RealtimeScanner.project_of dir_name)) = false.
Proof.
  intros H.
  pose proof (project_of_dash_path dir_name H) as Hpath.
  split; [exact Hpath|]. split; [rewrite Hpath; apply slashed_no_dash|].
  unfold RealtimeScanner.project_of. rewrite H. cbn [fst].
  pose proof (split_nonempty "-"%char dir_name) as Hne.
  pose proof (split_no_dash dir_name) as Hall.
  destruct (PyStr.split "-"%char dir_name) as [|h t] eqn:E; [congruence|].
  rewrite Forall_forall in Hall. apply Hall.
  rewrite <- E. apply last_in_nonempty. now rewrite E.
Qed.

(* ================================================================= *)
(** ** Entries that a scan passes over, and the order that it keeps *)

Lemma insert_desc_keyed {A : Type} (key : A -> json) py_lt_other t x l :
  forall l',
  insert_desc key (RealtimeScanner.py_lt py_lt_other) x l = Some l' ->
  filter (fun y => Py.eq_str (key y) t) l'
  = filter (fun y => Py.eq_str (key y) t) (x :: l).
Proof.
  induction l as [|y l IH]; intros l' H; cbn [insert_desc] in H.
  - now injection H as <-.
  - destruct (RealtimeScanner.py_lt py_lt_other (key x) (key y))
      as [[|]|] eqn:E; try discriminate.
    + destruct (insert_desc key _ x l) as [l''|]; [|discriminate].
      injection H as <-. cbn [filter]. rewrite (IH l'' eq_refl). cbn [filter].
      destruct (Py.eq_str (key x) t) eqn:Ex; [|reflexivity].
      destruct (Py.eq_str (key y) t) eqn:Ey; [|reflexivity].
      exfalso. unfold Py.eq_str in Ex, Ey.
      destruct (key x) as [| | | |u| |]; try discriminate.
      destruct (key y) as [| | | |w| |]; try discriminate.
      apply String.eqb_eq in Ex, Ey. subst u w. cbn in E.
      injection E as E. unfold String.ltb in E.
      assert (Hc : String.compare t t = Eq); [|now rewrite Hc in E].
      pose proof (String.compare_antisym t t) as Hs.
      destruct (String.compare t t); [reflexivity| |]; discriminate.
    + now injection H as <-.
Qed.

Lemma sort_desc_keyed {A : Type} (key : A -> json) py_lt_other t l :
  forall l',
  sort_desc key (RealtimeScanner.py_lt py_lt_other) l = Some l' ->
  filter (fun y => Py.eq_str (key y) t) l'
  = filter (fun y => Py.eq_str (key y) t) l.
Proof.
  induction l as [|x l IH]; intros l' H; cbn [sort_desc] in H.
  - now injection H as <-.
  - destruct (sort_desc key _ l) as [s|]; [|discriminate].
    rewrite (insert_desc_keyed key py_lt_other t x s l' H). cbn [filter].
    now rewrite (IH s eq_refl).
Qed.

Section Passing.

Variable json_loads : string -> option json.
Variable py_str : json -> string.
Variable py_lt_other : json -> json -> option bool.

Local Abbreviation parse_session := (RealtimeScanner.parse_session json_loads py_str).
Local Abbreviation scan_file := (RealtimeScanner.scan_file json_loads py_str).
Local Abbreviation scan_dir := (RealtimeScanner.scan_dir json_loads py_str).
Local Abbreviation scan :=
  (RealtimeScanner.scan_active_sessions json_loads py_str py_lt_other).
Local Abbreviation gathered := (Holds.gathered json_loads py_str).

Lemma scan_dir_unread now r dir_name pre f post :
  PyStr.glob_jsonl (f_name f) = false \/
  PyStr.startswith (f_name f) "agent-" = true ->
  scan_dir now r (Dir dir_name (pre ++ f :: post))
  = scan_dir now r (Dir dir_name (pre ++ post)).
Proof.
  intros H. apply (scan_dir_skip json_loads py_str).
  intros Hg pn pp r'. destruct H as [H|H]; [congruence|].
  unfold RealtimeScanner.scan_file. now rewrite H.
Qed.

(** X15: a scan passes over what is not a session log: an entry of the
    root that is not a directory, a directory without files, a file whose
    name does not end with ".jsonl", and a file whose name starts with
    "agent-"; the outcome is the one of the root without them. *)
Theorem unread_entries_ignored ts now before after :
  (forall name,
      scan ts now (Some (before ++ NotDir name :: after))
      = scan ts now (Some (before ++ after))) /\
  (forall dir_name,
      scan ts now (Some (before ++ Dir dir_name [] :: after))
      = scan ts now (Some (before ++ after))) /\
  (forall dir_name pre f post,
      PyStr.glob_jsonl (f_name f) = false \/
      PyStr.startswith (f_name f) "agent-" = true ->
      scan ts now (Some (before ++ Dir dir_name (pre ++ f :: post) :: after))
      = scan ts now (Some (before ++ Dir dir_name (pre ++ post) :: after))).
Proof.
  split; [|split].
  - intros name. unfold RealtimeScanner.scan_active_sessions.
    now rewrite (for_each_skip (scan_dir now) before (NotDir name) after).
  - intros dir_name. unfold RealtimeScanner.scan_active_sessions.
    rewrite (for_each_skip (scan_dir now) before (Dir dir_name []) after);
      [reflexivity|].
    intros r. cbn [RealtimeScanner.scan_dir].
    now destruct (RealtimeScanner.project_of dir_name).
  - intros dir_name pre f post H.
    apply (scan_replace json_loads py_str py_lt_other).
    intros r. now apply scan_dir_unread.
Qed.

(** X16: the report holds the snapshots in a rearrangement of the order in
    which the scan met them, and the sort is stable: the snapshots sorted
    under the same text, those without [last_activity] among them, keep the
    order of the scan. *)
Theorem report_order_kept ts now root r :
  scan ts now root = Ok r ->
  Permutation (gathered now root) (active_sessions r) /\
  forall t,
    filter (Holds.keyed t) (active_sessions r)
    = filter (Holds.keyed t) (gathered now root).
Proof.
  intros H.
  destruct (scan_returns json_loads py_str py_lt_other _ _ _ _ H)
    as (acc & _ & _ & E & _).
  split; [exact (sort_desc_perm _ _ _ _ _ E)|].
  intros t. exact (sort_desc_keyed _ _ t _ _ E).
Qed.

End Passing.

(* ================================================================= *)
(** ** The session identifier *)

Lemma rfind_dot_jsonl (base : string) :
  PyStr.rfind_dot (base ++ ".jsonl") = Some (String.length base).
Proof.
  induction base as [|c base IH]; [reflexivity|].
  cbn [String.append PyStr.rfind_dot String.length]. now rewrite IH.
Qed.

Lemma substring_prefix (base rest : string) :
  substring 0 (String.length base) (base ++ rest) = base.
Proof.
  induction base as [|c base IH]; cbn.
  - now destruct rest.
  - now rewrite IH.
Qed.

Lemma stem_jsonl (base : string) :
  base <> "" -> PyStr.stem (base ++ ".jsonl") = base.
Proof.
  intros H. unfold PyStr.stem. rewrite rfind_dot_jsonl, string_length_app.
  cbn [String.length].
  replace ((0 <? String.length base)%nat) with true.
  2:{ symmetry. apply Nat.ltb_lt. destruct base; [congruence|cbn; lia]. }
  replace ((String.length base <? String.length base + 6 - 1)%nat) with true
    by (symmetry; apply Nat.ltb_lt; lia).
  apply substring_prefix.
Qed.

Section Identifier.

Variable json_loads : string -> option json.
Variable py_str : json -> string.

Local Abbreviation parse_session := (RealtimeScanner.parse_session json_loads py_str).

(** X17: the identifier of a snapshot is the [sessionId] of the last entry
    when it has one, whatever its value, and otherwise the stem of the name
    of the log file: for a log named [base ++ ".jsonl"], [base] when it has
    a character other than a dot, and the whole name ".jsonl" when [base]
    is empty. *)
Theorem session_id_of_snapshot f pn pp age entry base s :
  Entry.last_entry json_loads f (JObj entry) ->
  f_name f = (base ++ ".jsonl")%string ->
  base = "" \/ Holds.only "."%char base = false ->
  parse_session f pn pp age = Some s ->
  session_id s = match Py.dict_get entry "sessionId" with
                 | Some v => v
                 | None => JStr (if String.eqb base "" then ".jsonl" else base)
                 end.
Proof.
  intros (lines & line & Hl & He) Hn Hb H.
  rewrite (parse_session_last json_loads py_str f pn pp age _ _ _ Hl He) in H.
  destruct (RealtimeScanner.decide _ _ _ _); [|discriminate].
  destruct (Py.get _ "model" _); [|discriminate].
  injection H as <-. cbn. unfold Py.dget. rewrite Hn.
  destruct (String.eqb_spec base "") as [->|Hne]; [reflexivity|].
  now rewrite (stem_jsonl base Hne).
Qed.

End Identifier.

(* ================================================================= *)
(** ** The sanitized search term *)

Lemma keep_app class (a b : string) :
  PyText.keep class (a ++ b)%string
  = (PyText.keep class a ++ PyText.keep class b)%string.
Proof.
  induction a as [|c a IH]; [reflexivity|]. cbn.
  destruct (class c); cbn; now rewrite IH.
Qed.

(** A replacement that brings in no character of the class, for a
    character outside it, is undone by keeping the class. *)
Lemma keep_replace class old new (s : string) :
  class old = false -> PyText.keep class new = "" ->
  PyText.keep class (PyText.replace old new s) = PyText.keep class s.
Proof.
  intros Hold Hnew. induction s as [|c s IH]; [reflexivity|]. cbn.
  destruct (Ascii.eqb_spec c old) as [->|Hne].
  - now rewrite keep_app, Hnew, Hold, IH.
  - cbn. now rewrite IH.
Qed.

Lemma keep_all_in class (s : string) :
  PyText.all_in class (PyText.keep class s) = true.
Proof.
  induction s as [|c s IH]; [reflexivity|]. cbn.
  destruct (class c) eqn:E; [cbn; now rewrite E|exact IH].
Qed.

Lemma keep_fixed class (s : string) :
  PyText.all_in class s = true -> PyText.keep class s = s.
Proof.
  induction s as [|c s IH]; [reflexivity|]. cbn.
  intros H. apply andb_prop in H as [-> H]. now rewrite IH.
Qed.

Lemma all_in_occurs class c (s : string) :
  class c = false -> PyText.all_in class s = true -> Holds.occurs c s = false.
Proof.
  intros Hc. induction s as [|c' s IH]; [reflexivity|]. cbn.
  intros H. apply andb_prop in H as [Hc' H]. rewrite (IH H), orb_false_r.
  destruct (Ascii.eqb_spec c' c) as [->|]; [congruence|reflexivity].
Qed.

Lemma sanitize_text (s : string) :
  TerminalFocuser.sanitize_applescript_string (JStr s)
  = Some (PyText.keep TerminalFocuser.allowed s).
Proof.
  unfold TerminalFocuser.sanitize_applescript_string. cbn [Py.truthy].
  destruct (String.eqb_spec s "") as [->|_]; [reflexivity|]. cbn [negb].
  rewrite !keep_replace; reflexivity.
Qed.

(** The class of the sanitizer, code point by code point. *)
Lemma allowed_code_points :
  filter (fun n => TerminalFocuser.allowed (ascii_of_nat n)) (seq 0 256)
  = (seq 9 5 ++ seq 28 5 ++ [45; 46] ++ seq 48 10 ++ seq 65 26 ++ [95]
     ++ seq 97 26 ++ [133; 160; 170; 178; 179; 181; 185; 186]
     ++ seq 188 3 ++ seq 192 23 ++ seq 216 31 ++ seq 248 8)%nat.
Proof. vm_compute. reflexivity. Qed.

(** X18: the sanitized form of a text is the text without the characters
    that are neither word characters, nor spaces, nor "-", ".", "_": the
    quotation marks and the backslashes are taken away, with the
    backslashes that the escaping has put before them, so that the result
    holds neither. *)
Theorem sanitized_is_kept (s : string) :
  TerminalFocuser.sanitize_applescript_string (JStr s)
  = Some (PyText.keep TerminalFocuser.allowed s) /\
  PyText.all_in TerminalFocuser.allowed
    (PyText.keep TerminalFocuser.allowed s) = true /\
  Holds.occurs TerminalFocuser.quote
    (PyText.keep TerminalFocuser.allowed s) = false /\
  Holds.occurs TerminalFocuser.backslash
    (PyText.keep TerminalFocuser.allowed s) = false.
Proof.
  split; [apply sanitize_text|]. split; [apply keep_all_in|].
  split; apply (all_in_occurs TerminalFocuser.allowed);
    solve [reflexivity | apply keep_all_in].
Qed.

(** X19: sanitizing is idempotent, and leaves as it is a text made of
    allowed characters only; a value that is empty for Python gives the
    empty text, and another value that is not a text raises. *)
Theorem sanitize_twice (text : json) :
  (forall r, TerminalFocuser.sanitize_applescript_string text = Some r ->
             TerminalFocuser.sanitize_applescript_string (JStr r) = Some r) /\
  (forall s, text = JStr s ->
             PyText.all_in TerminalFocuser.allowed s = true ->
             TerminalFocuser.sanitize_applescript_string text = Some s) /\
  (Py.truthy text = false ->
   TerminalFocuser.sanitize_applescript_string text = Some "") /\
  (TerminalFocuser.sanitize_applescript_string text = None <->
   Py.truthy text = true /\
   match text with JStr _ => False | _ => True end).
Proof.
  repeat split.
  - intros r H. rewrite sanitize_text.
    assert (Hr : PyText.all_in TerminalFocuser.allowed r = true).
    { unfold TerminalFocuser.sanitize_applescript_string in H.
      destruct (Py.truthy text); cbn in H.
      - destruct text; try discriminate. injection H as <-. apply keep_all_in.
      - now injection H as <-. }
    now rewrite (keep_fixed _ _ Hr).
  - intros s -> H. rewrite sanitize_text. now rewrite (keep_fixed _ _ H).
  - intros H. unfold TerminalFocuser.sanitize_applescript_string. now rewrite H.
  - unfold TerminalFocuser.sanitize_applescript_string in H.
    destruct (Py.truthy text); [reflexivity|discriminate].
  - unfold TerminalFocuser.sanitize_applescript_string in H.
    destruct (Py.truthy text); [|discriminate]. now destruct text.
  - intros (Ht & Hs). unfold TerminalFocuser.sanitize_applescript_string.
    rewrite Ht. cbn. now destruct text.
Qed.

(* ================================================================= *)
(** ** Instructions added to the file *)

Lemma string_app_nil (s : string) : (s ++ "")%string = s.
Proof. induction s as [|c s IH]; [reflexivity|]. cbn. now rewrite IH. Qed.

Lemma prefix_app (s t : string) : String.prefix s (s ++ t) = true.
Proof.
  induction s as [|c s IH]; [now destruct t|]. cbn.
  destruct (ascii_dec c c); [exact IH|congruence].
Qed.

Lemma contains_prefix (s sub : string) :
  String.prefix sub s = true -> PyText.contains s sub = true.
Proof. intros H. destruct s; cbn [PyText.contains]; now rewrite H. Qed.

Lemma contains_app_r (a s sub : string) :
  PyText.contains s sub = true -> PyText.contains (a ++ s) sub = true.
Proof.
  intros H. induction a as [|c a IH]; [exact H|].
  cbn [String.append PyText.contains]. rewrite IH. apply orb_true_r.
Qed.

Lemma new_entry_contains today title instruction :
  PyText.contains (HistoryHandler.new_entry today title instruction)
                  instruction = true.
Proof.
  unfold HistoryHandler.new_entry.
  do 10 apply contains_app_r. apply contains_prefix, prefix_app.
Qed.

Lemma string_app_assoc (a b c : string) :
  ((a ++ b) ++ c)%string = (a ++ b ++ c)%string.
Proof. induction a as [|x a IH]; [reflexivity|]. cbn. now rewrite IH. Qed.

(** An end of line stays an end of line when the text is read, whatever
    stands before it. *)
Lemma universal_newlines_lf (a : string) : forall b,
  (exists a', PyText.universal_newlines (a ++ String PyText.lf b)
              = (a' ++ String PyText.lf (PyText.universal_newlines b))%string)
  /\
  (forall c, exists a',
      PyText.universal_newlines (String c a ++ String PyText.lf b)
      = (a' ++ String PyText.lf (PyText.universal_newlines b))%string).
Proof.
  induction a as [|x a IH]; intros b.
  - split; [exists ""%string; reflexivity|]. intros c.
    cbn [String.append PyText.universal_newlines].
    destruct (Ascii.eqb c PyText.cr).
    + exists ""%string. reflexivity.
    + exists (String c ""). reflexivity.
  - destruct (IH b) as [[a1 E1] IH2]. split; [apply IH2|]. intros c.
    destruct (IH2 x) as [a2 E2].
    cbn [String.append PyText.universal_newlines] in *.
    destruct (Ascii.eqb c PyText.cr).
    + destruct (Ascii.eqb x PyText.lf).
      * exists (String PyText.lf a1). cbn. now rewrite E1.
      * exists (String PyText.lf a2). cbn. now rewrite E2.
    + exists (String c a2). cbn. now rewrite E2.
Qed.

Lemma universal_newlines_plain (s t : string) :
  Holds.occurs PyText.cr s = false ->
  PyText.universal_newlines (s ++ t)
  = (s ++ PyText.universal_newlines t)%string.
Proof.
  induction s as [|c s IH]; [reflexivity|]. cbn.
  intros H. apply orb_false_elim in H as [Hc H]. now rewrite Hc, IH.
Qed.

(** The file as it is read after an entry has been added holds the
    instruction of the entry. *)
Lemma read_entry_contains text today title instruction :
  Holds.occurs PyText.cr instruction = false ->
  PyText.contains
    (HistoryHandler.read_text
       (text ++ HistoryHandler.new_entry today title instruction))
    instruction = true.
Proof.
  intros H. unfold HistoryHandler.read_text.
  assert (E : (text ++ HistoryHandler.new_entry today title instruction)%string
              = ((text ++ PyText.nl ++ PyText.nl ++ "## " ++ title ++ PyText.nl
                  ++ "*Added " ++ today ++ " via Claude History Analyzer*"
                  ++ PyText.nl)
                 ++ String PyText.lf (instruction ++ PyText.nl))%string).
  { unfold HistoryHandler.new_entry. rewrite !string_app_assoc. reflexivity. }
  rewrite E.
  match goal with
  | |- context [PyText.universal_newlines (?a ++ String PyText.lf ?b)] =>
      destruct (universal_newlines_lf a b) as [[a' ->] _]
  end.
  apply contains_app_r. cbn [PyText.contains].
  rewrite (universal_newlines_plain _ _ H).
  rewrite (contains_prefix _ _ (prefix_app _ _)). apply orb_true_r.
Qed.

Lemma universal_newlines_no_cr (s : string) :
  Holds.occurs PyText.cr (PyText.universal_newlines s) = false /\
  forall c, Holds.occurs PyText.cr (PyText.universal_newlines (String c s))
            = false.
Proof.
  induction s as [|x s [IH1 IH2]].
  - split; [reflexivity|]. intros c. cbn.
    destruct (Ascii.eqb c PyText.cr) eqn:E; cbn; [reflexivity|].
    now rewrite E.
  - split; [apply IH2|]. intros c. specialize (IH2 x).
    cbn [PyText.universal_newlines] in *.
    destruct (Ascii.eqb c PyText.cr) eqn:E.
    + cbn [Holds.occurs]. destruct (Ascii.eqb x PyText.lf); cbn; assumption.
    + cbn [Holds.occurs]. now rewrite E, IH2.
Qed.

Lemma contains_occurs c (sub : string) :
  Holds.occurs c sub = true ->
  forall s, PyText.contains s sub = true -> Holds.occurs c s = true.
Proof.
  intros Hc. induction s as [|x s IH]; cbn [PyText.contains]; intros H.
  - rewrite orb_false_r in H. destruct sub; [discriminate|].
    cbn in H. discriminate.
  - apply orb_prop in H as [H|H].
    + clear IH. revert H. generalize (String x s). clear x s.
      induction sub as [|y sub IHs]; [discriminate|].
      intros [|x s]; cbn [String.prefix]; [discriminate|].
      destruct (ascii_dec y x) as [->|]; [|discriminate].
      cbn in Hc |- *. intros H.
      destruct (Ascii.eqb x c); [reflexivity|]. cbn in *. now apply IHs.
    + cbn. rewrite (IH H). apply orb_true_r.
Qed.

(** The file as it is read holds no text with a carriage return. *)
Lemma read_without_return file instruction :
  Holds.occurs PyText.cr instruction = true ->
  PyText.contains (Stored.read file) instruction = false.
Proof.
  intros H. destruct (PyText.contains (Stored.read file) instruction) eqn:E;
    [|reflexivity].
  apply (contains_occurs _ _ H) in E.
  destruct file as [t|]; [|discriminate].
  cbn in E. unfold HistoryHandler.read_text in E.
  now rewrite (proj1 (universal_newlines_no_cr t)) in E.
Qed.

Section Instructions.

Variable json_loads : string -> option json.
Variable attribute_error : json -> string -> string.
Variable CLAUDE_MD_PATH : string.

Local Abbreviation handle_add_instruction :=
  (HistoryHandler.handle_add_instruction json_loads attribute_error
                                         CLAUDE_MD_PATH).
Local Abbreviation get_stripped := (HistoryHandler.get_stripped attribute_error).

(** A request changes the file only by adding an entry for an instruction
    that is not empty and that the file, as it is read, does not hold. *)
Lemma add_instruction_cases today body file resp file' :
  handle_add_instruction today body file = (resp, file') ->
  (file' = file /\
   (HistoryHandler.status_code resp = 200 ->
    resp = Stored.refused /\
    exists data instruction,
      json_loads body = Some data /\
      get_stripped data "instruction" = inl instruction /\
      PyText.contains (Stored.read file) instruction = true)) \/
  (exists data title instruction,
      json_loads body = Some data /\
      get_stripped data "instruction" = inl instruction /\
      get_stripped data "title" = inl title /\
      instruction <> "" /\
      PyText.contains (Stored.read file) instruction = false /\
      file' = Some (Stored.text file
                    ++ HistoryHandler.new_entry today title instruction)%string /\
      HistoryHandler.status_code resp = 200 /\
      Py.dict_get (Demo.fields (HistoryHandler.data resp)) "success"
      = Some (JBool true)).
Proof.
  unfold HistoryHandler.handle_add_instruction.
  fold (Stored.text file). fold (Stored.read file).
  destruct (json_loads body) as [data|];
    [|intros H; injection H as <- <-; left; split; [reflexivity|discriminate]].
  destruct (get_stripped data "instruction") as [instruction|m] eqn:Ei;
    [|intros H; injection H as <- <-; left; split; [reflexivity|discriminate]].
  destruct (get_stripped data "title") as [title|m] eqn:Et;
    [|intros H; injection H as <- <-; left; split; [reflexivity|discriminate]].
  destruct (String.eqb_spec instruction "") as [->|Hne];
    [intros H; injection H as <- <-; left; split; [reflexivity|discriminate]|].
  destruct (PyText.contains (Stored.read file) instruction) eqn:Ec;
    intros H; injection H as <- <-.
  - left. split; [reflexivity|]. intros _. split; [reflexivity|].
    exists data, instruction. auto.
  - right. exists data, title, instruction. cbn. repeat split; auto.
Qed.


(** X21: an instruction without a carriage return is added once: after a
    request that has changed the file, the same request, on whatever day,
    is answered that the instruction exists already and leaves the file as
    it is; and the text that [handle_get_claude_md] then returns holds the
    instruction. *)
Theorem add_instruction_once today body file resp file' data instruction :
  handle_add_instruction today body file = (resp, file') ->
  file' <> file ->
  json_loads body = Some data ->
  get_stripped data "instruction" = inl instruction ->
  Holds.occurs PyText.cr instruction = false ->
  (forall later, handle_add_instruction later body file'
                 = (Stored.refused, file')) /\
  HistoryHandler.handle_get_claude_md CLAUDE_MD_PATH file'
  = {| HistoryHandler.status_code := 200;
       HistoryHandler.data :=
         JObj [("exists", JBool true);
               ("path", JStr CLAUDE_MD_PATH);
               ("content", JStr (Stored.read file'))] |} /\
  PyText.contains (Stored.read file') instruction = true.
Proof.
  intros H Hch Hl Hi Hcr.
  destruct (add_instruction_cases _ _ _ _ _ H)
    as [(-> & _)|(d & t & i & Hl' & Hi' & Ht & Hne & Hc & -> & Hs & Hok)];
    [congruence|].
  rewrite Hl in Hl'. injection Hl' as <-. rewrite Hi in Hi'. injection Hi' as <-.
  assert (Hin : PyText.contains
                  (HistoryHandler.read_text
                     (Stored.text file
                      ++ HistoryHandler.new_entry today t instruction))
                  instruction = true) by now apply read_entry_contains.
  split; [|split; [reflexivity|exact Hin]].
  intros later. unfold HistoryHandler.handle_add_instruction.
  rewrite Hl, Hi, Ht. destruct (String.eqb_spec instruction ""); [contradiction|].
  now rewrite Hin.
Qed.

(** X24: an instruction with a carriage return in it is never found in
    the file as it is read, where carriage returns are ends of line: every
    request that carries it appends one more entry. *)
Theorem add_instruction_with_return today body file data title instruction :
  json_loads body = Some data ->
  get_stripped data "instruction" = inl instruction ->
  get_stripped data "title" = inl title ->
  Holds.occurs PyText.cr instruction = true ->
  handle_add_instruction today body file
  = (Stored.added CLAUDE_MD_PATH,
     Some (Stored.text file
           ++ HistoryHandler.new_entry today title instruction)%string) /\
  forall later,
    handle_add_instruction later body
      (Some (Stored.text file
             ++ HistoryHandler.new_entry today title instruction)%string)
    = (Stored.added CLAUDE_MD_PATH,
       Some ((Stored.text file
              ++ HistoryHandler.new_entry today title instruction)
             ++ HistoryHandler.new_entry later title instruction)%string).
Proof.
  intros Hl Hi Ht Hcr.
  assert (Hadd : forall day f,
             handle_add_instruction day body f
             = (Stored.added CLAUDE_MD_PATH,
                Some (Stored.text f
                      ++ HistoryHandler.new_entry day title instruction)%string)).
  { intros day f. unfold HistoryHandler.handle_add_instruction.
    rewrite Hl, Hi, Ht.
    destruct (String.eqb_spec instruction "") as [E|_];
      [rewrite E in Hcr; discriminate|].
    fold (Stored.read f). fold (Stored.text f).
    now rewrite (read_without_return f instruction Hcr). }
  split; [apply Hadd|]. intros later. apply Hadd.
Qed.

End Instructions.

(* ================================================================= *)
(** ** The answer to a request for the sessions *)

Section Realtime.

Variable json_loads : string -> option json.
Variable py_str : json -> string.
Variable py_lt_other : json -> json -> option bool.
Variable str_exn : exn -> string.

Local Abbreviation scan :=
  (RealtimeScanner.scan_active_sessions json_loads py_str py_lt_other).
Local Abbreviation handle_get_realtime :=
  (HistoryHandler.handle_get_realtime json_loads py_str py_lt_other str_exn).


End Realtime.

(* ================================================================= *)
(** ** The term that a terminal is searched for *)

Lemma split_absent (c : ascii) (s : string) :
  Holds.occurs c s = false -> PyStr.split c s = [s].
Proof.
  induction s as [|c' s IH]; [reflexivity|]. cbn.
  intros H. apply orb_false_elim in H as [Hc H]. rewrite Hc, (IH H).
  reflexivity.
Qed.

Lemma split_slashed (s : string) :
  Holds.occurs "/"%char s = false ->
  PyStr.split "/"%char (Holds.slashed s) = PyStr.split "-"%char s.
Proof.
  induction s as [|c s IH]; [reflexivity|]. cbn.
  intros H. apply orb_false_elim in H as [Hc H]. rewrite <- (IH H).
  destruct (Ascii.eqb_spec c "-"%char) as [->|Hd]; [reflexivity|].
  now rewrite Hc.
Qed.

(** The last segment of the path of a project is the name of the
    project. *)
Lemma project_path_last_segment (dir_name : string) :
  Holds.occurs "/"%char dir_name = false ->
  last (PyStr.split "/"%char (snd (RealtimeScanner.project_of dir_name))) ""
  = fst (RealtimeScanner.project_of dir_name).
Proof.
  intros H. destruct (PyStr.startswith dir_name "-") eqn:E.
  - rewrite (project_of_dash_path _ E), (project_of_dash_name _ E).
    now rewrite split_slashed.
  - unfold RealtimeScanner.project_of. rewrite E. cbn [fst snd].
    now rewrite split_absent.
Qed.

Section Focus.

Variable json_loads : string -> option json.
Variable attribute_error : json -> string -> string.
Variable focus_terminal : json -> json + string.

Local Abbreviation search_term := (HistoryHandler.search_term attribute_error).
Local Abbreviation handle_focus_terminal :=
  (HistoryHandler.handle_focus_terminal json_loads attribute_error
                                        focus_terminal).

(** X23: for a project of the scan, a request to focus its terminal that
    gives the [project_path] alone searches for the same term as one that
    gives the [project_name] too, namely the [project_name]: the two
    requests get the same answer. *)
Theorem focus_by_path_or_name dir_name body_path body_both :
  Holds.occurs "/"%char dir_name = false ->
  let pn := fst (RealtimeScanner.project_of dir_name) in
  let pp := snd (RealtimeScanner.project_of dir_name) in
  json_loads body_path = Some (JObj [("project_path", JStr pp)]) ->
  json_loads body_both
  = Some (JObj [("project_name", JStr pn); ("project_path", JStr pp)]) ->
  search_term (JStr "") (JStr pp) = inl (JStr pn) /\
  search_term (JStr pn) (JStr pp) = inl (JStr pn) /\
  handle_focus_terminal body_path = handle_focus_terminal body_both.
Proof.
  intros H pn pp H1 H2.
  assert (Hlast : last (PyStr.split "/"%char pp) "" = pn)
    by apply (project_path_last_segment dir_name H).
  clearbody pn pp.
  assert (Ha : search_term (JStr "") (JStr pp) = inl (JStr pn)).
  { unfold HistoryHandler.search_term. cbn. now rewrite Hlast. }
  assert (Hb : search_term (JStr pn) (JStr pp) = inl (JStr pn)).
  { unfold HistoryHandler.search_term. cbn [Py.truthy].
    destruct (String.eqb_spec pn "") as [E|_]; cbn [negb]; [|reflexivity].
    now rewrite Hlast. }
  split; [exact Ha|]. split; [exact Hb|].
  unfold HistoryHandler.handle_focus_terminal. rewrite H1, H2.
  cbn [Py.get]. unfold Py.dget. cbn [Py.dict_get String.eqb Ascii.eqb Bool.eqb].
  rewrite Ha, Hb. cbn [Py.truthy String.eqb negb andb].
  destruct (String.eqb_spec pp "") as [Ep|Ep].
  - subst pp. cbn in Hlast. subst pn. reflexivity.
  - destruct (String.eqb_spec pn ""); reflexivity.
Qed.

End Focus.

(* ================================================================= *)
(** ** The further theorems at the lines of the examples *)

Lemma snapshot_shape_witness :
  exists s,
    Demo.parse (Demo.file "abc.jsonl" 940 [Demo.bash_line])
               "proj" "/Users/alice/proj" 60 = Some s /\
    In (state s) Shape.states /\
    (state s = "idle" <-> (300 < 60)%Q) /\
    Shape.pending_fits s /\
    (exists p, last_message_preview s = JStr p) /\
    project_name s = "proj" /\ project_path s = "/Users/alice/proj" /\
    idle_seconds s = Py.int_of 60.
Proof.
  eexists. split; [reflexivity|].
  apply (snapshot_shape Demo.loads Demo.str
           (Demo.file "abc.jsonl" 940 [Demo.bash_line])
           "proj" "/Users/alice/proj" 60).
  reflexivity.
Defined.

Lemma report_members_witness :
  exists r,
    Demo.scan "2024-01-01T00:10:00+00:00" 1000
      (Demo.alice [Demo.file "a.jsonl" 940 [Demo.user_line];
                   Demo.file "b.jsonl" 300 [Demo.user_at_line]]) = Ok r /\
    forall s,
      In s (active_sessions r) <->
      Holds.from_root Demo.loads Demo.str 1000
        (Demo.alice [Demo.file "a.jsonl" 940 [Demo.user_line];
                     Demo.file "b.jsonl" 300 [Demo.user_at_line]]) s.
Proof.
  scanned r E. intros s.
  exact (report_members Demo.loads Demo.str Demo.lt_other
           "2024-01-01T00:10:00+00:00" 1000 _ r s E).
Defined.

Lemma report_counts_witness :
  exists r,
    Demo.scan "2024-01-01T00:10:00+00:00" 1000
      (Demo.alice [Demo.file "a.jsonl" 940 [Demo.user_line];
                   Demo.file "b.jsonl" 950 [Demo.bash_line]]) = Ok r /\
    waiting_count r
    = Z.of_nat (List.length (filter Holds.is_waiting (active_sessions r))) /\
    processing_count r
    = Z.of_nat (List.length (filter Holds.is_processing (active_sessions r))) /\
    waiting_count r + processing_count r
    <= Z.of_nat (List.length (active_sessions r)).
Proof.
  scanned r E.
  exact (report_counts Demo.loads Demo.str Demo.lt_other
           "2024-01-01T00:10:00+00:00" 1000 _ r E).
Defined.

Lemma report_waiting_projects_witness :
  exists r,
    Demo.scan "2024-01-01T00:10:00+00:00" 1000
      (Demo.alice [Demo.file "a.jsonl" 940 [Demo.ask_line];
                   Demo.file "b.jsonl" 950 [Demo.bash_line]]) = Ok r /\
    NoDup (projects_with_waiting r) /\
    forall p, In p (projects_with_waiting r) <->
              exists s, In s (active_sessions r) /\
                        Holds.is_waiting s = true /\ project_name s = p.
Proof.
  scanned r E.
  exact (report_waiting_projects Demo.loads Demo.str Demo.lt_other
           "2024-01-01T00:10:00+00:00" 1000 _ r E).
Defined.

Lemma report_snapshots_witness :
  exists r,
    Demo.scan "2024-01-01T00:10:00+00:00" 1000
      (Demo.alice [Demo.file "a.jsonl" 500 [Demo.user_line]]) = Ok r /\
    forall s,
      In s (active_sessions r) ->
      idle_seconds s <= 600 /\
      (300 < idle_seconds s -> state s = "idle") /\
      (state s = "idle" -> 300 <= idle_seconds s) /\
      In (state s) Shape.states /\
      Shape.pending_fits s /\
      exists entries dir_name children,
        Demo.alice [Demo.file "a.jsonl" 500 [Demo.user_line]] = Some entries /\
        In (Dir dir_name children) entries /\
        RealtimeScanner.project_of dir_name = (project_name s, project_path s).
Proof.
  scanned r E. intros s Hs.
  exact (report_snapshots Demo.loads Demo.str Demo.lt_other
           "2024-01-01T00:10:00+00:00" 1000 _ r s E Hs).
Defined.

Lemma only_last_ten_lines_witness :
  Demo.parse {| f_name := "abc.jsonl"; f_mtime := Some 940%Q;
                f_lines := Some ([Demo.bash_line]
                                 ++ Sample.padded [Demo.user_line]) |}
             "proj" "/Users/alice/proj" 60
  = Demo.parse {| f_name := "abc.jsonl"; f_mtime := Some 940%Q;
                  f_lines := Some (Sample.padded [Demo.user_line]) |}
               "proj" "/Users/alice/proj" 60.
Proof.
  apply (only_last_ten_lines Demo.loads Demo.str "abc.jsonl" (Some 940%Q)
           [Demo.bash_line] (Sample.padded [Demo.user_line])).
  simpl. lia.
Defined.

Lemma non_assistant_state_witness :
  exists s,
    Demo.parse (Demo.file "abc.jsonl" 940 [Demo.user_line])
               "proj" "/Users/alice/proj" 60 = Some s /\
    state s = "processing" /\
    pending_approval s = None /\
    last_message_preview s = JStr "" /\
    forall r,
      processing_count (RealtimeScanner.accumulate r "proj" s)
      = processing_count r + 1 /\
      waiting_count (RealtimeScanner.accumulate r "proj" s) = waiting_count r /\
      projects_with_waiting (RealtimeScanner.accumulate r "proj" s)
      = projects_with_waiting r.
Proof.
  apply (non_assistant_state Demo.loads Demo.str
           (Demo.file "abc.jsonl" 940 [Demo.user_line])
           "proj" "/Users/alice/proj" 60 (Demo.fields Demo.user_entry)).
  - apply last_entry_of_line. reflexivity.
  - reflexivity.
  - reflexivity.
  - unfold Qle; simpl; lia.
Defined.

Lemma first_tool_use_other_witness :
  exists s,
    Demo.parse (Demo.file "abc.jsonl" 940 [Demo.bash_line])
               "proj" "/Users/alice/proj" 60 = Some s /\
    state s = "waiting_for_approval" /\
    pending_approval s
    = Some {| pa_type := "tool_use";
              pa_tool_name := JStr "Bash";
              pa_description := JStr "ls -la" |} /\
    last_tool s = Some {| lt_name := JStr "Bash"; lt_timestamp := JNull |} /\
    forall r,
      waiting_count (RealtimeScanner.accumulate r "proj" s)
      = waiting_count r + 1 /\
      processing_count (RealtimeScanner.accumulate r "proj" s)
      = processing_count r /\
      In "proj" (projects_with_waiting (RealtimeScanner.accumulate r "proj" s)).
Proof.
  apply (first_tool_use_other Demo.loads Demo.str
           (Demo.file "abc.jsonl" 940 [Demo.bash_line])
           "proj" "/Users/alice/proj" 60 (Demo.fields Demo.bash_entry)
           [] (Demo.obj_tool "Bash" [("command", JStr "ls -la")]) []
           [("command", JStr "ls -la")] (JStr "ls -la")).
  - apply last_entry_of_line. reflexivity.
  - split; reflexivity.
  - unfold Qle; simpl; lia.
  - reflexivity.
  - reflexivity.
  - reflexivity.
  - reflexivity.
  - reflexivity.
Defined.

Lemma first_tool_use_malformed_witness :
  Sample.parse (Demo.file "abc.jsonl" 940 [Sample.numeric_command_line])
               "proj" "/Users/alice/proj" 60 = None.
Proof.
  apply (first_tool_use_malformed Sample.loads Demo.str
           (Demo.file "abc.jsonl" 940 [Sample.numeric_command_line])
           "proj" "/Users/alice/proj" 60
           (Demo.fields Sample.numeric_command_entry) []
           (Demo.obj_tool "Bash" [("description", JStr "List the files");
                                  ("command", JInt 5)]) []).
  - exists [], Sample.numeric_command_line. split; reflexivity.
  - split; reflexivity.
  - unfold Qle; simpl; lia.
  - reflexivity.
  - reflexivity.
  - right. split; [reflexivity|]. eexists. split; reflexivity.
Defined.

Lemma tool_recovered_witness :
  exists s,
    Demo.parse (Demo.file "abc.jsonl" 940 [Demo.bash_line; Demo.user_at_line])
               "proj" "/Users/alice/proj" 60 = Some s /\
    last_tool s = Some {| lt_name := JStr "Bash"; lt_timestamp := JNull |} /\
    pending_approval s = None /\
    In (state s) ["idle"; "processing"; "unknown"].
Proof.
  apply (tool_recovered Demo.loads Demo.str
           (Demo.file "abc.jsonl" 940 [Demo.bash_line; Demo.user_at_line])
           "proj" "/Users/alice/proj" 60 [] Demo.bash_line Demo.user_at_line
           (Demo.fields Demo.user_at_entry) (Demo.fields Demo.bash_entry)
           [] (Demo.obj_tool "Bash" [("command", JStr "ls -la")]) []);
    try reflexivity.
  split; reflexivity.
Defined.

Lemma preview_of_last_text_witness :
  exists s,
    Demo.parse (Demo.file "abc.jsonl" 940 [Demo.anything_else_line])
               "proj" "/Users/alice/proj" 60 = Some s /\
    last_message_preview s = JStr "Done. Anything else?" /\
    (String.length (Holds.preview_of "Done. Anything else?") <= 153)%nat.
Proof.
  apply (preview_of_last_text Demo.loads Demo.str
           (Demo.file "abc.jsonl" 940 [Demo.anything_else_line])
           "proj" "/Users/alice/proj" 60
           (Demo.fields Demo.anything_else_entry) []
           (Demo.obj_text "Done. Anything else?") [] "Done. Anything else?").
  - apply last_entry_of_line. reflexivity.
  - split; reflexivity.
  - unfold Qle; simpl; lia.
  - reflexivity.
  - reflexivity.
  - reflexivity.
  - reflexivity.
Defined.

Lemma project_path_slashed_witness :
  snd (RealtimeScanner.project_of "-Users-alice-my-proj")
  = "/Users/alice/my/proj" /\
  Holds.occurs "-"%char (snd (RealtimeScanner.project_of "-Users-alice-my-proj"))
  = false /\
  Holds.occurs "-"%char (fst (RealtimeScanner.project_of "-Users-alice-my-proj"))
  = false.
Proof.
  apply (project_path_slashed "-Users-alice-my-proj"). reflexivity.
Defined.

Lemma unread_entries_ignored_witness :
  Demo.scan "2024-01-01T00:10:00+00:00" 1000
    (Some ([] ++ Dir "-Users-alice-proj"
                     ([] ++ Demo.file "agent-1.jsonl" 940 [Demo.bash_line]
                         :: [Demo.file "abc.jsonl" 940 [Demo.user_line]])
               :: []))
  = Demo.scan "2024-01-01T00:10:00+00:00" 1000
      (Some ([] ++ Dir "-Users-alice-proj"
                       ([] ++ [Demo.file "abc.jsonl" 940 [Demo.user_line]])
                 :: [])).
Proof.
  apply (unread_entries_ignored Demo.loads Demo.str Demo.lt_other
           "2024-01-01T00:10:00+00:00" 1000 [] []).
  right. reflexivity.
Defined.

Lemma report_order_kept_witness :
  exists r,
    Demo.scan "2024-01-01T00:10:00+00:00" 1000
      (Demo.alice [Demo.file "a.jsonl" 940 [Demo.user_line];
                   Demo.file "b.jsonl" 950 [Demo.user_at_line];
                   Demo.file "c.jsonl" 960 [Demo.bash_line]]) = Ok r /\
    Permutation
      (Holds.gathered Demo.loads Demo.str 1000
         (Demo.alice [Demo.file "a.jsonl" 940 [Demo.user_line];
                      Demo.file "b.jsonl" 950 [Demo.user_at_line];
                      Demo.file "c.jsonl" 960 [Demo.bash_line]]))
      (active_sessions r) /\
    forall t,
      filter (Holds.keyed t) (active_sessions r)
      = filter (Holds.keyed t)
          (Holds.gathered Demo.loads Demo.str 1000
             (Demo.alice [Demo.file "a.jsonl" 940 [Demo.user_line];
                          Demo.file "b.jsonl" 950 [Demo.user_at_line];
                          Demo.file "c.jsonl" 960 [Demo.bash_line]])).
Proof.
  scanned r E.
  exact (report_order_kept Demo.loads Demo.str Demo.lt_other
           "2024-01-01T00:10:00+00:00" 1000 _ r E).
Defined.

Lemma session_id_of_snapshot_witness :
  exists s,
    Demo.parse (Demo.file "abc.jsonl" 940 [Demo.user_line])
               "proj" "/Users/alice/proj" 60 = Some s /\
    session_id s = JStr "abc".
Proof.
  eexists. split; [reflexivity|].
  apply (session_id_of_snapshot Demo.loads Demo.str
           (Demo.file "abc.jsonl" 940 [Demo.user_line])
           "proj" "/Users/alice/proj" 60 (Demo.fields Demo.user_entry) "abc").
  - apply last_entry_of_line. reflexivity.
  - reflexivity.
  - right. reflexivity.
  - reflexivity.
Defined.



Lemma sanitize_twice_witness :
  TerminalFocuser.sanitize_applescript_string (JStr "my-proj_1.0")
  = Some "my-proj_1.0".
Proof.
  apply (sanitize_twice (JStr "my-proj_1.0")); reflexivity.
Defined.


Lemma add_instruction_once_witness :
  let out := Sample.add_instruction "2024-01-01" Sample.add_body None in
  (forall later,
      Sample.add_instruction later Sample.add_body (snd out)
      = (Stored.refused, snd out)) /\
  HistoryHandler.handle_get_claude_md Sample.claude_md_path (snd out)
  = {| HistoryHandler.status_code := 200;
       HistoryHandler.data :=
         JObj [("exists", JBool true);
               ("path", JStr Sample.claude_md_path);
               ("content", JStr (Stored.read (snd out)))] |} /\
  PyText.contains (Stored.read (snd out)) "Run the tests before a commit."
  = true.
Proof.
  intros out.
  apply (add_instruction_once Sample.loads Sample.attribute_error
           Sample.claude_md_path "2024-01-01" Sample.add_body None
           (fst out) (snd out) Sample.add_data
           "Run the tests before a commit.").
  - reflexivity.
  - vm_compute. discriminate.
  - reflexivity.
  - reflexivity.
  - reflexivity.
Defined.

Lemma add_instruction_with_return_witness :
  Sample.add_instruction "2024-01-01" Sample.two_lines_body None
  = (Stored.added Sample.claude_md_path,
     Some (Stored.text None
           ++ HistoryHandler.new_entry "2024-01-01" "Lines" Sample.two_lines)%string)
  /\
  forall later,
    Sample.add_instruction later Sample.two_lines_body
      (Some (Stored.text None
             ++ HistoryHandler.new_entry "2024-01-01" "Lines"
                  Sample.two_lines)%string)
    = (Stored.added Sample.claude_md_path,
       Some ((Stored.text None
              ++ HistoryHandler.new_entry "2024-01-01" "Lines" Sample.two_lines)
             ++ HistoryHandler.new_entry later "Lines" Sample.two_lines)%string).
Proof.
  apply (add_instruction_with_return Sample.loads Sample.attribute_error
           Sample.claude_md_path "2024-01-01" Sample.two_lines_body None
           Sample.two_lines_data "Lines" Sample.two_lines); reflexivity.
Defined.

Lemma focus_by_path_or_name_witness :
  HistoryHandler.search_term Sample.attribute_error
    (JStr "") (JStr "/Users/alice/proj") = inl (JStr "proj") /\
  HistoryHandler.search_term Sample.attribute_error
    (JStr "proj") (JStr "/Users/alice/proj") = inl (JStr "proj") /\
  HistoryHandler.handle_focus_terminal Sample.loads Sample.attribute_error
    Sample.focus_terminal Sample.path_body
  = HistoryHandler.handle_focus_terminal Sample.loads Sample.attribute_error
      Sample.focus_terminal Sample.both_body.
Proof.
  apply (focus_by_path_or_name Sample.loads Sample.attribute_error
           Sample.focus_terminal "-Users-alice-proj"
           Sample.path_body Sample.both_body); reflexivity.
Defined.
